(** * The deferred payment scheme of x402 ([x402/deferred.py])

    A shallow embedding of the voucher life cycle: creation of a first
    voucher, validated aggregation, the EIP-712 typed message, signing and
    verification, and the header codec.

    Modelling conventions.
    - A Python [str] is a Rocq [string] holding its UTF-8 encoding; for ASCII
      text the two coincide character by character.  [str.lower] is modelled
      on ASCII letters only.
    - A Python [int] is a [Z]; the interpreter's optional cap on the number of
      digits in int/str conversions is not modelled.
    - Exceptions are values of [exn]; a computation that may raise returns a
      [result]; a computation that also reads the clock or touches [dict]
      objects runs in the monad [M] over a [world] (heap and clock).
    - The libraries the module calls ([eth_utils], [eth_account], the
      chain-id table) are the fields of the class [Externals]. *)

From Stdlib Require Import ZArith NArith String Ascii List Bool Lia.
From Stdlib Require Import Decimal DecimalString DecimalPos DecimalZ.
From stdpp Require Import base list strings.

Local Open Scope string_scope.
Local Open Scope Z_scope.
Local Open Scope list_scope.

#[local] Arguments String.append : simpl nomatch.

(** ** Strings *)

Definition char_code (c : ascii) : N := N_of_ascii c.

Definition in_range (lo hi : N) (c : ascii) : bool :=
  ((lo <=? char_code c) && (char_code c <=? hi))%N.

(** [str.lower()], on ASCII letters. *)
Definition lower_char (c : ascii) : ascii :=
  if in_range 65 90 c then ascii_of_N (char_code c + 32) else c.

Fixpoint lower (s : string) : string :=
  match s with
  | EmptyString => EmptyString
  | String c r => String (lower_char c) (lower r)
  end.

(** [a.lower() == b.lower()] *)
Definition eq_nocase (a b : string) : bool := String.eqb (lower a) (lower b).

(** [s.startswith(p)] *)
Fixpoint startswith (p s : string) : bool :=
  match p, s with
  | EmptyString, _ => true
  | String a p', String b s' => Ascii.eqb a b && startswith p' s'
  | String _ _, EmptyString => false
  end.

(** ** Integers and their decimal text *)

(** Characters that [int()] and [str.strip()] treat as blank. *)
Definition is_space (c : ascii) : bool :=
  in_range 9 13 c || in_range 28 32 c.

Fixpoint lstrip (s : string) : string :=
  match s with
  | String c r => if is_space c then lstrip r else s
  | EmptyString => EmptyString
  end.

Fixpoint rstrip (s : string) : string :=
  match s with
  | EmptyString => EmptyString
  | String c r =>
      match rstrip r with
      | EmptyString => if is_space c then EmptyString else String c EmptyString
      | r' => String c r'
      end
  end.

Definition strip (s : string) : string := rstrip (lstrip s).

Definition digit_of_char (c : ascii) : option (uint -> uint) :=
  if Ascii.eqb c "0" then Some D0 else
  if Ascii.eqb c "1" then Some D1 else
  if Ascii.eqb c "2" then Some D2 else
  if Ascii.eqb c "3" then Some D3 else
  if Ascii.eqb c "4" then Some D4 else
  if Ascii.eqb c "5" then Some D5 else
  if Ascii.eqb c "6" then Some D6 else
  if Ascii.eqb c "7" then Some D7 else
  if Ascii.eqb c "8" then Some D8 else
  if Ascii.eqb c "9" then Some D9 else None.

Definition is_digit (c : ascii) : bool := in_range 48 57 c.

Fixpoint all_digits (s : string) : bool :=
  match s with
  | EmptyString => true
  | String c r => is_digit c && all_digits r
  end.

(** The digits of an [int()] literal: groups of digits separated by single
    underscores.  [after_digit] tells whether the previous character was a
    digit. *)
Fixpoint int_literal_digits (after_digit : bool) (s : string) : option uint :=
  match s with
  | EmptyString => if after_digit then Some Nil else None
  | String c r =>
      if Ascii.eqb c "_" then
        if after_digit then
          match r with
          | EmptyString => None
          | String c' _ => if is_digit c' then int_literal_digits false r else None
          end
        else None
      else
        match digit_of_char c with
        | Some d => option_map d (int_literal_digits true r)
        | None => None
        end
  end.

(** [int(s)] for a string [s]: [None] stands for [ValueError]. *)
Definition int_of_str (s : string) : option Z :=
  match strip s with
  | String "-" r => option_map (fun u => Z.of_int (Neg u)) (int_literal_digits false r)
  | String "+" r => option_map (fun u => Z.of_int (Pos u)) (int_literal_digits false r)
  | r => option_map (fun u => Z.of_int (Pos u)) (int_literal_digits false r)
  end.

(** [str(n)] for an integer [n]. *)
Definition str_of_int (n : Z) : string := NilZero.string_of_int (Z.to_int n).

(** ** Exceptions *)

Inductive malformed : Type :=
| NoTypeField                       (* "Payment requirements extra must contain 'type' field" *)
| UnknownVoucherType.               (* "Unknown voucher type: ..." *)

Inductive decode_error : Type :=
| BadBase64
| BadUtf8
| BadJson.

(** The exceptions of the module.  The first group carries the names the
    specification gives to the messages of the [ValueError]s the module
    raises; the second group is raised by the collaborators; the last by the
    Python runtime. *)
Inductive exn : Type :=
| MalformedRequirements (why : malformed)
| InvalidVoucherSeed (cause : exn)      (* "Invalid extra data for new voucher: {e}" *)
| InvalidAggregationSeed (cause : exn)  (* "Invalid extra data for voucher aggregation: {e}" *)
| InvalidSeller                         (* "Invalid voucher seller" *)
| InvalidAsset                          (* "Invalid voucher asset" *)
| InvalidChainId                        (* "Invalid voucher chainId" *)
| VoucherExpired                        (* "Voucher expired" *)
| VoucherTimestampInFuture              (* "Voucher timestamp is in the future" *)
| InvalidVoucherSignature               (* "Invalid voucher signature" *)
| SignHeaderFailed (cause : exn)        (* Exception("Failed to sign payment header: {e}") *)
| InvalidAddress
| UnknownNetwork
| InvalidSignatureFormat
| SigningFailure
| TypedDataFailure
| InvalidAmount                         (* ValueError of int() *)
| DecodeFailure (why : decode_error)
| ValidationError                       (* pydantic *)
| KeyError (k : string)
| TypeError
| CircularReference.                    (* ValueError of json.dumps *)

Inductive result (A : Type) : Type :=
| Ok (a : A)
| Err (e : exn).
Arguments Ok {A} a.
Arguments Err {A} e.

#[export] Instance result_ret : MRet result := @Ok.
#[export] Instance result_bind : MBind result :=
  fun A B f m => match m with Ok a => f a | Err e => Err e end.

Definition is_ok {A} (r : result A) : bool :=
  match r with Ok _ => true | Err _ => false end.

Definition of_option {A} (e : exn) (o : option A) : result A :=
  match o with Some a => Ok a | None => Err e end.

(** [int(s)] as a computation. *)
Definition py_int (s : string) : result Z := of_option InvalidAmount (int_of_str s).

(** ** Python values, and the heap of [dict] and [list] objects

    A [dict] or a [list] is an object with identity: a value refers to it by
    its location, and an update through one reference is seen through every
    other. *)

Abbreviation loc := nat.

Inductive pyval : Type :=
| PNone
| PBool (b : bool)
| PInt (n : Z)
| PFloat (lit : string)     (* a float, kept as the literal that denotes it *)
| PStr (s : string)
| PHexBytes (b : string)    (* a [HexBytes] value *)
| PRef (r : loc).

Inductive pyobj : Type :=
| ODict (d : list (string * pyval))
| OList (l : list pyval).

(** [d.get(k)], [k in d] and [d[k] = v] on insertion-ordered dictionaries. *)
Fixpoint dict_get {V} (k : string) (d : list (string * V)) : option V :=
  match d with
  | [] => None
  | (k', v) :: r => if String.eqb k k' then Some v else dict_get k r
  end.

Definition dict_has {V} (k : string) (d : list (string * V)) : bool :=
  match dict_get k d with Some _ => true | None => false end.

Fixpoint dict_set {V} (k : string) (v : V) (d : list (string * V)) : list (string * V) :=
  match d with
  | [] => [(k, v)]
  | (k', v') :: r =>
      if String.eqb k k' then (k', v) :: r else (k', v') :: dict_set k v r
  end.

(** The state a call runs in: the heap, and how many times the clock has
    been read. *)
Record world : Type := World {
  heap : list pyobj;
  ticks : nat
}.

Definition M (A : Type) : Type := world -> result A * world.

#[export] Instance M_ret : MRet M := fun A a w => (Ok a, w).
#[export] Instance M_bind : MBind M :=
  fun A B f m w =>
    match m w with
    | (Ok a, w') => f a w'
    | (Err e, w') => (Err e, w')
    end.

Definition raise {A} (e : exn) : M A := fun w => (Err e, w).

Definition lift {A} (r : result A) : M A := fun w => (r, w).

(** [try: m  except Exception as e: raise wrap(e)]; what [m] did to the
    state before it raised stays done. *)
Definition try_wrap {A} (wrap : exn -> exn) (m : M A) : M A :=
  fun w =>
    match m w with
    | (Ok a, w') => (Ok a, w')
    | (Err e, w') => (Err (wrap e), w')
    end.

Definition read_dict (v : pyval) : M (list (string * pyval)) :=
  fun w =>
    match v with
    | PRef r =>
        match heap w !! r with
        | Some (ODict d) => (Ok d, w)
        | _ => (Err TypeError, w)
        end
    | _ => (Err TypeError, w)
    end.

(** [v[k]] *)
Definition getitem (v : pyval) (k : string) : M pyval :=
  d ← read_dict v;
  match dict_get k d with
  | Some x => mret x
  | None => raise (KeyError k)
  end.

(** [v[k] = x] *)
Definition setitem (v : pyval) (k : string) (x : pyval) : M unit :=
  fun w =>
    match v with
    | PRef r =>
        match heap w !! r with
        | Some (ODict d) =>
            (Ok tt, World (<[r := ODict (dict_set k x d)]> (heap w)) (ticks w))
        | _ => (Err TypeError, w)
        end
    | _ => (Err TypeError, w)
    end.

(** A new object. *)
Definition alloc (o : pyobj) : M pyval :=
  fun w => (Ok (PRef (length (heap w))), World (heap w ++ [o]) (ticks w)).

(** ** Values as trees

    What a value looks like when every reference in it is followed: the
    structure [json.dumps] walks and [==] compares. *)

#[warnings="-register-all"]
Inductive pytree : Type :=
| TNone
| TBool (b : bool)
| TInt (n : Z)
| TFloat (lit : string)
| TStr (s : string)
| THexBytes (b : string)
| TList (l : list pytree)
| TDict (d : list (string * pytree)).

Fixpoint all_some {A} (l : list (option A)) : option (list A) :=
  match l with
  | [] => Some []
  | Some a :: r => option_map (cons a) (all_some r)
  | None :: _ => None
  end.

Definition pair_some {A B} (p : A * option B) : option (A * B) :=
  match p with
  | (a, Some b) => Some (a, b)
  | (_, None) => None
  end.

(** The tree under [v]; [None] when a reference leads back to an object it
    is inside of (or nowhere).  The heap has [length h] objects, so a chain
    of more references than that goes through some object twice. *)
Fixpoint snapshot_fuel (fuel : nat) (h : list pyobj) (v : pyval) : option pytree :=
  match v with
  | PNone => Some TNone
  | PBool b => Some (TBool b)
  | PInt n => Some (TInt n)
  | PFloat l => Some (TFloat l)
  | PStr s => Some (TStr s)
  | PHexBytes b => Some (THexBytes b)
  | PRef r =>
      match fuel with
      | O => None
      | S f =>
          match h !! r with
          | Some (OList l) =>
              option_map TList (all_some (map (snapshot_fuel f h) l))
          | Some (ODict d) =>
              option_map TDict
                (all_some (map (fun kv => pair_some (fst kv, snapshot_fuel f h (snd kv))) d))
          | None => None
          end
      end
  end.

Definition snapshot (h : list pyobj) (v : pyval) : option pytree :=
  snapshot_fuel (length h) h v.

(** Building the values of a list of trees in the heap, one after the
    other, [build_one] being the builder of a tree. *)
Section BuildContainers.

Variable build_one : pytree -> list pyobj -> pyval * list pyobj.

Fixpoint build_items (l : list pytree) (h : list pyobj) : list pyval * list pyobj :=
  match l with
  | [] => ([], h)
  | t :: r =>
      let '(v, h1) := build_one t h in
      let '(vs, h2) := build_items r h1 in
      (v :: vs, h2)
  end.

Fixpoint build_entries (d : list (string * pytree)) (h : list pyobj)
  : list (string * pyval) * list pyobj :=
  match d with
  | [] => ([], h)
  | (k, t) :: r =>
      let '(v, h1) := build_one t h in
      let '(kvs, h2) := build_entries r h1 in
      ((k, v) :: kvs, h2)
  end.

End BuildContainers.

(** Building a tree in the heap, children first; every container is a new
    object. *)
Fixpoint build (t : pytree) (h : list pyobj) : pyval * list pyobj :=
  match t with
  | TNone => (PNone, h)
  | TBool b => (PBool b, h)
  | TInt n => (PInt n, h)
  | TFloat l => (PFloat l, h)
  | TStr s => (PStr s, h)
  | THexBytes b => (PHexBytes b, h)
  | TList l =>
      let '(vs, h') := build_items build l h in
      (PRef (length h'), h' ++ [OList vs])
  | TDict d =>
      let '(kvs, h') := build_entries build d h in
      (PRef (length h'), h' ++ [ODict kvs])
  end.

(** The objects of a parsed document come into being. *)
Definition materialize (t : pytree) : M pyval :=
  fun w => let '(v, h) := build t (heap w) in (Ok v, World h (ticks w)).

(** ** JSON text

    [json.dumps] with its default separators and [ensure_ascii], and
    [json.loads], as the standard library defines them. *)

(** The double quote character. *)
Definition dquote : ascii := "034"%char.

Definition hex_char (n : N) : ascii :=
  if (n <? 10)%N then ascii_of_N (48 + n) else ascii_of_N (87 + n).

(** ['{0:04x}'.format(n)] *)
Definition hex4 (n : N) : string :=
  String (hex_char ((n / 4096) mod 16))
    (String (hex_char ((n / 256) mod 16))
       (String (hex_char ((n / 16) mod 16))
          (String (hex_char (n mod 16)) EmptyString))).

Definition u_escape (n : N) : string := String "\" (String "u" (hex4 n)).

(** A character outside the printable ASCII range, by code point; one
    beyond the basic plane becomes a surrogate pair. *)
Definition escape_codepoint (cp : N) : string :=
  if (cp <? 65536)%N then u_escape cp
  else
    let v := (cp - 65536)%N in
    u_escape (55296 + (v / 1024) mod 1024) +:+ u_escape (56320 + v mod 1024).

Definition escape_ascii (c : ascii) : string :=
  if Ascii.eqb c dquote then String "\" (String dquote EmptyString)
  else if Ascii.eqb c "\" then String "\" (String "\" EmptyString)
  else if Ascii.eqb c "010" then String "\" (String "n" EmptyString)
  else if Ascii.eqb c "013" then String "\" (String "r" EmptyString)
  else if Ascii.eqb c "009" then String "\" (String "t" EmptyString)
  else if Ascii.eqb c "008" then String "\" (String "b" EmptyString)
  else if Ascii.eqb c "012" then String "\" (String "f" EmptyString)
  else if in_range 32 126 c then String c EmptyString
  else u_escape (char_code c).

(** The body of a string literal.  [pending] is the decoder state inside a
    multi-byte character: how many more bytes it has, and its bits so far. *)
Fixpoint escape_from (pending : option (nat * N)) (s : string) : string :=
  match s with
  | EmptyString => EmptyString
  | String c r =>
      let b := char_code c in
      match pending with
      | Some (O, acc) =>
          escape_codepoint (acc * 64 + b mod 64) +:+ escape_from None r
      | Some (S k, acc) => escape_from (Some (k, acc * 64 + b mod 64)%N) r
      | None =>
          if (b <? 128)%N then escape_ascii c +:+ escape_from None r
          else if (b <? 224)%N then escape_from (Some (0%nat, b mod 32)%N) r
          else if (b <? 240)%N then escape_from (Some (1%nat, b mod 16)%N) r
          else escape_from (Some (2%nat, b mod 8)%N) r
      end
  end.

Definition json_string (s : string) : string :=
  String dquote (escape_from None s +:+ String dquote EmptyString).

Definition hex_of_byte (c : ascii) : string :=
  String (hex_char (char_code c / 16)) (String (hex_char (char_code c mod 16)) EmptyString).

(** [HexBytes.hex()]: the bytes in hexadecimal after [0x]. *)
Fixpoint hex_of_bytes (b : string) : string :=
  match b with
  | EmptyString => EmptyString
  | String c r => hex_of_byte c +:+ hex_of_bytes r
  end.

Definition hexbytes_hex (b : string) : string := String "0" (String "x" (hex_of_bytes b)).

(** The text after the first element of a list, and after the first entry
    of a dictionary, [dumps] being the text of a value. *)
Section Containers.

Variable dumps : pytree -> string.

Fixpoint dumps_more_elements (l : list pytree) : string :=
  match l with
  | [] => "]"
  | t :: r => String "," (String " " (dumps t +:+ dumps_more_elements r))
  end.

Definition dumps_member (k : string) (t : pytree) : string :=
  json_string k +:+ String ":" (String " " (dumps t)).

Fixpoint dumps_more_members (d : list (string * pytree)) : string :=
  match d with
  | [] => "}"
  | (k, t) :: r =>
      String "," (String " " (dumps_member k t +:+ dumps_more_members r))
  end.

End Containers.

(** [json.dumps(t, default=default)] with the [default] of [encode_payment]:
    a [HexBytes] is written as the string of its [hex()]. *)
Fixpoint json_dumps (t : pytree) : string :=
  match t with
  | TNone => "null"
  | TBool true => "true"
  | TBool false => "false"
  | TInt n => str_of_int n
  | TFloat lit => lit
  | TStr s => json_string s
  | THexBytes b => json_string (hexbytes_hex b)
  | TList [] => "[]"
  | TList (t0 :: r) =>
      String "[" (json_dumps t0 +:+ dumps_more_elements json_dumps r)
  | TDict [] => "{}"
  | TDict ((k0, t0) :: r) =>
      String "{" (dumps_member json_dumps k0 t0 +:+ dumps_more_members json_dumps r)
  end.

Definition is_json_ws (c : ascii) : bool :=
  Ascii.eqb c " " || Ascii.eqb c "009" || Ascii.eqb c "010" || Ascii.eqb c "013".

Fixpoint skip_ws (s : string) : string :=
  match s with
  | String c r => if is_json_ws c then skip_ws r else s
  | EmptyString => EmptyString
  end.

Definition hex_value (c : ascii) : option N :=
  if in_range 48 57 c then Some (char_code c - 48)%N
  else if in_range 97 102 c then Some (char_code c - 87)%N
  else if in_range 65 70 c then Some (char_code c - 55)%N
  else None.

Definition hex4_value (a b c d : ascii) : option N :=
  match hex_value a, hex_value b, hex_value c, hex_value d with
  | Some x, Some y, Some z, Some w => Some (((x * 16 + y) * 16 + z) * 16 + w)%N
  | _, _, _, _ => None
  end.

(** The UTF-8 bytes of a code point (a lone surrogate included). *)
Definition utf8_encode (cp : N) : string :=
  (if cp <? 128 then String (ascii_of_N cp) EmptyString
   else if cp <? 2048 then
     String (ascii_of_N (192 + cp / 64)) (String (ascii_of_N (128 + cp mod 64)) EmptyString)
   else if cp <? 65536 then
     String (ascii_of_N (224 + cp / 4096))
       (String (ascii_of_N (128 + (cp / 64) mod 64))
          (String (ascii_of_N (128 + cp mod 64)) EmptyString))
   else
     String (ascii_of_N (240 + cp / 262144))
       (String (ascii_of_N (128 + (cp / 4096) mod 64))
          (String (ascii_of_N (128 + (cp / 64) mod 64))
             (String (ascii_of_N (128 + cp mod 64)) EmptyString))))%N.

Definition simple_escape (e : ascii) : option ascii :=
  if Ascii.eqb e dquote then Some dquote
  else if Ascii.eqb e "\" then Some "\"%char
  else if Ascii.eqb e "/" then Some "/"%char
  else if Ascii.eqb e "b" then Some "008"%char
  else if Ascii.eqb e "f" then Some "012"%char
  else if Ascii.eqb e "n" then Some "010"%char
  else if Ascii.eqb e "r" then Some "013"%char
  else if Ascii.eqb e "t" then Some "009"%char
  else None.

Definition is_high_surrogate (n : N) : bool := ((55296 <=? n) && (n <=? 56319))%N.
Definition is_low_surrogate (n : N) : bool := ((56320 <=? n) && (n <=? 57343))%N.
Definition join_surrogates (hi lo : N) : N :=
  (65536 + (hi - 55296) * 1024 + (lo - 56320))%N.

Definition prepend (p : string) (o : option (string * string)) : option (string * string) :=
  match o with
  | Some (t, rest) => Some (p +:+ t, rest)
  | None => None
  end.

(** The body of a string literal, after the opening quote: its value and
    what follows the closing quote. *)
Fixpoint scanstring (s : string) : option (string * string) :=
  match s with
  | EmptyString => None
  | String c r =>
      if Ascii.eqb c dquote then Some (EmptyString, r)
      else if Ascii.eqb c "\" then
        match r with
        | EmptyString => None
        | String e r' =>
            if Ascii.eqb e "u" then
              match r' with
              | String h1 (String h2 (String h3 (String h4 r4))) =>
                  match hex4_value h1 h2 h3 h4 with
                  | None => None
                  | Some hi =>
                      if is_high_surrogate hi then
                        match r4 with
                        | String b (String u (String g1 (String g2 (String g3 (String g4 r10))))) =>
                            if Ascii.eqb b "\" && Ascii.eqb u "u" then
                              match hex4_value g1 g2 g3 g4 with
                              | None => None
                              | Some lo =>
                                  if is_low_surrogate lo
                                  then prepend (utf8_encode (join_surrogates hi lo))
                                         (scanstring r10)
                                  else prepend (utf8_encode hi) (scanstring r4)
                              end
                            else prepend (utf8_encode hi) (scanstring r4)
                        | _ => prepend (utf8_encode hi) (scanstring r4)
                        end
                      else prepend (utf8_encode hi) (scanstring r4)
                  end
              | _ => None
              end
            else
              match simple_escape e with
              | Some x => prepend (String x EmptyString) (scanstring r')
              | None => None
              end
        end
      else if (char_code c <? 32)%N then None
      else prepend (String c EmptyString) (scanstring r)
  end.

Fixpoint span_digits (s : string) : string * string :=
  match s with
  | String c r =>
      if is_digit c then let '(d, rest) := span_digits r in (String c d, rest)
      else (EmptyString, s)
  | EmptyString => (EmptyString, EmptyString)
  end.

(** The three groups of the number pattern: an integer part (an optional
    minus sign, then a lone zero or digits that start with a non-zero one), an
    optional fraction (a dot and digits) and an optional exponent. *)
Definition scan_int_part (s : string) : option (string * string) :=
  match s with
  | String c r =>
      if Ascii.eqb c "0" then Some ("0", r)
      else if in_range 49 57 c then Some (span_digits s)
      else None
  | EmptyString => None
  end.

Definition scan_frac (s : string) : string * string :=
  match s with
  | String c r =>
      if Ascii.eqb c "." then
        match span_digits r with
        | (EmptyString, _) => (EmptyString, s)
        | (d, rest) => (String "." d, rest)
        end
      else (EmptyString, s)
  | EmptyString => (EmptyString, s)
  end.

Definition scan_exp (s : string) : string * string :=
  match s with
  | String e r =>
      if Ascii.eqb e "e" || Ascii.eqb e "E" then
        let '(sign, r1) :=
          match r with
          | String g r' =>
              if Ascii.eqb g "+" || Ascii.eqb g "-" then (String g EmptyString, r')
              else (EmptyString, r)
          | EmptyString => (EmptyString, r)
          end in
        match span_digits r1 with
        | (EmptyString, _) => (EmptyString, s)
        | (d, rest) => (String e (sign +:+ d), rest)
        end
      else (EmptyString, s)
  | EmptyString => (EmptyString, s)
  end.

Definition scan_sign (s : string) : bool * string :=
  match s with
  | String c r => if Ascii.eqb c "-" then (true, r) else (false, s)
  | EmptyString => (false, s)
  end.

(** After the integer part [ip]: a number with a fraction or an exponent is
    a float, any other an integer. *)
Definition finish_number (neg : bool) (ip r1 : string) : option (pytree * string) :=
  let '(fr, r2) := scan_frac r1 in
  let '(ex, r3) := scan_exp r2 in
  match fr, ex with
  | EmptyString, EmptyString =>
      match NilEmpty.uint_of_string ip with
      | Some u => Some (TInt (Z.of_int (if neg then Neg u else Pos u)), r3)
      | None => None
      end
  | _, _ => Some (TFloat ((if neg then "-" else "") +:+ ip +:+ fr +:+ ex), r3)
  end.

Definition scan_number (s : string) : option (pytree * string) :=
  let '(neg, s1) := scan_sign s in
  match scan_int_part s1 with
  | None => None
  | Some (ip, r1) => finish_number neg ip r1
  end.

Fixpoint strip_prefix (p s : string) : option string :=
  match p with
  | EmptyString => Some s
  | String a p' =>
      match s with
      | String b s' => if Ascii.eqb a b then strip_prefix p' s' else None
      | EmptyString => None
      end
  end.

Definition scan_literal (s : string) : option (pytree * string) :=
  match strip_prefix "null" s with
  | Some r => Some (TNone, r)
  | None =>
  match strip_prefix "true" s with
  | Some r => Some (TBool true, r)
  | None =>
  match strip_prefix "false" s with
  | Some r => Some (TBool false, r)
  | None =>
  match scan_number s with
  | Some x => Some x
  | None =>
  match strip_prefix "NaN" s with
  | Some r => Some (TFloat "NaN", r)
  | None =>
  match strip_prefix "Infinity" s with
  | Some r => Some (TFloat "Infinity", r)
  | None =>
  match strip_prefix "-Infinity" s with
  | Some r => Some (TFloat "-Infinity", r)
  | None => None
  end end end end end end end.

(** One JSON value at the head of [s], and what follows it.  Every call
    consumes a character before it recurses, so [fuel] beyond the length of
    the text is never used up. *)
Fixpoint scan_once (fuel : nat) (s : string) {struct fuel} : option (pytree * string) :=
  match fuel with
  | O => None
  | S f =>
      match s with
      | EmptyString => None
      | String c r =>
          if Ascii.eqb c dquote then
            match scanstring r with
            | Some (t, rest) => Some (TStr t, rest)
            | None => None
            end
          else if Ascii.eqb c "{" then
            match skip_ws r with
            | String c' r' =>
                if Ascii.eqb c' "}" then Some (TDict [], r')
                else scan_members f (skip_ws r) []
            | EmptyString => None
            end
          else if Ascii.eqb c "[" then
            match skip_ws r with
            | String c' r' =>
                if Ascii.eqb c' "]" then Some (TList [], r')
                else scan_elements f (skip_ws r) []
            | EmptyString => None
            end
          else scan_literal s
      end
  end

with scan_elements (fuel : nat) (s : string) (acc : list pytree) {struct fuel}
  : option (pytree * string) :=
  match fuel with
  | O => None
  | S f =>
      match scan_once f s with
      | None => None
      | Some (v, r) =>
          match skip_ws r with
          | String c r' =>
              if Ascii.eqb c "]" then Some (TList (acc ++ [v]), r')
              else if Ascii.eqb c "," then scan_elements f (skip_ws r') (acc ++ [v])
              else None
          | EmptyString => None
          end
      end
  end

with scan_members (fuel : nat) (s : string) (acc : list (string * pytree)) {struct fuel}
  : option (pytree * string) :=
  match fuel with
  | O => None
  | S f =>
      match s with
      | EmptyString => None
      | String q r0 =>
          if Ascii.eqb q dquote then
            match scanstring r0 with
            | None => None
            | Some (k, r1) =>
                match skip_ws r1 with
                | String c r2 =>
                    if Ascii.eqb c ":" then
                      match scan_once f (skip_ws r2) with
                      | None => None
                      | Some (v, r3) =>
                          match skip_ws r3 with
                          | String c' r' =>
                              if Ascii.eqb c' "}" then Some (TDict (dict_set k v acc), r')
                              else if Ascii.eqb c' ","
                              then scan_members f (skip_ws r') (dict_set k v acc)
                              else None
                          | EmptyString => None
                          end
                      end
                    else None
                | EmptyString => None
                end
            end
          else None
      end
  end.

(** [json.loads(s)] *)
Definition json_loads (s : string) : result pytree :=
  match scan_once (S (String.length s)) (skip_ws s) with
  | Some (t, rest) =>
      match skip_ws rest with
      | EmptyString => Ok t
      | String _ _ => Err (DecodeFailure BadJson)
      end
  | None => Err (DecodeFailure BadJson)
  end.

(** ** Base64 and UTF-8 *)

Definition b64_char (n : N) : ascii :=
  (if n <? 26 then ascii_of_N (65 + n)
   else if n <? 52 then ascii_of_N (71 + n)
   else if n <? 62 then ascii_of_N (n - 4)
   else if n =? 62 then "-"%char
   else "_"%char)%N.

Definition b64_value (c : ascii) : option N :=
  (if in_range 65 90 c then Some (char_code c - 65)
   else if in_range 97 122 c then Some (char_code c - 71)
   else if in_range 48 57 c then Some (char_code c + 4)
   else if Ascii.eqb c "-" then Some 62
   else if Ascii.eqb c "_" then Some 63
   else None)%N.

Definition b64_quad (a b c : N) : N * N * N * N :=
  (a / 4, (a mod 4) * 16 + b / 16, (b mod 16) * 4 + c / 64, c mod 64)%N.

Fixpoint b64_encode (s : string) : string :=
  match s with
  | EmptyString => EmptyString
  | String a EmptyString =>
      let '(x, y, _, _) := b64_quad (char_code a) 0 0 in
      String (b64_char x) (String (b64_char y) EmptyString)
  | String a (String b EmptyString) =>
      let '(x, y, z, _) := b64_quad (char_code a) (char_code b) 0 in
      String (b64_char x) (String (b64_char y) (String (b64_char z) EmptyString))
  | String a (String b (String c r)) =>
      let '(x, y, z, w) := b64_quad (char_code a) (char_code b) (char_code c) in
      String (b64_char x) (String (b64_char y) (String (b64_char z)
        (String (b64_char w) (b64_encode r))))
  end.

Definition b64_byte1 (x y : N) : ascii := ascii_of_N (x * 4 + y / 16).
Definition b64_byte2 (y z : N) : ascii := ascii_of_N ((y mod 16) * 16 + z / 4).
Definition b64_byte3 (z w : N) : ascii := ascii_of_N ((z mod 4) * 64 + w).

Fixpoint b64_decode (s : string) : option string :=
  match s with
  | EmptyString => Some EmptyString
  | String _ EmptyString => None
  | String p (String q EmptyString) =>
      match b64_value p, b64_value q with
      | Some x, Some y => Some (String (b64_byte1 x y) EmptyString)
      | _, _ => None
      end
  | String p (String q (String r EmptyString)) =>
      match b64_value p, b64_value q, b64_value r with
      | Some x, Some y, Some z =>
          Some (String (b64_byte1 x y) (String (b64_byte2 y z) EmptyString))
      | _, _, _ => None
      end
  | String p (String q (String r (String t rest))) =>
      match b64_value p, b64_value q, b64_value r, b64_value t with
      | Some x, Some y, Some z, Some w =>
          match b64_decode rest with
          | Some bytes =>
              Some (String (b64_byte1 x y) (String (b64_byte2 y z)
                      (String (b64_byte3 z w) bytes)))
          | None => None
          end
      | _, _, _, _ => None
      end
  end.



(** [bytes.decode("utf-8")] accepts exactly the well-formed sequences.
    [pending] bytes of the current character are still to come, the next of
    them between [lo] and [hi]. *)
Fixpoint utf8_valid (pending : nat) (lo hi : N) (s : string) : bool :=
  match s with
  | EmptyString => Nat.eqb pending 0
  | String c r =>
      let b := char_code c in
      match pending with
      | S k => ((lo <=? b) && (b <=? hi))%N && utf8_valid k 128 191 r
      | O =>
          (if b <? 128 then utf8_valid 0 128 191 r
           else if b <? 194 then false
           else if b <? 224 then utf8_valid 1 128 191 r
           else if b =? 224 then utf8_valid 2 160 191 r
           else if b =? 237 then utf8_valid 2 128 159 r
           else if b <? 240 then utf8_valid 2 128 191 r
           else if b =? 240 then utf8_valid 3 144 191 r
           else if b <? 244 then utf8_valid 3 128 191 r
           else if b =? 244 then utf8_valid 3 128 143 r
           else false)%N
      end
  end.

(** Modelled from the spec: [x402.encoding.safe_base64_encode] and
    [safe_base64_decode], which are not part of the sources at hand.  The
    specification (4.6) has the codec base64-encode the JSON text with a
    URL-safe, unpadded alphabet, and decode as the exact inverse, failing on
    invalid base64. *)
Definition safe_base64_encode (data : string) : string := b64_encode data.

Definition safe_base64_decode (data : string) : result string :=
  match b64_decode data with
  | None => Err (DecodeFailure BadBase64)
  | Some bytes =>
      if utf8_valid 0 128 191 bytes then Ok bytes else Err (DecodeFailure BadUtf8)
  end.

(** ** The data model *)

(** Modelled from the spec: [x402.types.DeferredEvmPayloadVoucher], whose
    declaration is not part of the sources at hand; the fields are those of
    the Voucher of section 3, with the types of the wire format of section
    6.  Field validators, if the declaration has any, are not modelled. *)
Record DeferredEvmPayloadVoucher : Type := {
  id : string;
  buyer : string;
  seller : string;
  value_aggregate : string;
  asset : string;
  timestamp : Z;
  nonce : Z;
  escrow : string;
  chain_id : Z;
  expiry : Z
}.

(** Modelled from the spec: [x402.types.PaymentRequirements] (section 3),
    with the fields the module reads.  [extra] is [None] or a [dict]. *)
Module PaymentRequirements.
Record t : Type := {
  network : string;
  max_amount_required : string;
  pay_to : string;
  asset : string;
  extra : option loc
}.
End PaymentRequirements.

Module ExtraNew.
(** Modelled from the spec: [DeferredPaymentRequirementsExtraNewVoucher],
    the validated seed of a new voucher: [type: "new"], and a [voucher] with
    the fields [id] and [escrow] (sections 3 and 4.2). *)
Record t : Type := { voucher : list (string * string) }.
End ExtraNew.

Module ExtraAggregation.
(** Modelled from the spec: [DeferredPaymentRequirementsExtraAggregationVoucher]:
    [type: "aggregation"], the prior [voucher] and its [signature]. *)
Record t : Type := {
  signature : string;
  voucher : DeferredEvmPayloadVoucher
}.
End ExtraAggregation.

Definition get_str (k : string) (d : list (string * pyval)) : result string :=
  match dict_get k d with
  | Some (PStr s) => Ok s
  | _ => Err ValidationError
  end.

Definition get_int (k : string) (d : list (string * pyval)) : result Z :=
  match dict_get k d with
  | Some (PInt n) => Ok n
  | _ => Err ValidationError
  end.

(** The validation of the model built from the entries of [d], the keys
    being the wire names of section 6. *)
Definition voucher_of_dict (d : list (string * pyval)) : result DeferredEvmPayloadVoucher :=
  v_id ← get_str "id" d;
  v_buyer ← get_str "buyer" d;
  v_seller ← get_str "seller" d;
  v_value ← get_str "valueAggregate" d;
  v_asset ← get_str "asset" d;
  v_timestamp ← get_int "timestamp" d;
  v_nonce ← get_int "nonce" d;
  v_escrow ← get_str "escrow" d;
  v_chain ← get_int "chainId" d;
  v_expiry ← get_int "expiry" d;
  mret {| id := v_id; buyer := v_buyer; seller := v_seller;
          value_aggregate := v_value; asset := v_asset;
          timestamp := v_timestamp; nonce := v_nonce; escrow := v_escrow;
          chain_id := v_chain; expiry := v_expiry |}.

(** [voucher.model_dump(by_alias=True)] *)
Definition model_dump (v : DeferredEvmPayloadVoucher) : list (string * pyval) :=
  [ ("id", PStr (id v));
    ("buyer", PStr (buyer v));
    ("seller", PStr (seller v));
    ("valueAggregate", PStr (value_aggregate v));
    ("asset", PStr (asset v));
    ("timestamp", PInt (timestamp v));
    ("nonce", PInt (nonce v));
    ("escrow", PStr (escrow v));
    ("chainId", PInt (chain_id v));
    ("expiry", PInt (expiry v)) ].

(** A nested [dict] argument of a model must be a mapping. *)
Definition read_mapping (v : pyval) : M (list (string * pyval)) :=
  try_wrap (fun _ => ValidationError) (read_dict v).

Definition is_str (s : string) (v : pyval) : bool :=
  match v with
  | PStr s' => String.eqb s' s
  | _ => false
  end.

(** The model built from the entries of [voucher_dict], which must be a
    mapping. *)
Definition DeferredEvmPayloadVoucher_of (voucher_dict : pyval) : M DeferredEvmPayloadVoucher :=
  d ← read_dict voucher_dict;
  lift (voucher_of_dict d).

(** The model built from the entries of [extra]; unpacking [None] is a
    [TypeError]. *)
Definition DeferredPaymentRequirementsExtraNewVoucher (extra : option loc) : M ExtraNew.t :=
  match extra with
  | None => raise TypeError
  | Some r =>
      d ← read_dict (PRef r);
      match dict_get "type" d, dict_get "voucher" d with
      | Some ty, Some seed =>
          if is_str "new" ty then
            sd ← read_mapping seed;
            seed_id ← lift (get_str "id" sd);
            seed_escrow ← lift (get_str "escrow" sd);
            mret {| ExtraNew.voucher := [("id", seed_id); ("escrow", seed_escrow)] |}
          else raise ValidationError
      | _, _ => raise ValidationError
      end
  end.

(** The model built from the entries of [extra]. *)
Definition DeferredPaymentRequirementsExtraAggregationVoucher (extra : option loc)
  : M ExtraAggregation.t :=
  match extra with
  | None => raise TypeError
  | Some r =>
      d ← read_dict (PRef r);
      match dict_get "type" d, dict_get "signature" d, dict_get "voucher" d with
      | Some ty, Some (PStr sig), Some prior =>
          if is_str "aggregation" ty then
            pd ← read_mapping prior;
            v ← lift (voucher_of_dict pd);
            mret {| ExtraAggregation.signature := sig; ExtraAggregation.voucher := v |}
          else raise ValidationError
      | _, _, _ => raise ValidationError
      end
  end.

(** ** The EIP-712 typed data *)

Inductive tdval : Type :=
| TDStr (s : string)
| TDInt (n : Z).

(** The dictionary [get_voucher_typed_data] returns.  A field of a type is
    the pair of its ["name"] and its ["type"]; dictionaries keep the order
    of their entries. *)
Record TypedData : Type := {
  types : list (string * list (string * string));
  primaryType : string;
  domain : list (string * tdval);
  message : list (string * tdval)
}.

Definition EIP712Domain_fields : list (string * string) :=
  [ ("name", "string");
    ("version", "string");
    ("chainId", "uint256");
    ("verifyingContract", "address") ].

Definition Voucher_fields : list (string * string) :=
  [ ("id", "bytes32");
    ("buyer", "address");
    ("seller", "address");
    ("valueAggregate", "uint256");
    ("asset", "address");
    ("timestamp", "uint64");
    ("nonce", "uint256");
    ("escrow", "address");
    ("chainId", "uint256");
    ("expiry", "uint64") ].

(** ** The collaborators *)

(** The libraries and the environment the module relies on.
    - [wall_clock k] is what [int(time.time())] returns the [k]-th time it
      is evaluated;
    - [to_checksum_address] is that of [eth_utils];
    - [get_chain_id] is [int(get_chain_id(network))] of [x402.chains], a
      table that is not part of the sources at hand (the resolver of
      section 6 of the specification);
    - [encode_typed_data], [sign_message] and [recover_message] are those
      of [eth_account]; [sign_message] gives [signed.signature.hex()]. *)
Class Externals : Type := {
  Account : Type;
  address : Account -> string;
  SignableMessage : Type;
  wall_clock : nat -> Z;
  to_checksum_address : string -> result string;
  get_chain_id : string -> result Z;
  encode_typed_data :
    list (string * tdval) -> list (string * list (string * string)) ->
    list (string * tdval) -> result SignableMessage;
  sign_message : Account -> SignableMessage -> result string;
  recover_message : SignableMessage -> string -> result string
}.

(** ** The module *)

Definition EXPIRY_TIME : Z := 60 * 60 * 24 * 30.
Definition DEFERRED_SCHEME : string := "deferred".

Section Deferred.

Context {E : Externals}.

(** [int(time.time())] *)
Definition time_now : M Z :=
  fun w => (Ok (wall_clock (ticks w)), World (heap w) (S (ticks w))).

Definition get_voucher_typed_data (voucher : DeferredEvmPayloadVoucher) : result TypedData :=
  verifying ← to_checksum_address (escrow voucher);
  m_buyer ← to_checksum_address (buyer voucher);
  m_seller ← to_checksum_address (seller voucher);
  m_value ← py_int (value_aggregate voucher);
  m_asset ← to_checksum_address (asset voucher);
  m_escrow ← to_checksum_address (escrow voucher);
  mret {|
    types := [ ("EIP712Domain", EIP712Domain_fields); ("Voucher", Voucher_fields) ];
    primaryType := "Voucher";
    domain :=
      [ ("name", TDStr "DeferredPaymentEscrow");
        ("version", TDStr "1");
        ("chainId", TDInt (chain_id voucher));
        ("verifyingContract", TDStr verifying) ];
    message :=
      [ ("id", TDStr (id voucher));
        ("buyer", TDStr m_buyer);
        ("seller", TDStr m_seller);
        ("valueAggregate", TDInt m_value);
        ("asset", TDStr m_asset);
        ("timestamp", TDInt (timestamp voucher));
        ("nonce", TDInt (nonce voucher));
        ("escrow", TDStr m_escrow);
        ("chainId", TDInt (chain_id voucher));
        ("expiry", TDInt (expiry voucher)) ]
  |}.

(** [{k: v for k, v in typed_data["types"].items() if k != "EIP712Domain"}] *)
Definition message_types (typed_data : TypedData) : list (string * list (string * string)) :=
  List.filter (fun kv => negb (String.eqb (fst kv) "EIP712Domain")) (types typed_data).

Definition signable_message (voucher : DeferredEvmPayloadVoucher) : result SignableMessage :=
  typed_data ← get_voucher_typed_data voucher;
  encode_typed_data (domain typed_data) (message_types typed_data) (message typed_data).

Definition with_0x (signature : string) : string :=
  if startswith "0x" signature then signature else "0x" +:+ signature.

Definition sign_voucher (account : Account) (voucher : DeferredEvmPayloadVoucher)
  : result string :=
  m ← signable_message voucher;
  signature ← sign_message account m;
  mret (with_0x signature).

Definition verify_voucher (voucher : DeferredEvmPayloadVoucher) (signature signer : string)
  : result bool :=
  m ← signable_message voucher;
  recovered_address ← recover_message m signature;
  mret (String.eqb (lower recovered_address) (lower signer)).

Definition create_new_voucher (buyer_arg : string) (payment_requirements : PaymentRequirements.t)
  : M DeferredEvmPayloadVoucher :=
  extra ← try_wrap InvalidVoucherSeed
    (DeferredPaymentRequirementsExtraNewVoucher (PaymentRequirements.extra payment_requirements));
  v_id ← lift (of_option (KeyError "id") (dict_get "id" (ExtraNew.voucher extra)));
  v_buyer ← lift (to_checksum_address buyer_arg);
  v_seller ← lift (to_checksum_address (PaymentRequirements.pay_to payment_requirements));
  v_asset ← lift (to_checksum_address (PaymentRequirements.asset payment_requirements));
  v_timestamp ← time_now;
  seed_escrow ← lift (of_option (KeyError "escrow") (dict_get "escrow" (ExtraNew.voucher extra)));
  v_escrow ← lift (to_checksum_address seed_escrow);
  v_chain ← lift (get_chain_id (PaymentRequirements.network payment_requirements));
  now2 ← time_now;
  mret {| id := v_id;
          buyer := v_buyer;
          seller := v_seller;
          value_aggregate := PaymentRequirements.max_amount_required payment_requirements;
          asset := v_asset;
          timestamp := v_timestamp;
          nonce := 0;
          escrow := v_escrow;
          chain_id := v_chain;
          expiry := now2 + EXPIRY_TIME |}.

Definition aggregate_voucher (buyer_arg : string) (payment_requirements : PaymentRequirements.t)
  : M DeferredEvmPayloadVoucher :=
  extra ← try_wrap InvalidAggregationSeed
    (DeferredPaymentRequirementsExtraAggregationVoucher
       (PaymentRequirements.extra payment_requirements));
  let voucher := ExtraAggregation.voucher extra in
  now ← time_now;
  if negb (eq_nocase (PaymentRequirements.pay_to payment_requirements) (seller voucher))
  then raise InvalidSeller else
  if negb (eq_nocase (PaymentRequirements.asset payment_requirements) (asset voucher))
  then raise InvalidAsset else
  req_chain ← lift (get_chain_id (PaymentRequirements.network payment_requirements));
  if negb (req_chain =? chain_id voucher) then raise InvalidChainId else
  if now >? expiry voucher then raise VoucherExpired else
  if now <? timestamp voucher then raise VoucherTimestampInFuture else
  is_valid ← lift (verify_voucher voucher (ExtraAggregation.signature extra) buyer_arg);
  if negb is_valid then raise InvalidVoucherSignature else
  charge ← lift (py_int (PaymentRequirements.max_amount_required payment_requirements));
  prior ← lift (py_int (value_aggregate voucher));
  let new_value_aggregate := str_of_int (charge + prior) in
  v_buyer ← lift (to_checksum_address buyer_arg);
  mret {| id := id voucher;
          buyer := v_buyer;
          seller := seller voucher;
          value_aggregate := new_value_aggregate;
          asset := asset voucher;
          timestamp := now;
          nonce := nonce voucher + 1;
          escrow := escrow voucher;
          chain_id := chain_id voucher;
          expiry := now + EXPIRY_TIME |}.

Definition prepare_payment_header (sender_address : string) (x402_version : Z)
    (payment_requirements : PaymentRequirements.t) : M pyval :=
  match PaymentRequirements.extra payment_requirements with
  | None => raise (MalformedRequirements NoTypeField)
  | Some r =>
      extra ← read_dict (PRef r);
      match extra, dict_get "type" extra with
      | [], _ | _, None => raise (MalformedRequirements NoTypeField)
      | _ :: _, Some extra_type =>
          voucher ←
            (if is_str "new" extra_type
             then create_new_voucher sender_address payment_requirements
             else if is_str "aggregation" extra_type
             then aggregate_voucher sender_address payment_requirements
             else raise (MalformedRequirements UnknownVoucherType));
          voucher_dict ← alloc (ODict (model_dump voucher));
          payload ← alloc (ODict [ ("signature", PNone); ("voucher", voucher_dict) ]);
          alloc (ODict [ ("x402Version", PInt x402_version);
                         ("scheme", PStr DEFERRED_SCHEME);
                         ("network", PStr (PaymentRequirements.network payment_requirements));
                         ("payload", payload) ])
      end
  end.

(** [json.dumps] refuses a structure that contains itself. *)
Definition encode_payment (payment_payload : pyval) : M string :=
  fun w =>
    match snapshot (heap w) payment_payload with
    | Some t => (Ok (safe_base64_encode (json_dumps t)), w)
    | None => (Err CircularReference, w)
    end.

Definition decode_payment (encoded_payment : string) : M pyval :=
  text ← lift (safe_base64_decode encoded_payment);
  t ← lift (json_loads text);
  materialize t.

Definition sign_payment_header (account : Account)
    (payment_requirements : PaymentRequirements.t) (header : pyval) : M string :=
  try_wrap SignHeaderFailed
    (payload ← getitem header "payload";
     voucher_dict ← getitem payload "voucher";
     voucher ← DeferredEvmPayloadVoucher_of voucher_dict;
     signature ← lift (sign_voucher account voucher);
     payload' ← getitem header "payload";
     _ ← setitem payload' "signature" (PStr signature);
     encode_payment header).

End Deferred.


(** ** A deterministic stand-in for the collaborators

    Used to run the module on concrete inputs.  The checksum of an address
    is its hexadecimal digits in upper case; a signature is the signer's
    address followed by the text of the message; there are two accounts; the
    clock advances by [step] seconds between two readings. *)
Module Fake.

Definition is_hex (c : ascii) : bool :=
  in_range 48 57 c || in_range 97 102 c || in_range 65 70 c.

Fixpoint all_hex (s : string) : bool :=
  match s with
  | EmptyString => true
  | String c r => is_hex c && all_hex r
  end.

Definition upper_char (c : ascii) : ascii :=
  if in_range 97 122 c then ascii_of_N (char_code c - 32) else c.

Fixpoint upper (s : string) : string :=
  match s with
  | EmptyString => EmptyString
  | String c r => String (upper_char c) (upper r)
  end.

Definition checksum (s : string) : result string :=
  match strip_prefix "0x" (lower s) with
  | Some _ =>
      match s with
      | String z (String x body) =>
          if Nat.eqb (String.length body) 40 && all_hex body
          then Ok ("0x" +:+ upper body)
          else Err InvalidAddress
      | _ => Err InvalidAddress
      end
  | None => Err InvalidAddress
  end.

Definition chain_table (network : string) : result Z :=
  if String.eqb network "base-sepolia" then Ok 84532
  else if String.eqb network "base" then Ok 8453
  else Err UnknownNetwork.

Definition text_of_tdval (v : tdval) : string :=
  match v with
  | TDStr s => s
  | TDInt n => str_of_int n
  end.

Fixpoint text_of_entries (l : list (string * tdval)) : string :=
  match l with
  | [] => EmptyString
  | (k, v) :: r => k +:+ "=" +:+ text_of_tdval v +:+ ";" +:+ text_of_entries r
  end.

Definition encode (d : list (string * tdval)) (t : list (string * list (string * string)))
    (m : list (string * tdval)) : result string :=
  Ok (text_of_entries d +:+ "|" +:+ text_of_entries m).

Definition alice : string := "AAAAAAAAAAAAAAAAAAAAAAAAAAAAAAAAAAAAAAAA".
Definition bob : string := "BBBBBBBBBBBBBBBBBBBBBBBBBBBBBBBBBBBBBBBB".

Definition address_of (account : bool) : string :=
  "0x" +:+ (if account then alice else bob).

Definition sign (account : bool) (m : string) : result string :=
  Ok (address_of account +:+ m).

Fixpoint split_at (n : nat) (s : string) : option (string * string) :=
  match n with
  | O => Some (EmptyString, s)
  | S k =>
      match s with
      | EmptyString => None
      | String c r =>
          match split_at k r with
          | Some (a, b) => Some (String c a, b)
          | None => None
          end
      end
  end.

Definition nobody : string := "0x0000000000000000000000000000000000000000".

Definition recover (m : string) (sig : string) : result string :=
  match strip_prefix "0x" sig with
  | None => Err InvalidSignatureFormat
  | Some body =>
      match split_at 40 body with
      | None => Err InvalidSignatureFormat
      | Some (a, text) =>
          if all_hex a
          then if String.eqb text m then Ok ("0x" +:+ upper a) else Ok nobody
          else Err InvalidSignatureFormat
      end
  end.

Definition externals (start step : Z) : Externals := {|
  Account := bool;
  address := address_of;
  SignableMessage := string;
  wall_clock := fun k => start + step * Z.of_nat k;
  to_checksum_address := checksum;
  get_chain_id := chain_table;
  encode_typed_data := encode;
  sign_message := sign;
  recover_message := recover
|}.

End Fake.

(** ** Concrete runs

    The fixtures of the test suite, over the stand-in collaborators: a
    request for a new voucher, a prior voucher signed by the first account
    and a request to aggregate a charge into it, the same with amounts
    beyond 64 bits, and an expired prior voucher. *)
Module Scenario.

Definition start : Z := 1700000000.

(** A clock that stands still, and one that ticks between two readings. *)
Definition frozen : Externals := Fake.externals start 0.
Definition ticking : Externals := Fake.externals start 1.

Definition buyer_address : string := Fake.address_of true.
Definition seller_address : string := "0xA1c7Bf3d421e8A54D39FbBE13f9f826E5B2C8e3D".
Definition asset_address : string := "0x081827b8c3aa05287b5aa2bc3051fbe638f33152".
Definition escrow_address : string := "0x7cB1A5A2a2C9e91B76914C0A7b7Fb3AefF3BCA27".
Definition voucher_id : string :=
  "0x1111111111111111111111111111111111111111111111111111111111111111".

Definition requirements (amount : string) (extra : option loc) : PaymentRequirements.t :=
  {| PaymentRequirements.network := "base-sepolia";
     PaymentRequirements.max_amount_required := amount;
     PaymentRequirements.pay_to := seller_address;
     PaymentRequirements.asset := asset_address;
     PaymentRequirements.extra := extra |}.

(** [payment_requirements_new] *)
Definition new_heap : list pyobj :=
  [ ODict [ ("id", PStr voucher_id); ("escrow", PStr escrow_address) ];
    ODict [ ("type", PStr "new"); ("voucher", PRef 0%nat) ] ].

Definition new_world : world := World new_heap 0.

Definition new_requirements : PaymentRequirements.t :=
  requirements "1000000000000000000" (Some 1%nat).

(** [existing_voucher] *)
Definition prior_voucher (amount : string) (expires : Z) : DeferredEvmPayloadVoucher :=
  {| id := voucher_id;
     buyer := buyer_address;
     seller := seller_address;
     value_aggregate := amount;
     asset := asset_address;
     timestamp := start - 1000;
     nonce := 1;
     escrow := escrow_address;
     chain_id := 84532;
     expiry := expires |}.

Definition signature_of (v : DeferredEvmPayloadVoucher) : string :=
  match sign_voucher (E := frozen) true v with
  | Ok s => s
  | Err _ => EmptyString
  end.

Definition aggregation_heap (v : DeferredEvmPayloadVoucher) : list pyobj :=
  [ ODict (model_dump v);
    ODict [ ("type", PStr "aggregation");
            ("signature", PStr (signature_of v));
            ("voucher", PRef 0%nat) ] ].

Definition aggregation_world (v : DeferredEvmPayloadVoucher) : world :=
  World (aggregation_heap v) 0.

Definition existing_voucher : DeferredEvmPayloadVoucher :=
  prior_voucher "1000000000000000000" (start + EXPIRY_TIME - 100).

Definition aggregation_requirements : PaymentRequirements.t :=
  requirements "500000000000000000" (Some 1%nat).

(** Two to the power 64, and a charge of two to the power 128. *)
Definition large_voucher : DeferredEvmPayloadVoucher :=
  prior_voucher "18446744073709551616" (start + EXPIRY_TIME - 100).

Definition large_requirements : PaymentRequirements.t :=
  requirements "340282366920938463463374607431768211456" (Some 1%nat).

Definition expired_voucher : DeferredEvmPayloadVoucher :=
  prior_voucher "1000000000000000000" (start - 100).

(** A request with no [extra] at all. *)
Definition bare_requirements : PaymentRequirements.t :=
  requirements "1000000000000000000" None.

(** The voucher the first request leads to while the clock stands still,
    and the unsigned header [prepare_payment_header] builds around it. *)
Definition new_voucher : DeferredEvmPayloadVoucher :=
  {| id := voucher_id;
     buyer := "0xAAAAAAAAAAAAAAAAAAAAAAAAAAAAAAAAAAAAAAAA";
     seller := "0xA1C7BF3D421E8A54D39FBBE13F9F826E5B2C8E3D";
     value_aggregate := "1000000000000000000";
     asset := "0x081827B8C3AA05287B5AA2BC3051FBE638F33152";
     timestamp := start;
     nonce := 0;
     escrow := "0x7CB1A5A2A2C9E91B76914C0A7B7FB3AEFF3BCA27";
     chain_id := 84532;
     expiry := start + EXPIRY_TIME |}.

Definition prepared_world : world :=
  snd (prepare_payment_header (E := frozen) buyer_address 1 new_requirements new_world).

Definition prepared_header : pyval := PRef 4%nat.

(** A seed that lacks its [escrow]. *)
Definition seedless_heap : list pyobj :=
  [ ODict [ ("id", PStr voucher_id) ];
    ODict [ ("type", PStr "new"); ("voucher", PRef 0%nat) ] ].

(** A request of a type the scheme does not know. *)
Definition unknown_type_heap : list pyobj :=
  [ ODict [ ("type", PStr "refund") ] ].

End Scenario.

(** ** Values that JSON writes and reads back

    A tree is native to JSON when it has no float and no [HexBytes] (the one
    is read back as a float that need not print the same, the other as a
    string), its strings and keys are ASCII text, and the keys of each
    dictionary are distinct, as those of a [dict] are. *)

Definition is_ascii (c : ascii) : bool := (char_code c <? 128)%N.

Fixpoint all_ascii (s : string) : bool :=
  match s with
  | EmptyString => true
  | String c r => is_ascii c && all_ascii r
  end.

Fixpoint distinct (l : list string) : bool :=
  match l with
  | [] => true
  | k :: r => negb (existsb (String.eqb k) r) && distinct r
  end.

Fixpoint json_native (t : pytree) : bool :=
  match t with
  | TNone | TBool _ | TInt _ => true
  | TFloat _ | THexBytes _ => false
  | TStr s => all_ascii s
  | TList l => forallb json_native l
  | TDict d =>
      distinct (map fst d) &&
      forallb (fun kv => all_ascii (fst kv) && json_native (snd kv)) d
  end.

(** What may follow a number for it to end where it does. *)
Definition value_stop (rest : string) : bool :=
  match rest with
  | EmptyString => true
  | String c _ =>
      negb (is_digit c || Ascii.eqb c "." || Ascii.eqb c "e" || Ascii.eqb c "E")
  end.

(** A decimal numeral that starts with a digit other than zero. *)
Definition head_nonzero (u : uint) : bool :=
  match u with
  | Nil | D0 _ => false
  | _ => true
  end.

(** The first character of a text tells it is a value: it is no blank, and
    it closes no list or dictionary. *)
Definition starts_value (s : string) : bool :=
  match s with
  | String c _ => negb (is_json_ws c || Ascii.eqb c "]" || Ascii.eqb c "}")
  | EmptyString => false
  end.

(** The statement proved of every value, by induction on it. *)
Definition reads_back (t : pytree) : Prop :=
  json_native t = true ->
  forall fuel rest,
    (String.length (json_dumps t) <= fuel)%nat ->
    value_stop rest = true ->
    scan_once fuel (json_dumps t +:+ rest) = Some (t, rest).

(** What is proved of [build], by induction on the tree: it only adds
    objects to the heap, and the value it returns has the tree as its
    snapshot in every heap that extends the result, given fuel for the
    objects added. *)
Definition builds_well (t : pytree) : Prop :=
  forall h,
  exists fresh,
    snd (build t h) = h ++ fresh /\
    forall ext fuel,
      (length fresh <= fuel)%nat ->
      snapshot_fuel fuel (h ++ fresh ++ ext) (fst (build t h)) = Some t.

(** The header of section 6 as a tree: what [prepare_payment_header] builds,
    with the signature absent or present. *)
Definition voucher_tree (v : DeferredEvmPayloadVoucher) : pytree :=
  TDict [ ("id", TStr (id v));
          ("buyer", TStr (buyer v));
          ("seller", TStr (seller v));
          ("valueAggregate", TStr (value_aggregate v));
          ("asset", TStr (asset v));
          ("timestamp", TInt (timestamp v));
          ("nonce", TInt (nonce v));
          ("escrow", TStr (escrow v));
          ("chainId", TInt (chain_id v));
          ("expiry", TInt (expiry v)) ].

Definition header_tree (x402_version : Z) (scheme network : string)
    (signature : option string) (v : DeferredEvmPayloadVoucher) : pytree :=
  TDict [ ("x402Version", TInt x402_version);
          ("scheme", TStr scheme);
          ("network", TStr network);
          ("payload",
           TDict [ ("signature",
                    match signature with Some s => TStr s | None => TNone end);
                   ("voucher", voucher_tree v) ]) ].

(** The strings of a header are ASCII text. *)
Definition ascii_header (scheme network : string) (signature : option string)
    (v : DeferredEvmPayloadVoucher) : bool :=
  all_ascii scheme && all_ascii network &&
  match signature with Some s => all_ascii s | None => true end &&
  all_ascii (id v) && all_ascii (buyer v) && all_ascii (seller v) &&
  all_ascii (value_aggregate v) && all_ascii (asset v) && all_ascii (escrow v).

(** ** What a computation does to the heap *)

(** It leaves every object as it is and adds none. *)
Definition keeps_heap {A} (m : M A) : Prop :=
  forall w, heap (snd (m w)) = heap w.

(** It leaves every object as it is, and may add new ones. *)
Definition extends_heap {A} (m : M A) : Prop :=
  forall w, exists fresh, heap (snd (m w)) = heap w ++ fresh.

(** ** Lineages

    A lineage is what repeated aggregation makes of a voucher: each round
    hands [aggregate_voucher] the voucher of the round before as the prior
    voucher of the requirements. *)

Section Lineage.

Context {E : Externals}.

(** One round: for some buyer, requirements and state, the [extra] of the
    requirements holds [v], the amount required reads as [charge], and
    [aggregate_voucher] returns [v']. *)
Definition aggregates_to (charge : Z) (v v' : DeferredEvmPayloadVoucher) : Prop :=
  exists buyer_arg req w w' ext,
    DeferredPaymentRequirementsExtraAggregationVoucher (PaymentRequirements.extra req) w
      = (Ok ext, w) /\
    ExtraAggregation.voucher ext = v /\
    int_of_str (PaymentRequirements.max_amount_required req) = Some charge /\
    aggregate_voucher buyer_arg req w = (Ok v', w').

(** The rounds from [v] to [v'], with their charges, the last one first. *)
Inductive lineage : list Z -> DeferredEvmPayloadVoucher -> DeferredEvmPayloadVoucher -> Prop :=
| lineage_start v : lineage [] v v
| lineage_round charge charges v v' v'' :
    lineage charges v v' -> aggregates_to charge v' v'' ->
    lineage (charge :: charges) v v''.

End Lineage.

(** ** Values with [HexBytes] in them *)



(** The requirements with another spelling of [pay_to] and [asset]. *)
Definition respelled (pay_to' asset' : string) (req : PaymentRequirements.t)
  : PaymentRequirements.t :=
  {| PaymentRequirements.network := PaymentRequirements.network req;
     PaymentRequirements.max_amount_required := PaymentRequirements.max_amount_required req;
     PaymentRequirements.pay_to := pay_to';
     PaymentRequirements.asset := asset';
     PaymentRequirements.extra := PaymentRequirements.extra req |}.

(** ** More concrete runs *)

Module Cases.

(** The voucher of the aggregation of the test suite, the clock standing
    still, and the voucher of a second round that takes it as prior. *)
Definition round (v : DeferredEvmPayloadVoucher) : DeferredEvmPayloadVoucher :=
  match fst (aggregate_voucher (E := Scenario.frozen) Scenario.buyer_address
               Scenario.aggregation_requirements (Scenario.aggregation_world v)) with
  | Ok v' => v'
  | Err _ => v
  end.

Definition first_round : DeferredEvmPayloadVoucher := round Scenario.existing_voucher.
Definition second_round : DeferredEvmPayloadVoucher := round first_round.

(** A prior voucher whose amount is no integer. *)
Definition odd_voucher : DeferredEvmPayloadVoucher :=
  Scenario.prior_voucher "ten" (Scenario.start + EXPIRY_TIME - 100).

(** Requirements for a network the table does not know. *)
Definition elsewhere (extra : option loc) : PaymentRequirements.t :=
  {| PaymentRequirements.network := "nowhere";
     PaymentRequirements.max_amount_required := "1";
     PaymentRequirements.pay_to := Scenario.seller_address;
     PaymentRequirements.asset := Scenario.asset_address;
     PaymentRequirements.extra := extra |}.

(** A header that holds itself under [self]. *)
Definition cyclic_heap : list pyobj :=
  [ ODict (model_dump Scenario.new_voucher);
    ODict [ ("signature", PNone); ("voucher", PRef 0%nat) ];
    ODict [ ("x402Version", PInt 1); ("payload", PRef 1%nat); ("self", PRef 2%nat) ] ].


(** A payload with a list in it. *)
Definition nested_heap : list pyobj :=
  [ OList [ PInt 1; PStr "two"; PNone; PBool true ];
    ODict [ ("items", PRef 0%nat); ("count", PInt 4) ] ].

End Cases.
(** * Properties *)

Ltac unfold_monad :=
  unfold mbind, mret, M_bind, M_ret, result_bind, result_ret, lift, raise, try_wrap in *.

(** ** Decimal text *)

Lemma uint_string_digits (u : uint) : all_digits (NilEmpty.string_of_uint u) = true.
Proof. induction u; simpl; auto. Qed.

Lemma digit_not_space c : is_digit c = true -> is_space c = false.
Proof.
  unfold is_digit, is_space, in_range. intros H.
  apply andb_true_iff in H as [H1 H2].
  apply N.leb_le in H1. apply N.leb_le in H2.
  apply orb_false_iff. split; apply andb_false_iff.
  - right. apply N.leb_gt. lia.
  - right. apply N.leb_gt. lia.
Qed.

Lemma rstrip_digits s : all_digits s = true -> rstrip s = s.
Proof.
  induction s as [|c r IH]; simpl; [reflexivity|].
  intros H. apply andb_true_iff in H as [Hc Hr].
  rewrite (IH Hr). rewrite (digit_not_space _ Hc). destruct r; reflexivity.
Qed.

Lemma strip_digits s : all_digits s = true -> strip s = s.
Proof.
  intros H. unfold strip.
  destruct s as [|c r]; [reflexivity|].
  simpl in H. apply andb_true_iff in H as [Hc Hr].
  simpl lstrip. rewrite (digit_not_space _ Hc).
  apply rstrip_digits. simpl. rewrite Hc, Hr. reflexivity.
Qed.

Lemma int_literal_digits_uint (u : uint) :
  int_literal_digits true (NilEmpty.string_of_uint u) = Some u.
Proof. induction u; simpl; try rewrite IHu; reflexivity. Qed.

Lemma int_literal_digits_uint_start (u : uint) :
  u <> Nil -> int_literal_digits false (NilEmpty.string_of_uint u) = Some u.
Proof.
  destruct u; intros Hn; try congruence; simpl;
    rewrite int_literal_digits_uint; reflexivity.
Qed.

Lemma int_of_str_uint (u : uint) :
  u <> Nil -> int_of_str (NilEmpty.string_of_uint u) = Some (Z.of_int (Pos u)).
Proof.
  intros Hn. unfold int_of_str.
  rewrite (strip_digits _ (uint_string_digits u)).
  pose proof (int_literal_digits_uint_start u Hn) as H.
  destruct u; try congruence; simpl in *; rewrite H; reflexivity.
Qed.

Lemma int_of_str_neg_uint (u : uint) :
  u <> Nil ->
  int_of_str (String "-" (NilEmpty.string_of_uint u)) = Some (Z.of_int (Neg u)).
Proof.
  intros Hn. unfold int_of_str, strip.
  change (lstrip (String "-" (NilEmpty.string_of_uint u)))
    with (String "-" (NilEmpty.string_of_uint u)).
  simpl rstrip. rewrite (rstrip_digits _ (uint_string_digits u)).
  pose proof (int_literal_digits_uint_start u Hn) as H.
  destruct u; try congruence; simpl in *; rewrite H; reflexivity.
Qed.

(** The decimal text of an integer reads back as that integer. *)
Lemma int_of_str_of_int (n : Z) : int_of_str (str_of_int n) = Some n.
Proof.
  unfold str_of_int. destruct n as [|p|p]; [reflexivity| |].
  - simpl Z.to_int. unfold NilZero.string_of_int, NilZero.string_of_uint.
    pose proof (DecimalPos.Unsigned.to_uint_nonnil p) as Hn.
    destruct (Pos.to_uint p) eqn:Hu; try congruence; rewrite <- Hu in *;
      rewrite (int_of_str_uint _ Hn); rewrite <- (DecimalZ.of_to (Z.pos p)); reflexivity.
  - simpl Z.to_int. unfold NilZero.string_of_int, NilZero.string_of_uint.
    pose proof (DecimalPos.Unsigned.to_uint_nonnil p) as Hn.
    destruct (Pos.to_uint p) eqn:Hu; try congruence; rewrite <- Hu in *;
      rewrite (int_of_str_neg_uint _ Hn); rewrite <- (DecimalZ.of_to (Z.neg p)); reflexivity.
Qed.

Section TypedDataProperties.

Context {E : Externals}.

Lemma signable_message_eq (v : DeferredEvmPayloadVoucher) (td : TypedData) :
  get_voucher_typed_data v = Ok td ->
  signable_message v = encode_typed_data (domain td) (message_types td) (message td).
Proof.
  intros Htd. unfold signable_message. rewrite Htd. reflexivity.
Qed.



End TypedDataProperties.
Section AggregationProperties.

Context {E : Externals}.

Lemma read_dict_world v w r w' : read_dict v w = (r, w') -> w' = w.
Proof.
  unfold read_dict. intros H.
  destruct v; try (injection H as _ <-; reflexivity).
  destruct (heap w !! r0) as [[d|l]|]; injection H as _ <-; reflexivity.
Qed.

Lemma read_mapping_world v w r w' : read_mapping v w = (r, w') -> w' = w.
Proof.
  unfold read_mapping, try_wrap. intros H.
  destruct (read_dict v w) as [[a|e] w0] eqn:Hr; apply read_dict_world in Hr;
    injection H as _ <-; exact Hr.
Qed.

Ltac same_world :=
  repeat match goal with
         | H : read_mapping _ _ = (_, _) |- _ => apply read_mapping_world in H; subst
         | H : read_dict _ _ = (_, _) |- _ => apply read_dict_world in H; subst
         | H : (_, _) = (_, _) |- _ => injection H as ? ?; subst
         | H : context [match ?x with _ => _ end] |- _ => destruct x eqn:?
         end;
  auto.

Lemma extra_aggregation_world e w r w' :
  DeferredPaymentRequirementsExtraAggregationVoucher e w = (r, w') -> w' = w.
Proof.
  unfold DeferredPaymentRequirementsExtraAggregationVoucher. intros H.
  unfold_monad. same_world.
Qed.

Lemma extra_new_world e w r w' :
  DeferredPaymentRequirementsExtraNewVoucher e w = (r, w') -> w' = w.
Proof.
  unfold DeferredPaymentRequirementsExtraNewVoucher. intros H.
  unfold_monad. same_world.
Qed.

(** What a successful aggregation went through. *)
Lemma aggregate_voucher_success buyer_arg req w v' w' :
  aggregate_voucher buyer_arg req w = (Ok v', w') ->
  exists ext charge prior v_buyer,
    let v := ExtraAggregation.voucher ext in
    let now := wall_clock (ticks w) in
    DeferredPaymentRequirementsExtraAggregationVoucher (PaymentRequirements.extra req) w
      = (Ok ext, w) /\
    w' = World (heap w) (S (ticks w)) /\
    eq_nocase (PaymentRequirements.pay_to req) (seller v) = true /\
    eq_nocase (PaymentRequirements.asset req) (asset v) = true /\
    get_chain_id (PaymentRequirements.network req) = Ok (chain_id v) /\
    now <= expiry v /\
    timestamp v <= now /\
    verify_voucher v (ExtraAggregation.signature ext) buyer_arg = Ok true /\
    py_int (PaymentRequirements.max_amount_required req) = Ok charge /\
    py_int (value_aggregate v) = Ok prior /\
    to_checksum_address buyer_arg = Ok v_buyer /\
    v' = {| id := id v; buyer := v_buyer; seller := seller v;
            value_aggregate := str_of_int (charge + prior); asset := asset v;
            timestamp := now; nonce := nonce v + 1; escrow := escrow v;
            chain_id := chain_id v; expiry := now + EXPIRY_TIME |}.
Proof.
  unfold aggregate_voucher. unfold_monad. intros H.
  destruct (DeferredPaymentRequirementsExtraAggregationVoucher _ w) as [[ext|e] w0] eqn:Hp;
    [|discriminate].
  pose proof (extra_aggregation_world _ _ _ _ Hp) as ->.
  unfold time_now in H. cbn [heap ticks] in H.
  destruct (eq_nocase (PaymentRequirements.pay_to req) _) eqn:Hs; [|discriminate].
  destruct (eq_nocase (PaymentRequirements.asset req) _) eqn:Ha; [|discriminate].
  cbn [negb] in H.
  destruct (get_chain_id _) as [c|] eqn:Hc; [|discriminate].
  destruct (c =? _) eqn:Hceq; [|discriminate]. apply Z.eqb_eq in Hceq. subst c.
  cbn [negb] in H.
  destruct (_ >? _) eqn:Hexp; [discriminate|].
  destruct (_ <? _) eqn:Hts; [discriminate|].
  destruct (verify_voucher _ _ _) as [[|]|] eqn:Hv; try discriminate.
  cbn [negb] in H.
  destruct (py_int (PaymentRequirements.max_amount_required req)) as [charge|] eqn:Hch;
    [|discriminate].
  destruct (py_int (value_aggregate _)) as [prior|] eqn:Hpr; [|discriminate].
  destruct (to_checksum_address buyer_arg) as [vb|] eqn:Hb; [|discriminate].
  injection H as <- <-.
  exists ext, charge, prior, vb. cbn zeta.
  repeat split; try assumption; try reflexivity.
  - rewrite Z.gtb_ltb in Hexp. apply Z.ltb_ge in Hexp. exact Hexp.
  - apply Z.ltb_ge in Hts. exact Hts.
Qed.


(** C1.  When the prior voucher and the requirements pass every check of the
    aggregation, [aggregate_voucher] returns a voucher whose amount is the
    decimal text of the sum, over the integers, of the prior amount and the
    charge (whatever their size), and whose nonce is the prior nonce plus
    one.  The buyer is an address the normaliser accepts. *)
Theorem aggregate_voucher_additive buyer_arg req w ext (charge prior : Z) v_buyer :
  let v := ExtraAggregation.voucher ext in
  let now := wall_clock (ticks w) in
  DeferredPaymentRequirementsExtraAggregationVoucher (PaymentRequirements.extra req) w
    = (Ok ext, w) ->
  eq_nocase (PaymentRequirements.pay_to req) (seller v) = true ->
  eq_nocase (PaymentRequirements.asset req) (asset v) = true ->
  get_chain_id (PaymentRequirements.network req) = Ok (chain_id v) ->
  now <= expiry v ->
  timestamp v <= now ->
  verify_voucher v (ExtraAggregation.signature ext) buyer_arg = Ok true ->
  int_of_str (PaymentRequirements.max_amount_required req) = Some charge ->
  int_of_str (value_aggregate v) = Some prior ->
  to_checksum_address buyer_arg = Ok v_buyer ->
  exists v',
    aggregate_voucher buyer_arg req w = (Ok v', World (heap w) (S (ticks w))) /\
    value_aggregate v' = str_of_int (prior + charge) /\
    int_of_str (value_aggregate v') = Some (prior + charge) /\
    nonce v' = nonce v + 1.
Proof.
  intros v now Hp Hs Ha Hc He Ht Hv Hch Hpr Hb.
  unfold aggregate_voucher. unfold_monad. rewrite Hp.
  unfold time_now. cbn [heap ticks]. fold v. fold now.
  rewrite Hs, Ha. cbn [negb]. rewrite Hc, Z.eqb_refl. cbn [negb].
  assert (Hgt : (now >? expiry v) = false) by (rewrite Z.gtb_ltb; apply Z.ltb_ge; exact He).
  assert (Hlt : (now <? timestamp v) = false) by (apply Z.ltb_ge; exact Ht).
  rewrite Hgt, Hlt, Hv. cbn [negb].
  unfold py_int. rewrite Hch, Hpr. cbn [of_option]. rewrite Hb.
  eexists. split; [reflexivity|]. cbn [value_aggregate nonce].
  rewrite (Z.add_comm charge prior).
  split; [reflexivity|]. split; [apply int_of_str_of_int|reflexivity].
Qed.

(** C2.  With the extra data of the requirements accepted and the clock read
    once, [aggregate_voucher] checks the seller, the asset, the chain id, the
    expiry, the timestamp and the signature in that order; the first check
    that fails decides the error, and an error is all the call returns.  In
    particular an expired prior voucher is refused as expired whatever the
    verdict on its signature. *)
Theorem aggregate_voucher_validation_order buyer_arg req w ext :
  let v := ExtraAggregation.voucher ext in
  let now := wall_clock (ticks w) in
  let fails e := aggregate_voucher buyer_arg req w = (Err e, World (heap w) (S (ticks w))) in
  let seller_ok := eq_nocase (PaymentRequirements.pay_to req) (seller v) = true in
  let asset_ok := eq_nocase (PaymentRequirements.asset req) (asset v) = true in
  let chain_ok := get_chain_id (PaymentRequirements.network req) = Ok (chain_id v) in
  DeferredPaymentRequirementsExtraAggregationVoucher (PaymentRequirements.extra req) w
    = (Ok ext, w) ->
  (~ seller_ok -> fails InvalidSeller) /\
  (seller_ok -> ~ asset_ok -> fails InvalidAsset) /\
  (seller_ok -> asset_ok ->
   forall c, get_chain_id (PaymentRequirements.network req) = Ok c -> c <> chain_id v ->
   fails InvalidChainId) /\
  (seller_ok -> asset_ok -> chain_ok -> now > expiry v -> fails VoucherExpired) /\
  (seller_ok -> asset_ok -> chain_ok -> now <= expiry v -> now < timestamp v ->
   fails VoucherTimestampInFuture) /\
  (seller_ok -> asset_ok -> chain_ok -> now <= expiry v -> timestamp v <= now ->
   verify_voucher v (ExtraAggregation.signature ext) buyer_arg = Ok false ->
   fails InvalidVoucherSignature) /\
  (seller_ok -> asset_ok -> chain_ok -> now > expiry v ->
   verify_voucher v (ExtraAggregation.signature ext) buyer_arg = Ok true ->
   fails VoucherExpired).
Proof.
  intros v now fails seller_ok asset_ok chain_ok Hp.
  unfold fails, seller_ok, asset_ok, chain_ok. clear fails seller_ok asset_ok chain_ok.
  unfold aggregate_voucher. unfold_monad. rewrite Hp.
  unfold time_now. cbn [heap ticks]. fold v. fold now.
  assert (Hexpired :
    eq_nocase (PaymentRequirements.pay_to req) (seller v) = true ->
    eq_nocase (PaymentRequirements.asset req) (asset v) = true ->
    get_chain_id (PaymentRequirements.network req) = Ok (chain_id v) ->
    now > expiry v -> (now >? expiry v) = true).
  { intros _ _ _ He. rewrite Z.gtb_ltb. apply Z.ltb_lt. lia. }
  repeat split.
  - intros Hs. apply not_true_is_false in Hs. rewrite Hs. reflexivity.
  - intros Hs Ha. apply not_true_is_false in Ha. rewrite Hs, Ha. reflexivity.
  - intros Hs Ha c Hc Hne. rewrite Hs, Ha. cbn [negb]. rewrite Hc.
    apply Z.eqb_neq in Hne. rewrite Hne. reflexivity.
  - intros Hs Ha Hc He. rewrite Hs, Ha. cbn [negb]. rewrite Hc, Z.eqb_refl. cbn [negb].
    rewrite (Hexpired Hs Ha Hc He). reflexivity.
  - intros Hs Ha Hc He Ht. rewrite Hs, Ha. cbn [negb]. rewrite Hc, Z.eqb_refl. cbn [negb].
    assert (Hgt : (now >? expiry v) = false) by (rewrite Z.gtb_ltb; apply Z.ltb_ge; lia).
    assert (Hlt : (now <? timestamp v) = true) by (apply Z.ltb_lt; lia).
    rewrite Hgt, Hlt. reflexivity.
  - intros Hs Ha Hc He Ht Hv. rewrite Hs, Ha. cbn [negb]. rewrite Hc, Z.eqb_refl. cbn [negb].
    assert (Hgt : (now >? expiry v) = false) by (rewrite Z.gtb_ltb; apply Z.ltb_ge; lia).
    assert (Hlt : (now <? timestamp v) = false) by (apply Z.ltb_ge; lia).
    rewrite Hgt, Hlt, Hv. reflexivity.
  - intros Hs Ha Hc He _. rewrite Hs, Ha. cbn [negb]. rewrite Hc, Z.eqb_refl. cbn [negb].
    rewrite (Hexpired Hs Ha Hc He). reflexivity.
Qed.

(** C7.  The voucher a successful aggregation returns has the [id], the
    [seller], the [asset], the [escrow] and the [chain_id] of the prior
    voucher; its [buyer] is the normalised buyer given to the call; its
    [timestamp] is the time the call read from the clock, and its [expiry]
    that time plus thirty days. *)
Theorem aggregate_voucher_frame buyer_arg req w v' w' :
  aggregate_voucher buyer_arg req w = (Ok v', w') ->
  exists ext,
    DeferredPaymentRequirementsExtraAggregationVoucher (PaymentRequirements.extra req) w
      = (Ok ext, w) /\
    id v' = id (ExtraAggregation.voucher ext) /\
    seller v' = seller (ExtraAggregation.voucher ext) /\
    asset v' = asset (ExtraAggregation.voucher ext) /\
    escrow v' = escrow (ExtraAggregation.voucher ext) /\
    chain_id v' = chain_id (ExtraAggregation.voucher ext) /\
    to_checksum_address buyer_arg = Ok (buyer v') /\
    timestamp v' = wall_clock (ticks w) /\
    expiry v' = wall_clock (ticks w) + 2592000 /\
    ticks w' = S (ticks w).
Proof.
  intros H. apply aggregate_voucher_success in H.
  destruct H as (ext & charge & prior & vb & Hp & Hw & _ & _ & _ & _ & _ & _ & _ & _ & Hb & ->).
  exists ext. subst w'. cbn. repeat split; assumption || reflexivity.
Qed.

(** C10.  A successful aggregation copies the [seller], [asset] and [escrow]
    strings of the prior voucher into its result as they are, without
    normalising them, so each is in normalised form in the result exactly
    when it was in the prior voucher; the [buyer] is the one field it
    normalises. *)
Theorem aggregate_voucher_copies_addresses buyer_arg req w v' w' :
  let normalised (a : string) := to_checksum_address a = Ok a in
  aggregate_voucher buyer_arg req w = (Ok v', w') ->
  exists ext,
    DeferredPaymentRequirementsExtraAggregationVoucher (PaymentRequirements.extra req) w
      = (Ok ext, w) /\
    seller v' = seller (ExtraAggregation.voucher ext) /\
    asset v' = asset (ExtraAggregation.voucher ext) /\
    escrow v' = escrow (ExtraAggregation.voucher ext) /\
    (normalised (seller v') <-> normalised (seller (ExtraAggregation.voucher ext))) /\
    (normalised (asset v') <-> normalised (asset (ExtraAggregation.voucher ext))) /\
    (normalised (escrow v') <-> normalised (escrow (ExtraAggregation.voucher ext))) /\
    to_checksum_address buyer_arg = Ok (buyer v').
Proof.
  intros normalised H. apply aggregate_voucher_success in H.
  destruct H as (ext & charge & prior & vb & Hp & Hw & _ & _ & _ & _ & _ & _ & _ & _ & Hb & ->).
  exists ext. cbn. repeat split; assumption || reflexivity || tauto.
Qed.

End AggregationProperties.

(** ** JSON: what is written reads back *)

Lemma append_assoc (a b c : string) : (a +:+ b) +:+ c = a +:+ (b +:+ c).
Proof. induction a as [|x a IH]; simpl; [reflexivity|]. rewrite IH. reflexivity. Qed.

Lemma append_empty_r (a : string) : a +:+ EmptyString = a.
Proof. induction a as [|x a IH]; simpl; [reflexivity|]. rewrite IH. reflexivity. Qed.

Lemma length_append (a b : string) :
  String.length (a +:+ b) = (String.length a + String.length b)%nat.
Proof. induction a as [|x a IH]; simpl; [reflexivity|]. rewrite IH. reflexivity. Qed.

Lemma prepend_some p t rest : prepend p (Some (t, rest)) = Some (p +:+ t, rest).
Proof. reflexivity. Qed.

Lemma scanstring_plain (c : ascii) (r : string) :
  negb (Ascii.eqb c dquote) && negb (Ascii.eqb c "\") && negb (char_code c <? 32)%N = true ->
  scanstring (String c r) = prepend (String c EmptyString) (scanstring r).
Proof.
  intros H. apply andb_true_iff in H as [H H3]. apply andb_true_iff in H as [H1 H2].
  apply negb_true_iff in H1, H2, H3.
  cbn [scanstring]. rewrite H1, H2, H3. reflexivity.
Qed.

Lemma scanstring_simple (e x : ascii) (r : string) :
  negb (Ascii.eqb e "u") && match simple_escape e with
                            | Some y => Ascii.eqb y x
                            | None => false
                            end = true ->
  scanstring (String "\" (String e r)) = prepend (String x EmptyString) (scanstring r).
Proof.
  intros H. apply andb_true_iff in H as [H1 H2]. apply negb_true_iff in H1.
  cbn [scanstring]. change (Ascii.eqb "\" dquote) with false.
  change (Ascii.eqb "\" "\") with true. cbn iota. rewrite H1.
  destruct (simple_escape e) as [y|]; [|discriminate].
  apply Ascii.eqb_eq in H2. subst y. reflexivity.
Qed.

Lemma scanstring_u (h1 h2 h3 h4 c : ascii) (r : string) :
  match hex4_value h1 h2 h3 h4 with
  | Some hi => negb (is_high_surrogate hi) && String.eqb (utf8_encode hi) (String c EmptyString)
  | None => false
  end = true ->
  scanstring (String "\" (String "u" (String h1 (String h2 (String h3 (String h4 r))))))
  = prepend (String c EmptyString) (scanstring r).
Proof.
  intros H. cbn [scanstring]. change (Ascii.eqb "\" dquote) with false.
  change (Ascii.eqb "\" "\") with true. change (Ascii.eqb "u" "u") with true. cbn iota.
  destruct (hex4_value h1 h2 h3 h4) as [hi|]; [|discriminate].
  apply andb_true_iff in H as [H1 H2]. apply negb_true_iff in H1.
  apply String.eqb_eq in H2. rewrite H1, H2. reflexivity.
Qed.

Lemma scanstring_escape_ascii (c : ascii) (tail : string) :
  is_ascii c = true ->
  scanstring (escape_ascii c +:+ tail) = prepend (String c EmptyString) (scanstring tail).
Proof.
  destruct c as [[] [] [] [] [] [] [] []]; intros Hc; try discriminate Hc;
    match goal with
    | |- context [escape_ascii ?c] =>
        let e := eval vm_compute in (escape_ascii c) in change (escape_ascii c) with e
    end;
    cbn [String.append];
    first [ apply scanstring_plain; vm_compute; reflexivity
          | apply scanstring_simple; vm_compute; reflexivity
          | apply scanstring_u; vm_compute; reflexivity ].
Qed.

(** An escaped ASCII string, then a quote: the scanner gives the string back. *)
Lemma scanstring_escape (s rest : string) :
  all_ascii s = true ->
  scanstring (escape_from None s +:+ String dquote rest) = Some (s, rest).
Proof.
  induction s as [|c r IH]; intros Ha.
  - reflexivity.
  - simpl in Ha. apply andb_true_iff in Ha as [Hc Hr]. specialize (IH Hr).
    cbn [escape_from]. pose proof Hc as Hc'. unfold is_ascii in Hc'. rewrite Hc'.
    rewrite append_assoc, (scanstring_escape_ascii _ _ Hc), IH. reflexivity.
Qed.

(** *** Numbers *)

Lemma to_uint_head_nonzero (p : positive) : head_nonzero (Pos.to_uint p) = true.
Proof.
  assert (Hn : unorm (Pos.to_uint p) = Pos.to_uint p).
  { rewrite <- DecimalPos.Unsigned.to_of, DecimalPos.Unsigned.of_to. reflexivity. }
  pose proof (DecimalPos.Unsigned.to_uint_nonzero p) as Hz.
  pose proof (DecimalPos.Unsigned.to_uint_nonnil p) as Hnil.
  destruct (Pos.to_uint p) as [|u|u|u|u|u|u|u|u|u|u]; try reflexivity; [congruence|].
  exfalso. rewrite DecimalFacts.unorm_D0 in Hn. unfold unorm in Hn.
  destruct (nzhead u) eqn:Hh; apply (DecimalFacts.nzhead_nonzero u u); congruence.
Qed.

Lemma span_digits_uint (u : uint) (rest : string) :
  value_stop rest = true ->
  span_digits (NilEmpty.string_of_uint u +:+ rest) = (NilEmpty.string_of_uint u, rest).
Proof.
  intros Hstop. induction u; cbn [NilEmpty.string_of_uint String.append span_digits];
    try (change (is_digit _) with true; cbn iota; rewrite IHu; reflexivity).
  destruct rest as [|c r]; [reflexivity|]. cbn [span_digits].
  cbn [value_stop] in Hstop. apply negb_true_iff in Hstop.
  repeat (apply orb_false_iff in Hstop as [Hstop ?]). rewrite Hstop. reflexivity.
Qed.

Lemma scan_frac_stop (rest : string) :
  value_stop rest = true -> scan_frac rest = (EmptyString, rest).
Proof.
  destruct rest as [|c r]; [reflexivity|]. cbn [value_stop scan_frac]. intros H.
  apply negb_true_iff in H. repeat (apply orb_false_iff in H as [H ?]).
  replace (Ascii.eqb c ".") with false by congruence. reflexivity.
Qed.

Lemma scan_exp_stop (rest : string) :
  value_stop rest = true -> scan_exp rest = (EmptyString, rest).
Proof.
  destruct rest as [|c r]; [reflexivity|]. cbn [value_stop scan_exp]. intros H.
  apply negb_true_iff in H. repeat (apply orb_false_iff in H as [H ?]).
  replace (Ascii.eqb c "e") with false by congruence.
  replace (Ascii.eqb c "E") with false by congruence. reflexivity.
Qed.

(** The digits of a positive number, as the number pattern reads them. *)
Lemma scan_unsigned (u : uint) (rest : string) :
  head_nonzero u = true ->
  value_stop rest = true ->
  scan_int_part (NilEmpty.string_of_uint u +:+ rest) = Some (NilEmpty.string_of_uint u, rest).
Proof.
  intros Hh Hstop. pose proof (span_digits_uint u rest Hstop) as Hspan.
  destruct u; try discriminate Hh;
    cbn [NilEmpty.string_of_uint String.append scan_int_part] in *;
    match goal with
    | |- context [Ascii.eqb ?c "0"] => change (Ascii.eqb c "0") with false
    end;
    match goal with
    | |- context [in_range 49 57 ?c] => change (in_range 49 57 c) with true
    end;
    cbn iota; rewrite Hspan; reflexivity.
Qed.

Lemma finish_number_int (neg : bool) (u : uint) (ip rest : string) :
  value_stop rest = true ->
  NilEmpty.uint_of_string ip = Some u ->
  finish_number neg ip rest = Some (TInt (Z.of_int (if neg then Neg u else Pos u)), rest).
Proof.
  intros Hstop Hu. unfold finish_number.
  rewrite (scan_frac_stop _ Hstop), (scan_exp_stop _ Hstop), Hu. reflexivity.
Qed.

Lemma scan_sign_unsigned (u : uint) (rest : string) :
  scan_sign (NilEmpty.string_of_uint u +:+ rest)
  = (false, NilEmpty.string_of_uint u +:+ rest) \/
  u = Nil.
Proof. destruct u; (left; reflexivity) || (right; reflexivity). Qed.

Lemma nonzero_string (u : uint) :
  head_nonzero u = true ->
  NilZero.string_of_uint u = NilEmpty.string_of_uint u.
Proof. destruct u; try reflexivity; discriminate. Qed.

Lemma scan_number_int (n : Z) (rest : string) :
  value_stop rest = true ->
  scan_number (str_of_int n +:+ rest) = Some (TInt n, rest).
Proof.
  intros Hstop. unfold str_of_int, scan_number. destruct n as [|p|p].
  - cbn [Z.to_int NilZero.string_of_int NilZero.string_of_uint
         NilEmpty.string_of_uint String.append scan_sign scan_int_part].
    change (Ascii.eqb "0" "-") with false. change (Ascii.eqb "0" "0") with true. cbn iota.
    apply (finish_number_int false (D0 Nil) "0" rest Hstop). reflexivity.
  - cbn [Z.to_int NilZero.string_of_int].
    pose proof (to_uint_head_nonzero p) as Hh.
    rewrite (nonzero_string _ Hh).
    destruct (scan_sign_unsigned (Pos.to_uint p) rest) as [Hs|Hnil];
      [|rewrite Hnil in Hh; discriminate Hh].
    rewrite Hs, (scan_unsigned _ rest Hh Hstop).
    rewrite (finish_number_int false (Pos.to_uint p) _ rest Hstop (NilEmpty.usu _)).
    change (Pos (Pos.to_uint p)) with (Z.to_int (Z.pos p)).
    rewrite DecimalZ.of_to. reflexivity.
  - cbn [Z.to_int NilZero.string_of_int].
    pose proof (to_uint_head_nonzero p) as Hh.
    rewrite (nonzero_string _ Hh). cbn [String.append scan_sign].
    change (Ascii.eqb "-" "-") with true. cbn iota.
    rewrite (scan_unsigned _ rest Hh Hstop).
    rewrite (finish_number_int true (Pos.to_uint p) _ rest Hstop (NilEmpty.usu _)).
    change (Neg (Pos.to_uint p)) with (Z.to_int (Z.neg p)).
    rewrite DecimalZ.of_to. reflexivity.
Qed.

(** *** Values *)

Lemma pytree_induction (P : pytree -> Prop) :
  P TNone ->
  (forall b, P (TBool b)) ->
  (forall n, P (TInt n)) ->
  (forall lit, P (TFloat lit)) ->
  (forall s, P (TStr s)) ->
  (forall b, P (THexBytes b)) ->
  (forall l, Forall P l -> P (TList l)) ->
  (forall d, Forall (fun kv => P (snd kv)) d -> P (TDict d)) ->
  forall t, P t.
Proof.
  intros HN HB HI HF HS HH HL HD. fix IH 1. intros t.
  destruct t as [|b|n|lit|s|b|l|d].
  - exact HN.
  - apply HB.
  - apply HI.
  - apply HF.
  - apply HS.
  - apply HH.
  - apply HL. induction l as [|x l IHl]; constructor; [apply IH|exact IHl].
  - apply HD. induction d as [|[k x] d IHd]; constructor; [apply IH|exact IHd].
Qed.

Lemma number_head_facts (c : ascii) :
  is_digit c || Ascii.eqb c "-" = true ->
  Ascii.eqb c dquote = false /\ Ascii.eqb c "{" = false /\ Ascii.eqb c "[" = false /\
  Ascii.eqb "n" c = false /\ Ascii.eqb "t" c = false /\ Ascii.eqb "f" c = false /\
  is_json_ws c || Ascii.eqb c "]" || Ascii.eqb c "}" = false.
Proof.
  destruct c as [[] [] [] [] [] [] [] []]; vm_compute; intros H; try discriminate H;
    repeat split.
Qed.

Lemma str_of_int_head (n : Z) :
  exists c r, str_of_int n = String c r /\ is_digit c || Ascii.eqb c "-" = true.
Proof.
  unfold str_of_int. destruct n as [|p|p].
  - exists "0"%char, EmptyString. split; reflexivity.
  - cbn [Z.to_int NilZero.string_of_int].
    pose proof (to_uint_head_nonzero p) as Hh. rewrite (nonzero_string _ Hh).
    destruct (Pos.to_uint p); try discriminate Hh; cbn [NilEmpty.string_of_uint];
      eexists _, _; split; reflexivity.
  - cbn [Z.to_int NilZero.string_of_int]. eexists _, _. split; reflexivity.
Qed.

Lemma scan_once_int (n : Z) (f : nat) (rest : string) :
  value_stop rest = true ->
  scan_once (S f) (str_of_int n +:+ rest) = Some (TInt n, rest).
Proof.
  intros Hstop. pose proof (scan_number_int n rest Hstop) as Hnum.
  destruct (str_of_int_head n) as (c & r & Heq & Hc). rewrite Heq in *.
  cbn [String.append] in *.
  destruct (number_head_facts c Hc) as (H1 & H2 & H3 & H4 & H5 & H6 & _).
  cbn [scan_once]. rewrite H1, H2, H3. unfold scan_literal. cbn [strip_prefix].
  rewrite H4, H5, H6, Hnum. reflexivity.
Qed.

Lemma skip_ws_space (s : string) : skip_ws (String " " s) = skip_ws s.
Proof. reflexivity. Qed.

Lemma skip_ws_starts (s : string) : starts_value s = true -> skip_ws s = s.
Proof.
  destruct s as [|c r]; [discriminate|]. cbn [starts_value skip_ws]. intros H.
  apply negb_true_iff in H. apply orb_false_iff in H as [H _].
  apply orb_false_iff in H as [H _]. rewrite H. reflexivity.
Qed.

Lemma dumps_starts (t : pytree) (rest : string) :
  json_native t = true -> starts_value (json_dumps t +:+ rest) = true.
Proof.
  destruct t as [|[]|n|lit|s|b|[|t0 l]|[|[k0 t0] d]]; intros Hn; try discriminate Hn;
    try reflexivity.
  cbn [json_dumps]. destruct (str_of_int_head n) as (c & r & Heq & Hc). rewrite Heq.
  cbn [String.append starts_value].
  destruct (number_head_facts c Hc) as (_ & _ & _ & _ & _ & _ & H). rewrite H. reflexivity.
Qed.

Lemma starts_not_closing (s : string) :
  starts_value s = true ->
  exists c r, s = String c r /\ Ascii.eqb c "]" = false /\ Ascii.eqb c "}" = false.
Proof.
  destruct s as [|c r]; [discriminate|]. cbn [starts_value]. intros H.
  apply negb_true_iff in H. apply orb_false_iff in H as [H H2].
  apply orb_false_iff in H as [_ H1].
  exists c, r. repeat split; assumption.
Qed.

Lemma member_text (k : string) (t : pytree) (tail : string) :
  dumps_member json_dumps k t +:+ tail
  = String dquote
      (escape_from None k +:+
       String dquote (String ":" (String " " (json_dumps t +:+ tail)))).
Proof.
  unfold dumps_member, json_string. cbn [String.append].
  rewrite !append_assoc. reflexivity.
Qed.

Lemma more_elements_stop (r : list pytree) (rest : string) :
  value_stop (dumps_more_elements json_dumps r +:+ rest) = true.
Proof. destruct r; reflexivity. Qed.

Lemma more_members_stop (r : list (string * pytree)) (rest : string) :
  value_stop (dumps_more_members json_dumps r +:+ rest) = true.
Proof. destruct r as [|[k t] r]; reflexivity. Qed.

Lemma dict_set_fresh {V} (k : string) (v : V) (acc : list (string * V)) :
  existsb (String.eqb k) (map fst acc) = false ->
  dict_set k v acc = acc ++ [(k, v)].
Proof.
  induction acc as [|[k' v'] acc IH]; cbn; [reflexivity|].
  intros H. apply orb_false_iff in H as [H1 H2]. rewrite H1, (IH H2). reflexivity.
Qed.

Lemma distinct_middle (a b : list string) (k : string) :
  distinct (a ++ k :: b) = true ->
  existsb (String.eqb k) a = false /\ distinct ((a ++ [k]) ++ b) = true.
Proof.
  intros H. split.
  - induction a as [|x a IH]; [reflexivity|]. cbn in H |- *.
    apply andb_true_iff in H as [Hx Ha]. rewrite (IH Ha).
    apply negb_true_iff in Hx. rewrite existsb_app in Hx.
    apply orb_false_iff in Hx as [_ Hx]. cbn in Hx.
    apply orb_false_iff in Hx as [Hx _]. rewrite String.eqb_sym, Hx. reflexivity.
  - rewrite <- app_assoc. exact H.
Qed.

Lemma scan_elements_dumps (r : list pytree) :
  Forall reads_back r ->
  forallb json_native r = true ->
  forall t0 acc fuel rest,
    reads_back t0 ->
    json_native t0 = true ->
    (String.length (json_dumps t0)
       + String.length (dumps_more_elements json_dumps r) <= fuel)%nat ->
    scan_elements fuel (json_dumps t0 +:+ dumps_more_elements json_dumps r +:+ rest) acc
    = Some (TList (acc ++ t0 :: r), rest).
Proof.
  induction r as [|t1 r IH]; intros HP Hn t0 acc fuel rest HP0 Hn0 Hfuel.
  - destruct fuel as [|f]; [cbn in Hfuel; lia|].
    cbn [scan_elements].
    rewrite (HP0 Hn0 f _ ltac:(cbn in Hfuel; lia) (more_elements_stop [] rest)).
    reflexivity.
  - destruct fuel as [|f]; [cbn in Hfuel; lia|].
    cbn [dumps_more_elements] in Hfuel. cbn [String.length] in Hfuel.
    rewrite length_append in Hfuel.
    cbn [scan_elements].
    rewrite (HP0 Hn0 f _ ltac:(lia) (more_elements_stop (t1 :: r) rest)).
    cbn [dumps_more_elements String.append skip_ws].
    change (is_json_ws ",") with false. change (is_json_ws " ") with true. cbn iota.
    change (Ascii.eqb "," "]") with false. change (Ascii.eqb "," ",") with true. cbn iota.
    cbn [forallb] in Hn. apply andb_true_iff in Hn as [Hn1 Hnr].
    rewrite skip_ws_space, append_assoc, (skip_ws_starts _ (dumps_starts t1 _ Hn1)).
    inversion HP as [|? ? HP1 HPr]; subst.
    rewrite (IH HPr Hnr t1 (acc ++ [t0]) f rest HP1 Hn1 ltac:(lia)).
    rewrite <- app_assoc. reflexivity.
Qed.

Lemma scan_members_dumps (r : list (string * pytree)) :
  Forall (fun kv => reads_back (snd kv)) r ->
  forallb (fun kv => all_ascii (fst kv) && json_native (snd kv)) r = true ->
  forall k0 t0 acc fuel rest,
    reads_back t0 ->
    all_ascii k0 = true ->
    json_native t0 = true ->
    distinct (map fst acc ++ k0 :: map fst r) = true ->
    (String.length (dumps_member json_dumps k0 t0)
       + String.length (dumps_more_members json_dumps r) <= fuel)%nat ->
    scan_members fuel
      (dumps_member json_dumps k0 t0 +:+ dumps_more_members json_dumps r +:+ rest) acc
    = Some (TDict (acc ++ (k0, t0) :: r), rest).
Proof.
  induction r as [|[k1 t1] r IH]; intros HP Hn k0 t0 acc fuel rest HP0 Hk0 Hn0 Hd Hfuel;
    (destruct fuel as [|f]; [cbn in Hfuel; lia|]);
    unfold dumps_member in Hfuel; rewrite length_append in Hfuel;
    cbn [String.length] in Hfuel;
    rewrite member_text; cbn [scan_members];
    change (Ascii.eqb dquote dquote) with true; cbn iota;
    rewrite (scanstring_escape _ _ Hk0);
    cbn [skip_ws]; change (is_json_ws ":") with false; change (is_json_ws " ") with true;
    cbn iota; change (Ascii.eqb ":" ":") with true; cbn iota;
    rewrite ?skip_ws_space, (skip_ws_starts _ (dumps_starts t0 _ Hn0));
    destruct (distinct_middle _ _ _ Hd) as [Hfresh Hd'].
  - rewrite (HP0 Hn0 f _ ltac:(lia) (more_members_stop [] rest)).
    cbn [dumps_more_members String.append skip_ws].
    change (is_json_ws "}") with false. cbn iota.
    change (Ascii.eqb "}" "}") with true. cbn iota.
    rewrite (dict_set_fresh _ _ _ Hfresh). reflexivity.
  - cbn [dumps_more_members String.length] in Hfuel. rewrite length_append in Hfuel.
    rewrite (HP0 Hn0 f _ ltac:(lia) (more_members_stop ((k1, t1) :: r) rest)).
    cbn [dumps_more_members String.append skip_ws].
    change (is_json_ws ",") with false. change (is_json_ws " ") with true. cbn iota.
    change (Ascii.eqb "," "}") with false. change (Ascii.eqb "," ",") with true. cbn iota.
    cbn [forallb fst snd] in Hn. apply andb_true_iff in Hn as [Hn1 Hnr].
    apply andb_true_iff in Hn1 as [Hk1 Hn1].
    rewrite ?skip_ws_space, append_assoc.
    assert (Hsk : starts_value
                    (dumps_member json_dumps k1 t1 +:+
                     dumps_more_members json_dumps r +:+ rest) = true)
      by (rewrite member_text; reflexivity).
    rewrite (skip_ws_starts _ Hsk).
    inversion HP as [|? ? HP1 HPr]; subst. cbn [snd] in HP1.
    rewrite (dict_set_fresh _ _ _ Hfresh).
    rewrite (IH HPr Hnr k1 t1 (acc ++ [(k0, t0)]) f rest HP1 Hk1 Hn1).
    + rewrite <- app_assoc. reflexivity.
    + rewrite map_app. cbn [map fst]. exact Hd'.
    + lia.
Qed.

Lemma dumps_nonempty (t : pytree) :
  json_native t = true -> (1 <= String.length (json_dumps t))%nat.
Proof.
  intros Hn. pose proof (dumps_starts t EmptyString Hn) as H.
  rewrite append_empty_r in H. destruct (json_dumps t); [discriminate H|cbn; lia].
Qed.

(** A native value, written by [json.dumps] and followed by anything that
    ends a number, is read back by the scanner, which stops after it. *)
Lemma scan_once_dumps (t : pytree) : reads_back t.
Proof.
  induction t as [|b|n|lit|s|b|l HP|d HP] using pytree_induction;
    unfold reads_back; intros Hn fuel rest Hfuel Hstop;
    try discriminate Hn;
    pose proof (dumps_nonempty _ Hn) as Hone;
    (destruct fuel as [|f]; [lia|]); clear Hone.
  - reflexivity.
  - destruct b; reflexivity.
  - apply scan_once_int. exact Hstop.
  - cbn [json_dumps]. unfold json_string. cbn [String.append scan_once].
    change (Ascii.eqb dquote dquote) with true. cbn iota.
    rewrite append_assoc. cbn [String.append].
    cbn [json_native] in Hn.
    rewrite (scanstring_escape _ _ Hn). reflexivity.
  - destruct l as [|t0 r]; [reflexivity|].
    cbn [json_dumps String.length] in Hfuel. rewrite length_append in Hfuel.
    cbn [json_dumps String.append scan_once].
    change (Ascii.eqb "[" dquote) with false. change (Ascii.eqb "[" "{") with false.
    change (Ascii.eqb "[" "[") with true. cbn iota.
    cbn [json_native forallb] in Hn. apply andb_true_iff in Hn as [Hn0 Hnr].
    rewrite append_assoc.
    pose proof (dumps_starts t0 (dumps_more_elements json_dumps r +:+ rest) Hn0) as Hsv.
    rewrite (skip_ws_starts _ Hsv).
    destruct (starts_not_closing _ Hsv) as (c & x & Heq & Hc & _).
    inversion HP as [|? ? HP0 HPr]; subst.
    pose proof (scan_elements_dumps r HPr Hnr t0 [] f rest HP0 Hn0 ltac:(lia)) as Hgo.
    rewrite Heq in Hgo |- *. rewrite Hc. exact Hgo.
  - destruct d as [|[k0 t0] r]; [reflexivity|].
    cbn [json_dumps String.length] in Hfuel. rewrite length_append in Hfuel.
    cbn [json_dumps String.append scan_once].
    change (Ascii.eqb "{" dquote) with false. change (Ascii.eqb "{" "{") with true.
    cbn iota.
    cbn [json_native map fst forallb snd] in Hn. apply andb_true_iff in Hn as [Hd Hn].
    apply andb_true_iff in Hn as [Hn0 Hnr]. apply andb_true_iff in Hn0 as [Hk0 Hn0].
    rewrite append_assoc.
    assert (Hsv : starts_value
                    (dumps_member json_dumps k0 t0 +:+
                     dumps_more_members json_dumps r +:+ rest) = true)
      by (rewrite member_text; reflexivity).
    rewrite (skip_ws_starts _ Hsv).
    destruct (starts_not_closing _ Hsv) as (c & x & Heq & _ & Hc).
    inversion HP as [|? ? HP0 HPr]; subst. cbn [snd] in HP0.
    pose proof (scan_members_dumps r HPr Hnr k0 t0 [] f rest HP0 Hk0 Hn0 Hd ltac:(lia))
      as Hgo.
    rewrite Heq in Hgo |- *. rewrite Hc. exact Hgo.
Qed.

Lemma json_loads_dumps (t : pytree) :
  json_native t = true -> json_loads (json_dumps t) = Ok t.
Proof.
  intros Hn. unfold json_loads.
  pose proof (dumps_starts t EmptyString Hn) as Hs. rewrite append_empty_r in Hs.
  rewrite (skip_ws_starts _ Hs).
  pose proof (scan_once_dumps t Hn (S (String.length (json_dumps t))) EmptyString
                ltac:(lia) eq_refl) as H.
  rewrite append_empty_r in H. rewrite H. reflexivity.
Qed.

(** ** Base64: what is encoded decodes *)

Lemma b64_quad_inverse (a b c : N) :
  (a < 256 -> b < 256 -> c < 256 ->
   let '(x, y, z, w) := b64_quad a b c in
   x < 64 /\ y < 64 /\ z < 64 /\ w < 64 /\
   x * 4 + y / 16 = a /\ (y mod 16) * 16 + z / 4 = b /\ (z mod 4) * 64 + w = c)%N.
Proof.
  intros Ha Hb Hc. unfold b64_quad.
  repeat split; zify; Z.to_euclidean_division_equations; lia.
Qed.

Lemma b64_value_char (n : N) : (n < 64)%N -> b64_value (b64_char n) = Some n.
Proof.
  intros H.
  assert (Hall : forallb (fun k => match b64_value (b64_char k) with
                                   | Some m => N.eqb m k
                                   | None => false
                                   end) (map N.of_nat (seq 0 64)) = true)
    by (vm_compute; reflexivity).
  rewrite forallb_forall in Hall. specialize (Hall n).
  destruct (b64_value (b64_char n)) as [m|].
  - f_equal. apply N.eqb_eq. apply Hall. apply in_map_iff.
    exists (N.to_nat n). split; [apply N2Nat.id|]. apply in_seq. lia.
  - discriminate Hall. apply in_map_iff.
    exists (N.to_nat n). split; [apply N2Nat.id|]. apply in_seq. lia.
Qed.

Lemma char_of_code (c : ascii) (n : N) : n = char_code c -> ascii_of_N n = c.
Proof. intros ->. apply ascii_N_embedding. Qed.

Lemma b64_decode_encode (s : string) : b64_decode (b64_encode s) = Some s.
Proof.
  revert s. fix IH 1. intros [|a [|b [|c r]]].
  - reflexivity.
  - pose proof (b64_quad_inverse (char_code a) 0 0 (N_ascii_bounded a) eq_refl eq_refl) as H.
    cbn [b64_encode]. destruct (b64_quad (char_code a) 0 0) as [[[x y] z] w].
    destruct H as (Hx & Hy & _ & _ & H1 & _ & _).
    cbn [b64_decode]. rewrite (b64_value_char _ Hx), (b64_value_char _ Hy).
    unfold b64_byte1. rewrite (char_of_code a _ H1). reflexivity.
  - pose proof (b64_quad_inverse (char_code a) (char_code b) 0
                  (N_ascii_bounded a) (N_ascii_bounded b) eq_refl) as H.
    cbn [b64_encode]. destruct (b64_quad (char_code a) (char_code b) 0) as [[[x y] z] w].
    destruct H as (Hx & Hy & Hz & _ & H1 & H2 & _).
    cbn [b64_decode].
    rewrite (b64_value_char _ Hx), (b64_value_char _ Hy), (b64_value_char _ Hz).
    unfold b64_byte1, b64_byte2.
    rewrite (char_of_code a _ H1), (char_of_code b _ H2). reflexivity.
  - pose proof (b64_quad_inverse (char_code a) (char_code b) (char_code c)
                  (N_ascii_bounded a) (N_ascii_bounded b) (N_ascii_bounded c)) as H.
    cbn [b64_encode].
    destruct (b64_quad (char_code a) (char_code b) (char_code c)) as [[[x y] z] w].
    destruct H as (Hx & Hy & Hz & Hw & H1 & H2 & H3).
    cbn [b64_decode].
    rewrite (b64_value_char _ Hx), (b64_value_char _ Hy), (b64_value_char _ Hz),
      (b64_value_char _ Hw), (IH r).
    unfold b64_byte1, b64_byte2, b64_byte3.
    rewrite (char_of_code a _ H1), (char_of_code b _ H2), (char_of_code c _ H3).
    reflexivity.
Qed.


(** ** The JSON text of a native value is ASCII *)

Lemma all_ascii_append (a b : string) :
  all_ascii (a +:+ b) = all_ascii a && all_ascii b.
Proof.
  induction a as [|x a IH]; cbn [String.append all_ascii]; [reflexivity|].
  rewrite IH, andb_assoc. reflexivity.
Qed.

Lemma all_ascii_escape_ascii (c : ascii) :
  is_ascii c = true -> all_ascii (escape_ascii c) = true.
Proof.
  destruct c as [[] [] [] [] [] [] [] []]; intros H; try discriminate H;
    vm_compute; reflexivity.
Qed.

Lemma all_ascii_escape (s : string) :
  all_ascii s = true -> all_ascii (escape_from None s) = true.
Proof.
  induction s as [|c r IH]; [reflexivity|]. cbn [all_ascii escape_from]. intros H.
  apply andb_true_iff in H as [Hc Hr]. pose proof Hc as Hc'. unfold is_ascii in Hc'.
  rewrite Hc', all_ascii_append, (all_ascii_escape_ascii _ Hc), (IH Hr). reflexivity.
Qed.

Lemma all_ascii_json_string (s : string) :
  all_ascii s = true -> all_ascii (json_string s) = true.
Proof.
  intros H. unfold json_string. cbn [all_ascii].
  rewrite all_ascii_append, (all_ascii_escape _ H). reflexivity.
Qed.

Lemma all_ascii_uint (u : uint) : all_ascii (NilEmpty.string_of_uint u) = true.
Proof. induction u; cbn [NilEmpty.string_of_uint all_ascii]; try rewrite IHu; reflexivity. Qed.

Lemma all_ascii_str_of_int (n : Z) : all_ascii (str_of_int n) = true.
Proof.
  unfold str_of_int. destruct n as [|p|p]; [reflexivity| |];
    cbn [Z.to_int NilZero.string_of_int]; rewrite (nonzero_string _ (to_uint_head_nonzero p));
    cbn [all_ascii]; rewrite all_ascii_uint; reflexivity.
Qed.

Lemma all_ascii_more_elements (r : list pytree) :
  Forall (fun t => json_native t = true -> all_ascii (json_dumps t) = true) r ->
  forallb json_native r = true ->
  all_ascii (dumps_more_elements json_dumps r) = true.
Proof.
  induction r as [|t1 r IH]; intros HP Hn; [reflexivity|].
  cbn [forallb] in Hn. apply andb_true_iff in Hn as [Hn1 Hnr].
  inversion HP as [|? ? HP1 HPr]; subst.
  cbn [dumps_more_elements all_ascii].
  rewrite all_ascii_append, (HP1 Hn1), (IH HPr Hnr). reflexivity.
Qed.

Lemma all_ascii_more_members (r : list (string * pytree)) :
  Forall (fun kv => json_native (snd kv) = true -> all_ascii (json_dumps (snd kv)) = true) r ->
  forallb (fun kv => all_ascii (fst kv) && json_native (snd kv)) r = true ->
  all_ascii (dumps_more_members json_dumps r) = true.
Proof.
  induction r as [|[k1 t1] r IH]; intros HP Hn; [reflexivity|].
  cbn [forallb fst snd] in Hn. apply andb_true_iff in Hn as [Hn1 Hnr].
  apply andb_true_iff in Hn1 as [Hk1 Hn1].
  inversion HP as [|? ? HP1 HPr]; subst. cbn [snd] in HP1.
  cbn [dumps_more_members all_ascii]. unfold dumps_member.
  rewrite !all_ascii_append, (all_ascii_json_string _ Hk1). cbn [all_ascii].
  rewrite (HP1 Hn1), (IH HPr Hnr). reflexivity.
Qed.

Lemma all_ascii_dumps (t : pytree) :
  json_native t = true -> all_ascii (json_dumps t) = true.
Proof.
  induction t as [|b|n|lit|s|b|l HP|d HP] using pytree_induction; intros Hn;
    try discriminate Hn.
  - reflexivity.
  - destruct b; reflexivity.
  - apply all_ascii_str_of_int.
  - apply all_ascii_json_string. exact Hn.
  - destruct l as [|t0 r]; [reflexivity|].
    cbn [json_native forallb] in Hn. apply andb_true_iff in Hn as [Hn0 Hnr].
    inversion HP as [|? ? HP0 HPr]; subst.
    cbn [json_dumps all_ascii].
    rewrite all_ascii_append, (HP0 Hn0), (all_ascii_more_elements r HPr Hnr). reflexivity.
  - destruct d as [|[k0 t0] r]; [reflexivity|].
    cbn [json_native map fst forallb snd] in Hn. apply andb_true_iff in Hn as [_ Hn].
    apply andb_true_iff in Hn as [Hn0 Hnr]. apply andb_true_iff in Hn0 as [Hk0 Hn0].
    inversion HP as [|? ? HP0 HPr]; subst. cbn [snd] in HP0.
    cbn [json_dumps all_ascii]. unfold dumps_member.
    rewrite !all_ascii_append, (all_ascii_json_string _ Hk0). cbn [all_ascii].
    rewrite (HP0 Hn0), (all_ascii_more_members r HPr Hnr). reflexivity.
Qed.

Lemma utf8_valid_ascii (s : string) :
  all_ascii s = true -> utf8_valid 0 128 191 s = true.
Proof.
  induction s as [|c r IH]; [reflexivity|]. cbn [all_ascii utf8_valid]. intros H.
  apply andb_true_iff in H as [Hc Hr]. unfold is_ascii in Hc. rewrite Hc. exact (IH Hr).
Qed.

Lemma safe_base64_decode_encode (text : string) :
  all_ascii text = true -> safe_base64_decode (safe_base64_encode text) = Ok text.
Proof.
  intros H. unfold safe_base64_decode, safe_base64_encode.
  rewrite b64_decode_encode, (utf8_valid_ascii _ H). reflexivity.
Qed.

(** ** Trees in the heap *)

Lemma all_some_map_some {A} (l : list A) : all_some (map Some l) = Some l.
Proof. induction l as [|x l IH]; cbn; [reflexivity|]. rewrite IH. reflexivity. Qed.

Lemma build_items_spec (l : list pytree) :
  Forall builds_well l ->
  forall h,
  exists fresh,
    snd (build_items build l h) = h ++ fresh /\
    forall ext fuel,
      (length fresh <= fuel)%nat ->
      map (snapshot_fuel fuel (h ++ fresh ++ ext)) (fst (build_items build l h))
      = map Some l.
Proof.
  induction l as [|t r IH]; intros HP h.
  - exists []. split; [cbn; rewrite app_nil_r; reflexivity|reflexivity].
  - inversion HP as [|? ? HPt HPr]; subst.
    cbn [build_items].
    destruct (HPt h) as (f1 & Hh1 & Hs1).
    destruct (build t h) as [v h1]. cbn [fst snd] in Hh1, Hs1. subst h1.
    destruct (IH HPr (h ++ f1)) as (f2 & Hh2 & Hs2).
    destruct (build_items build r (h ++ f1)) as [vs h2]. cbn [fst snd] in Hh2, Hs2 |- *.
    subst h2. exists (f1 ++ f2). split; [rewrite app_assoc; reflexivity|].
    intros ext fuel Hf. rewrite length_app in Hf. cbn [map]. f_equal.
    + rewrite <- app_assoc. apply Hs1. lia.
    + specialize (Hs2 ext fuel ltac:(lia)). rewrite <- !app_assoc in Hs2 |- *. exact Hs2.
Qed.

Lemma build_entries_spec (d : list (string * pytree)) :
  Forall (fun kv => builds_well (snd kv)) d ->
  forall h,
  exists fresh,
    snd (build_entries build d h) = h ++ fresh /\
    forall ext fuel,
      (length fresh <= fuel)%nat ->
      map (fun kv => pair_some (fst kv, snapshot_fuel fuel (h ++ fresh ++ ext) (snd kv)))
        (fst (build_entries build d h))
      = map Some d.
Proof.
  induction d as [|[k t] r IH]; intros HP h.
  - exists []. split; [cbn; rewrite app_nil_r; reflexivity|reflexivity].
  - inversion HP as [|? ? HPt HPr]; subst. cbn [snd] in HPt.
    cbn [build_entries].
    destruct (HPt h) as (f1 & Hh1 & Hs1).
    destruct (build t h) as [v h1]. cbn [fst snd] in Hh1, Hs1. subst h1.
    destruct (IH HPr (h ++ f1)) as (f2 & Hh2 & Hs2).
    destruct (build_entries build r (h ++ f1)) as [kvs h2]. cbn [fst snd] in Hh2, Hs2 |- *.
    subst h2. exists (f1 ++ f2). split; [rewrite app_assoc; reflexivity|].
    intros ext fuel Hf. rewrite length_app in Hf. cbn [map fst snd]. f_equal.
    + rewrite <- app_assoc. rewrite Hs1 by lia. reflexivity.
    + specialize (Hs2 ext fuel ltac:(lia)). rewrite <- !app_assoc in Hs2 |- *. exact Hs2.
Qed.

Lemma build_spec (t : pytree) : builds_well t.
Proof.
  induction t as [|b|n|lit|s|b|l HP|d HP] using pytree_induction; intros h;
    try (exists []; split; [cbn; rewrite app_nil_r; reflexivity|];
         intros ext [|fuel] _; reflexivity).
  - destruct (build_items_spec l HP h) as (fresh & Hh & Hs).
    cbn [build]. destruct (build_items build l h) as [vs h']. cbn [fst snd] in Hh, Hs |- *.
    subst h'. exists (fresh ++ [OList vs]). split; [rewrite app_assoc; reflexivity|].
    intros ext fuel Hf. rewrite length_app in Hf. cbn [length] in Hf.
    destruct fuel as [|f]; [lia|]. cbn [snapshot_fuel].
    assert (Hl : (h ++ (fresh ++ [OList vs]) ++ ext) !! length (h ++ fresh)
                 = Some (OList vs)).
    { rewrite <- !app_assoc, app_assoc. apply list_lookup_middle. reflexivity. }
    rewrite Hl.
    specialize (Hs ([OList vs] ++ ext) f ltac:(lia)).
    rewrite <- app_assoc. rewrite Hs, all_some_map_some. reflexivity.
  - destruct (build_entries_spec d HP h) as (fresh & Hh & Hs).
    cbn [build]. destruct (build_entries build d h) as [kvs h']. cbn [fst snd] in Hh, Hs |- *.
    subst h'. exists (fresh ++ [ODict kvs]). split; [rewrite app_assoc; reflexivity|].
    intros ext fuel Hf. rewrite length_app in Hf. cbn [length] in Hf.
    destruct fuel as [|f]; [lia|]. cbn [snapshot_fuel].
    assert (Hl : (h ++ (fresh ++ [ODict kvs]) ++ ext) !! length (h ++ fresh)
                 = Some (ODict kvs)).
    { rewrite <- !app_assoc, app_assoc. apply list_lookup_middle. reflexivity. }
    rewrite Hl.
    specialize (Hs ([ODict kvs] ++ ext) f ltac:(lia)).
    rewrite <- app_assoc. rewrite Hs, all_some_map_some. reflexivity.
Qed.

(** The value [build] returns has the tree as its snapshot. *)
Lemma snapshot_build (t : pytree) (h : list pyobj) :
  exists fresh,
    snd (build t h) = h ++ fresh /\
    snapshot (snd (build t h)) (fst (build t h)) = Some t.
Proof.
  destruct (build_spec t h) as (fresh & Hh & Hs). exists fresh. split; [exact Hh|].
  unfold snapshot. rewrite Hh. specialize (Hs [] (length (h ++ fresh))).
  rewrite app_nil_r in Hs. apply Hs. rewrite length_app. lia.
Qed.

Lemma all_some_map_mono {A B} (f g : A -> option B) (l : list A) (r : list B) :
  (forall x y, f x = Some y -> g x = Some y) ->
  all_some (map f l) = Some r -> all_some (map g l) = Some r.
Proof.
  intros Hfg. revert r. induction l as [|x l IH]; intros r H; [exact H|].
  cbn [map all_some] in H |- *.
  destruct (f x) as [y|] eqn:Hx; [|discriminate H]. rewrite (Hfg _ _ Hx).
  destruct (all_some (map f l)) as [r'|]; [|discriminate H].
  rewrite (IH r' eq_refl). exact H.
Qed.

(** More objects and more fuel leave a snapshot as it is. *)
Lemma snapshot_fuel_extend (fuel : nat) :
  forall h v t ext fuel',
    snapshot_fuel fuel h v = Some t ->
    (fuel <= fuel')%nat ->
    snapshot_fuel fuel' (h ++ ext) v = Some t.
Proof.
  induction fuel as [|f IH]; intros h v t ext fuel' H Hf.
  - destruct v; try (destruct fuel'; exact H). discriminate H.
  - destruct v; try (destruct fuel'; exact H).
    destruct fuel' as [|f']; [lia|]. cbn [snapshot_fuel] in H |- *.
    destruct (h !! r) as [o|] eqn:Hl; [|discriminate H].
    rewrite (lookup_app_l_Some _ _ _ _ Hl).
    destruct o as [d|l].
    + destruct (all_some (map (fun kv => pair_some (fst kv, snapshot_fuel f h (snd kv))) d))
        as [r'|] eqn:Hd; [|discriminate H].
      assert (Hmono : forall (kv : string * pyval) (y : string * pytree),
                 pair_some (fst kv, snapshot_fuel f h (snd kv)) = Some y ->
                 pair_some (fst kv, snapshot_fuel f' (h ++ ext) (snd kv)) = Some y).
      { intros [k x] y. cbn [fst snd pair_some].
        destruct (snapshot_fuel f h x) as [tx|] eqn:Hx; [|discriminate].
        rewrite (IH h x tx ext f' Hx ltac:(lia)). trivial. }
      rewrite (all_some_map_mono _ _ d r' Hmono Hd). exact H.
    + destruct (all_some (map (snapshot_fuel f h) l)) as [r'|] eqn:Hd; [|discriminate H].
      rewrite (all_some_map_mono _ _ l r' (fun x y Hx => IH h x y ext f' Hx ltac:(lia)) Hd).
      exact H.
Qed.

Lemma snapshot_extend (h ext : list pyobj) (v : pyval) (t : pytree) :
  snapshot h v = Some t -> snapshot (h ++ ext) v = Some t.
Proof.
  unfold snapshot. intros H. apply (snapshot_fuel_extend _ _ _ _ _ _ H).
  rewrite length_app. lia.
Qed.

(** ** The header codec *)

Lemma header_tree_native version scheme network signature v :
  ascii_header scheme network signature v = true ->
  json_native (header_tree version scheme network signature v) = true.
Proof.
  unfold ascii_header. intros H.
  repeat (apply andb_true_iff in H as [H ?]).
  unfold header_tree, voucher_tree. cbn [json_native map fst snd forallb].
  repeat match goal with
         | Hx : all_ascii ?s = true |- context [all_ascii ?s] => rewrite Hx
         end.
  destruct signature as [s|]; cbn [json_native];
    repeat match goal with
           | Hx : all_ascii ?s = true |- context [all_ascii ?s] => rewrite Hx
           end; reflexivity.
Qed.


(** A native value survives encoding and decoding: the decoded value is a
    new object with the same content, and the value encoded is untouched. *)
Lemma decode_encode_native (payload : pyval) (w : world) (t : pytree) :
  snapshot (heap w) payload = Some t ->
  json_native t = true ->
  exists encoded decoded w',
    encode_payment payload w = (Ok encoded, w) /\
    decode_payment encoded w = (Ok decoded, w') /\
    snapshot (heap w') decoded = Some t /\
    snapshot (heap w') payload = Some t /\
    ticks w' = ticks w.
Proof.
  intros Hs Hn. unfold encode_payment. rewrite Hs.
  destruct (snapshot_build t (heap w)) as (fresh & Hh & Hb).
  exists (safe_base64_encode (json_dumps t)), (fst (build t (heap w))),
    (World (snd (build t (heap w))) (ticks w)).
  split; [reflexivity|]. split.
  - unfold decode_payment. unfold_monad.
    rewrite (safe_base64_decode_encode _ (all_ascii_dumps t Hn)), (json_loads_dumps t Hn).
    unfold materialize. destruct (build t (heap w)). reflexivity.
  - cbn [heap ticks]. split; [exact Hb|]. split; [|reflexivity].
    rewrite Hh. apply snapshot_extend. exact Hs.
Qed.



(** ** Which objects a call changes *)

Section Frame.

Context {E : Externals}.

Lemma keeps_heap_ret {A} (a : A) : keeps_heap (mret a).
Proof. intros w. reflexivity. Qed.

Lemma keeps_heap_raise {A} (e : exn) : keeps_heap (@raise A e).
Proof. intros w. reflexivity. Qed.

Lemma keeps_heap_lift {A} (r : result A) : keeps_heap (lift r).
Proof. intros w. reflexivity. Qed.

Lemma keeps_heap_time_now : keeps_heap time_now.
Proof. intros w. reflexivity. Qed.

Lemma keeps_heap_bind {A B} (m : M A) (k : A -> M B) :
  keeps_heap m -> (forall a, keeps_heap (k a)) -> keeps_heap (m ≫= k).
Proof.
  intros Hm Hk w. unfold mbind, M_bind. specialize (Hm w).
  destruct (m w) as [[a|e] w1]; cbn [snd] in Hm |- *; [|exact Hm].
  rewrite (Hk a w1). exact Hm.
Qed.

Lemma keeps_heap_try_wrap {A} (wrap : exn -> exn) (m : M A) :
  keeps_heap m -> keeps_heap (try_wrap wrap m).
Proof.
  intros Hm w. unfold try_wrap. specialize (Hm w).
  destruct (m w) as [[a|e] w1]; exact Hm.
Qed.

Lemma keeps_heap_read_dict (v : pyval) : keeps_heap (read_dict v).
Proof.
  intros w. destruct (read_dict v w) as [r w'] eqn:H.
  apply read_dict_world in H. subst. reflexivity.
Qed.

Ltac keeps_heap_step :=
  first
    [ apply keeps_heap_bind; [|intros ?]
    | apply keeps_heap_ret
    | apply keeps_heap_raise
    | apply keeps_heap_lift
    | apply keeps_heap_time_now
    | apply keeps_heap_try_wrap
    | apply keeps_heap_read_dict
    | match goal with
      | |- keeps_heap (if ?b then _ else _) => destruct b
      | |- keeps_heap (match ?x with _ => _ end) => destruct x
      | |- keeps_heap (let _ := _ in _) => cbv zeta
      end ].

Lemma keeps_heap_extra_new (extra : option loc) :
  keeps_heap (DeferredPaymentRequirementsExtraNewVoucher extra).
Proof.
  unfold DeferredPaymentRequirementsExtraNewVoucher, read_mapping.
  repeat keeps_heap_step.
Qed.

Lemma keeps_heap_extra_aggregation (extra : option loc) :
  keeps_heap (DeferredPaymentRequirementsExtraAggregationVoucher extra).
Proof.
  unfold DeferredPaymentRequirementsExtraAggregationVoucher, read_mapping.
  repeat keeps_heap_step.
Qed.

Lemma keeps_heap_create_new_voucher buyer_arg req :
  keeps_heap (create_new_voucher buyer_arg req).
Proof.
  unfold create_new_voucher.
  repeat first [apply keeps_heap_extra_new | keeps_heap_step].
Qed.

Lemma keeps_heap_aggregate_voucher buyer_arg req :
  keeps_heap (aggregate_voucher buyer_arg req).
Proof.
  unfold aggregate_voucher.
  repeat first [apply keeps_heap_extra_aggregation | keeps_heap_step].
Qed.

Lemma keeps_heap_encode_payment (payload : pyval) w :
  snd (encode_payment payload w) = w.
Proof. unfold encode_payment. destruct (snapshot (heap w) payload); reflexivity. Qed.

Lemma extends_heap_keeps {A} (m : M A) : keeps_heap m -> extends_heap m.
Proof. intros H w. exists []. rewrite app_nil_r. apply H. Qed.

Lemma extends_heap_alloc (o : pyobj) : extends_heap (alloc o).
Proof. intros w. exists [o]. reflexivity. Qed.

Lemma extends_heap_bind {A B} (m : M A) (k : A -> M B) :
  extends_heap m -> (forall a, extends_heap (k a)) -> extends_heap (m ≫= k).
Proof.
  intros Hm Hk w. unfold mbind, M_bind. destruct (Hm w) as [f1 H1].
  destruct (m w) as [[a|e] w1]; cbn [snd] in H1 |- *; [|eauto].
  destruct (Hk a w1) as [f2 H2]. exists (f1 ++ f2). rewrite H2, H1, app_assoc. reflexivity.
Qed.

Lemma extends_heap_materialize (t : pytree) : extends_heap (materialize t).
Proof.
  intros w. unfold materialize. destruct (snapshot_build t (heap w)) as (fresh & Hh & _).
  destruct (build t (heap w)) as [v h]. exists fresh. exact Hh.
Qed.

Lemma extends_heap_prepare_payment_header sender version req :
  extends_heap (prepare_payment_header sender version req).
Proof.
  unfold prepare_payment_header.
  destruct (PaymentRequirements.extra req) as [r|];
    [|apply extends_heap_keeps, keeps_heap_raise].
  apply extends_heap_bind; [apply extends_heap_keeps, keeps_heap_read_dict|].
  intros extra.
  destruct extra as [|kv extra]; [apply extends_heap_keeps, keeps_heap_raise|].
  destruct (dict_get "type" (kv :: extra)) as [ty|];
    [|apply extends_heap_keeps, keeps_heap_raise].
  apply extends_heap_bind.
  - apply extends_heap_keeps.
    destruct (is_str "new" ty); [apply keeps_heap_create_new_voucher|].
    destruct (is_str "aggregation" ty);
      [apply keeps_heap_aggregate_voucher|apply keeps_heap_raise].
  - intros v. repeat (apply extends_heap_bind; [apply extends_heap_alloc|intros ?]).
    apply extends_heap_alloc.
Qed.

Lemma extends_heap_decode_payment (encoded : string) :
  extends_heap (decode_payment encoded).
Proof.
  unfold decode_payment.
  repeat (apply extends_heap_bind; [apply extends_heap_keeps, keeps_heap_lift|intros ?]).
  apply extends_heap_materialize.
Qed.

Lemma getitem_world (v : pyval) (k : string) w r w' :
  getitem v k w = (r, w') -> w' = w.
Proof.
  unfold getitem. unfold_monad. intros H.
  destruct (read_dict v w) as [[d|e] w1] eqn:Hr; apply read_dict_world in Hr; subst w1.
  - destruct (dict_get k d); injection H as _ <-; reflexivity.
  - injection H as _ <-. reflexivity.
Qed.

Lemma voucher_of_world (v : pyval) w r w' :
  DeferredEvmPayloadVoucher_of v w = (r, w') -> w' = w.
Proof.
  unfold DeferredEvmPayloadVoucher_of. unfold_monad. intros H.
  destruct (read_dict v w) as [[d|e] w1] eqn:Hr; apply read_dict_world in Hr; subst w1;
    injection H as _ <-; reflexivity.
Qed.

(** What [sign_payment_header] does to the state, whatever its outcome: the
    clock is not read, and no object changes except, once the voucher is
    signed, the payload of the header, whose [signature] entry becomes the
    new signature. *)
Lemma sign_payment_header_effect account req header w :
  let w' := snd (sign_payment_header account req header w) in
  ticks w' = ticks w /\
  (heap w' = heap w \/
   exists p d voucher signature,
     getitem header "payload" w = (Ok (PRef p), w) /\
     heap w !! p = Some (ODict d) /\
     sign_voucher account voucher = Ok signature /\
     heap w' = <[p := ODict (dict_set "signature" (PStr signature) d)]> (heap w)).
Proof.
  unfold sign_payment_header, try_wrap. unfold_monad.
  destruct (getitem header "payload" w) as [[payload|e] w1] eqn:Hg;
    pose proof (getitem_world _ _ _ _ _ Hg) as ->; [|cbn; auto].
  destruct (getitem payload "voucher" w) as [[vd|e] w1] eqn:Hgv;
    pose proof (getitem_world _ _ _ _ _ Hgv) as ->; [|cbn; auto].
  destruct (DeferredEvmPayloadVoucher_of vd w) as [[voucher|e] w1] eqn:Hv;
    pose proof (voucher_of_world _ _ _ _ Hv) as ->; [|cbn; auto].
  destruct (sign_voucher account voucher) as [signature|e] eqn:Hs; [|cbn; auto].
  rewrite Hg. unfold setitem.
  destruct payload as [| | | | | |p]; try (cbn; auto).
  destruct (heap w !! p) as [[d|l]|] eqn:Hl; try (cbn; auto).
  match goal with
  | |- context [encode_payment header ?w2] =>
      pose proof (keeps_heap_encode_payment header w2) as He;
      destruct (encode_payment header w2) as [[encoded|e] w3]
  end; cbn [snd] in He; subst w3; cbn [snd heap ticks];
    (split; [reflexivity|]); right; exists p, d, voucher, signature; auto.
Qed.

(** C8.  No operation changes an object it is given, with one exception.
    [aggregate_voucher] and [create_new_voucher] leave the heap as it is
    (so the prior voucher and its signature, which live in the [extra] of the
    requirements, stay as they were); [encode_payment] changes nothing at
    all; [prepare_payment_header] and [decode_payment] only add new objects.
    The exception is [sign_payment_header]: it stores the new signature
    under [signature] in the payload of the header it is given, and changes
    nothing else. *)
Theorem inputs_unchanged_but_signed_header :
  (forall buyer_arg req, keeps_heap (aggregate_voucher buyer_arg req)) /\
  (forall buyer_arg req, keeps_heap (create_new_voucher buyer_arg req)) /\
  (forall payload w, snd (encode_payment payload w) = w) /\
  (forall sender version req, extends_heap (prepare_payment_header sender version req)) /\
  (forall encoded, extends_heap (decode_payment encoded)) /\
  (forall account req header w,
      let w' := snd (sign_payment_header account req header w) in
      ticks w' = ticks w /\
      (heap w' = heap w \/
       exists p d voucher signature,
         getitem header "payload" w = (Ok (PRef p), w) /\
         heap w !! p = Some (ODict d) /\
         sign_voucher account voucher = Ok signature /\
         heap w' = <[p := ODict (dict_set "signature" (PStr signature) d)]> (heap w))) /\
  (forall account req header w encoded w',
      sign_payment_header account req header w = (Ok encoded, w') ->
      exists p d voucher signature,
        getitem header "payload" w = (Ok (PRef p), w) /\
        heap w !! p = Some (ODict d) /\
        sign_voucher account voucher = Ok signature /\
        w' = World (<[p := ODict (dict_set "signature" (PStr signature) d)]> (heap w))
               (ticks w)).
Proof.
  split; [exact keeps_heap_aggregate_voucher|].
  split; [exact keeps_heap_create_new_voucher|].
  split; [exact keeps_heap_encode_payment|].
  split; [exact extends_heap_prepare_payment_header|].
  split; [exact extends_heap_decode_payment|].
  split; [exact sign_payment_header_effect|].
  intros account req header w encoded w'.
  unfold sign_payment_header, try_wrap. unfold_monad.
  destruct (getitem header "payload" w) as [[payload|e] w1] eqn:Hg;
    pose proof (getitem_world _ _ _ _ _ Hg) as ->; [|discriminate].
  destruct (getitem payload "voucher" w) as [[vd|e] w1] eqn:Hgv;
    pose proof (getitem_world _ _ _ _ _ Hgv) as ->; [|discriminate].
  destruct (DeferredEvmPayloadVoucher_of vd w) as [[voucher|e] w1] eqn:Hv;
    pose proof (voucher_of_world _ _ _ _ Hv) as ->; [|discriminate].
  destruct (sign_voucher account voucher) as [signature|e] eqn:Hs; [|discriminate].
  rewrite Hg. unfold setitem.
  destruct payload as [| | | | | |p]; try discriminate.
  destruct (heap w !! p) as [[d|l]|] eqn:Hl; try discriminate.
  match goal with
  | |- context [encode_payment header ?w2] =>
      pose proof (keeps_heap_encode_payment header w2) as He;
      destruct (encode_payment header w2) as [[enc|e] w3]
  end; cbn [snd] in He; subst w3; [|discriminate].
  intros H. injection H as _ <-. exists p, d, voucher, signature. auto.
Qed.

End Frame.

(** ** New vouchers and malformed requirements *)

Section NewVoucher.

Context {E : Externals}.

Lemma read_dict_ref (r : loc) (d : list (string * pyval)) (w : world) :
  heap w !! r = Some (ODict d) -> read_dict (PRef r) w = (Ok d, w).
Proof. intros H. unfold read_dict. rewrite H. reflexivity. Qed.

(** What a successful creation went through: the two readings of the clock
    are the one for [timestamp] and, later, the one for [expiry]. *)
Lemma create_new_voucher_success buyer_arg req w v w' :
  create_new_voucher buyer_arg req w = (Ok v, w') ->
  exists ext seed_escrow,
    DeferredPaymentRequirementsExtraNewVoucher (PaymentRequirements.extra req) w
      = (Ok ext, w) /\
    dict_get "id" (ExtraNew.voucher ext) = Some (id v) /\
    dict_get "escrow" (ExtraNew.voucher ext) = Some seed_escrow /\
    to_checksum_address buyer_arg = Ok (buyer v) /\
    to_checksum_address (PaymentRequirements.pay_to req) = Ok (seller v) /\
    to_checksum_address (PaymentRequirements.asset req) = Ok (asset v) /\
    to_checksum_address seed_escrow = Ok (escrow v) /\
    get_chain_id (PaymentRequirements.network req) = Ok (chain_id v) /\
    value_aggregate v = PaymentRequirements.max_amount_required req /\
    nonce v = 0 /\
    timestamp v = wall_clock (ticks w) /\
    expiry v = wall_clock (S (ticks w)) + EXPIRY_TIME /\
    w' = World (heap w) (S (S (ticks w))).
Proof.
  unfold create_new_voucher, try_wrap. unfold_monad. intros H.
  destruct (DeferredPaymentRequirementsExtraNewVoucher _ w) as [[ext|e] w0] eqn:Hp;
    [|discriminate].
  pose proof (extra_new_world _ _ _ _ Hp) as ->.
  destruct (dict_get "id" (ExtraNew.voucher ext)) as [vid|] eqn:Hid; [|discriminate].
  cbn [of_option] in H.
  destruct (to_checksum_address buyer_arg) as [vb|] eqn:Hb; [|discriminate].
  destruct (to_checksum_address (PaymentRequirements.pay_to req)) as [vs|] eqn:Hs;
    [|discriminate].
  destruct (to_checksum_address (PaymentRequirements.asset req)) as [va|] eqn:Ha;
    [|discriminate].
  unfold time_now in H. cbn [heap ticks] in H.
  destruct (dict_get "escrow" (ExtraNew.voucher ext)) as [se|] eqn:Hse; [|discriminate].
  cbn [of_option] in H.
  destruct (to_checksum_address se) as [ve|] eqn:He; [|discriminate].
  destruct (get_chain_id _) as [c|] eqn:Hc; [|discriminate].
  injection H as <- <-. exists ext, se. cbn. repeat split; assumption || reflexivity.
Qed.

(** C9, as the code has it.  [prepare_payment_header] refuses, as malformed,
    requirements whose [extra] is missing or empty, has no [type], or has a
    [type] other than [new] and [aggregation].  [create_new_voucher] called
    on its own has no such check: it reports a missing [extra] as an invalid
    voucher seed.  Creating a new voucher, directly or through
    [prepare_payment_header], fails as an invalid voucher seed when the
    [voucher] of the [extra] lacks its [id] or its [escrow]. *)
Theorem malformed_requirements_errors sender version req w :
  (PaymentRequirements.extra req = None ->
   prepare_payment_header sender version req w
   = (Err (MalformedRequirements NoTypeField), w)) /\
  (forall r d,
      PaymentRequirements.extra req = Some r ->
      heap w !! r = Some (ODict d) ->
      dict_get "type" d = None ->
      prepare_payment_header sender version req w
      = (Err (MalformedRequirements NoTypeField), w)) /\
  (forall r d ty,
      PaymentRequirements.extra req = Some r ->
      heap w !! r = Some (ODict d) ->
      dict_get "type" d = Some ty ->
      is_str "new" ty = false ->
      is_str "aggregation" ty = false ->
      prepare_payment_header sender version req w
      = (Err (MalformedRequirements UnknownVoucherType), w)) /\
  (PaymentRequirements.extra req = None ->
   create_new_voucher sender req w = (Err (InvalidVoucherSeed TypeError), w)) /\
  (forall r d seed sd,
      PaymentRequirements.extra req = Some r ->
      heap w !! r = Some (ODict d) ->
      dict_get "type" d = Some (PStr "new") ->
      dict_get "voucher" d = Some (PRef seed) ->
      heap w !! seed = Some (ODict sd) ->
      dict_get "id" sd = None \/ dict_get "escrow" sd = None ->
      create_new_voucher sender req w = (Err (InvalidVoucherSeed ValidationError), w) /\
      prepare_payment_header sender version req w
      = (Err (InvalidVoucherSeed ValidationError), w)).
Proof.
  assert (Hseed : forall r d seed sd,
    PaymentRequirements.extra req = Some r ->
    heap w !! r = Some (ODict d) ->
    dict_get "type" d = Some (PStr "new") ->
    dict_get "voucher" d = Some (PRef seed) ->
    heap w !! seed = Some (ODict sd) ->
    dict_get "id" sd = None \/ dict_get "escrow" sd = None ->
    create_new_voucher sender req w = (Err (InvalidVoucherSeed ValidationError), w)).
  { intros r d seed sd Hx Hr Hty Hv Hsd Hlack.
    unfold create_new_voucher, try_wrap, DeferredPaymentRequirementsExtraNewVoucher.
    rewrite Hx. unfold_monad. rewrite (read_dict_ref _ _ _ Hr), Hty, Hv.
    cbn [is_str]. change (String.eqb "new" "new") with true. cbn iota.
    unfold read_mapping, try_wrap. rewrite (read_dict_ref _ _ _ Hsd).
    unfold get_str. destruct Hlack as [Hl|Hl]; rewrite Hl.
    - reflexivity.
    - destruct (dict_get "id" sd) as [[]|]; reflexivity. }
  split; [|split; [|split; [|split]]].
  - intros Hx. unfold prepare_payment_header. rewrite Hx. reflexivity.
  - intros r d Hx Hr Hty. unfold prepare_payment_header. rewrite Hx. unfold_monad.
    rewrite (read_dict_ref _ _ _ Hr). destruct d; [reflexivity|]. rewrite Hty. reflexivity.
  - intros r d ty Hx Hr Hty Hnew Hagg. unfold prepare_payment_header. rewrite Hx.
    unfold_monad. rewrite (read_dict_ref _ _ _ Hr).
    destruct d; [discriminate Hty|]. rewrite Hty, Hnew, Hagg. reflexivity.
  - intros Hx. unfold create_new_voucher, try_wrap,
      DeferredPaymentRequirementsExtraNewVoucher. rewrite Hx. reflexivity.
  - intros r d seed sd Hx Hr Hty Hv Hsd Hlack.
    pose proof (Hseed r d seed sd Hx Hr Hty Hv Hsd Hlack) as Hc. split; [exact Hc|].
    unfold prepare_payment_header. rewrite Hx. unfold_monad.
    rewrite (read_dict_ref _ _ _ Hr).
    destruct d; [discriminate Hty|]. rewrite Hty. cbn [is_str].
    change (String.eqb "new" "new") with true. cbn iota. rewrite Hc. reflexivity.
Qed.

End NewVoucher.
(** ** Further properties of the module *)

Section MoreProperties.

Context {E : Externals}.

(** A new voucher, field by field.  The timestamp is the first reading of the
    clock and the expiry thirty days after the second: the two are thirty
    days apart when the readings agree. *)
Theorem create_new_voucher_fields buyer_arg req w v w' :
  create_new_voucher buyer_arg req w = (Ok v, w') ->
  nonce v = 0 /\
  value_aggregate v = PaymentRequirements.max_amount_required req /\
  to_checksum_address buyer_arg = Ok (buyer v) /\
  to_checksum_address (PaymentRequirements.pay_to req) = Ok (seller v) /\
  to_checksum_address (PaymentRequirements.asset req) = Ok (asset v) /\
  get_chain_id (PaymentRequirements.network req) = Ok (chain_id v) /\
  timestamp v = wall_clock (ticks w) /\
  expiry v = wall_clock (S (ticks w)) + 2592000 /\
  (wall_clock (S (ticks w)) = wall_clock (ticks w) ->
   expiry v - timestamp v = 2592000) /\
  heap w' = heap w.
Proof.
  intros H.
  destruct (create_new_voucher_success _ _ _ _ _ H)
    as (ext & se & _ & _ & _ & Hb & Hs & Ha & _ & Hc & Hv & Hn & Ht & Hx & ->).
  change EXPIRY_TIME with 2592000 in Hx.
  repeat split; try assumption. intros Hsame. rewrite Hx, Ht, Hsame. lia.
Qed.

(** A signature as [sign_voucher] returns it starts with [0x], whatever the
    form in which the account gave it. *)
Theorem sign_voucher_prefixed account voucher signature :
  sign_voucher account voucher = Ok signature ->
  startswith "0x" signature = true.
Proof.
  unfold sign_voucher. unfold_monad.
  destruct (signable_message voucher) as [m|e]; [|discriminate].
  destruct (sign_message account m) as [s|e]; [|discriminate].
  intros H. injection H as <-. unfold with_0x.
  destruct (startswith "0x" s) eqn:Hs; [exact Hs|reflexivity].
Qed.

(** The three objects [prepare_payment_header] makes, read from the last. *)
Lemma snapshot_new_header (h : list pyobj) (version : Z) (net : string)
    (v : DeferredEvmPayloadVoucher) :
  let h1 := h ++ [ODict (model_dump v)] in
  let h2 := h1 ++ [ODict [("signature", PNone); ("voucher", PRef (length h))]] in
  let h3 := h2 ++ [ODict [("x402Version", PInt version);
                          ("scheme", PStr DEFERRED_SCHEME);
                          ("network", PStr net);
                          ("payload", PRef (length h1))]] in
  snapshot h3 (PRef (length h2)) = Some (header_tree version DEFERRED_SCHEME net None v).
Proof.
  intros h1 h2 h3.
  assert (L3 : h3 !! length h2 = Some (ODict [("x402Version", PInt version);
                          ("scheme", PStr DEFERRED_SCHEME);
                          ("network", PStr net);
                          ("payload", PRef (length h1))])).
  { subst h3. apply list_lookup_middle. reflexivity. }
  assert (L2 : h3 !! length h1
               = Some (ODict [("signature", PNone); ("voucher", PRef (length h))])).
  { subst h3 h2. rewrite <- app_assoc. apply list_lookup_middle. reflexivity. }
  assert (L1 : h3 !! length h = Some (ODict (model_dump v))).
  { subst h3 h2 h1. rewrite <- !app_assoc. apply list_lookup_middle. reflexivity. }
  unfold snapshot.
  assert (Hlen : length h3 = S (S (S (length h)))).
  { subst h3 h2 h1. rewrite !length_app. cbn [length]. lia. }
  rewrite Hlen. cbn [snapshot_fuel]. rewrite L3.
  cbn [map fst snd pair_some all_some snapshot_fuel option_map]. rewrite L2.
  cbn [map fst snd pair_some all_some snapshot_fuel option_map]. rewrite L1.
  unfold model_dump. generalize (length h). intros [|n]; reflexivity.
Qed.

(** A header that [prepare_payment_header] returns is a new object that
    reads as the header of section 6: the version given, the scheme
    [deferred], the network of the requirements, no signature, and the
    voucher that [create_new_voucher] or [aggregate_voucher] made for these
    requirements. *)
Theorem prepare_payment_header_result sender version req w header w' :
  prepare_payment_header sender version req w = (Ok header, w') ->
  exists v w1,
    (create_new_voucher sender req w = (Ok v, w1) \/
     aggregate_voucher sender req w = (Ok v, w1)) /\
    ticks w' = ticks w1 /\
    header = PRef (length (heap w) + 2)%nat /\
    heap w !! (length (heap w) + 2)%nat = None /\
    snapshot (heap w') header
    = Some (header_tree version DEFERRED_SCHEME (PaymentRequirements.network req) None v).
Proof.
  unfold prepare_payment_header.
  destruct (PaymentRequirements.extra req) as [r|]; [|discriminate].
  unfold_monad. destruct (read_dict (PRef r) w) as [[d|e] w0] eqn:Hr; [|discriminate].
  pose proof (read_dict_world _ _ _ _ Hr) as ->.
  destruct d as [|kv d]; [discriminate|].
  destruct (dict_get "type" (kv :: d)) as [ty|]; [|discriminate].
  assert (Hbuild : forall v w1,
    heap w1 = heap w ->
    (let '(r1, s1) := alloc (ODict (model_dump v)) w1 in
     match r1 with
     | Ok voucher_dict =>
         let '(r2, s2) :=
           alloc (ODict [("signature", PNone); ("voucher", voucher_dict)]) s1 in
         match r2 with
         | Ok payload =>
             alloc (ODict [("x402Version", PInt version);
                           ("scheme", PStr DEFERRED_SCHEME);
                           ("network", PStr (PaymentRequirements.network req));
                           ("payload", payload)]) s2
         | Err e => (Err e, s2)
         end
     | Err e => (Err e, s1)
     end) = (Ok header, w') ->
    ticks w' = ticks w1 /\
    header = PRef (length (heap w) + 2)%nat /\
    heap w !! (length (heap w) + 2)%nat = None /\
    snapshot (heap w') header
    = Some (header_tree version DEFERRED_SCHEME (PaymentRequirements.network req) None v)).
  { intros v w1 Hh. unfold alloc. cbn [heap ticks]. rewrite Hh. intros H.
    injection H as <- <-. cbn [heap ticks].
    split; [reflexivity|]. rewrite !length_app. cbn [length].
    replace (length (heap w) + 1 + 1)%nat with (length (heap w) + 2)%nat by lia.
    split; [reflexivity|]. split; [apply lookup_ge_None_2; lia|].
    pose proof (snapshot_new_header (heap w) version (PaymentRequirements.network req) v)
      as Hs.
    cbv zeta in Hs. rewrite !length_app in Hs. cbn [length] in Hs.
    replace (length (heap w) + 1 + 1)%nat with (length (heap w) + 2)%nat in Hs by lia.
    exact Hs. }
  destruct (is_str "new" ty).
  - destruct (create_new_voucher sender req w) as [[v|e] w1] eqn:Hc; [|discriminate].
    intros H. exists v, w1. split; [left; reflexivity|].
    apply Hbuild; [|exact H].
    pose proof (keeps_heap_create_new_voucher sender req w) as Hk.
    rewrite Hc in Hk. exact Hk.
  - destruct (is_str "aggregation" ty); [|discriminate].
    destruct (aggregate_voucher sender req w) as [[v|e] w1] eqn:Hc; [|discriminate].
    intros H. exists v, w1. split; [right; reflexivity|].
    apply Hbuild; [|exact H].
    pose proof (keeps_heap_aggregate_voucher sender req w) as Hk.
    rewrite Hc in Hk. exact Hk.
Qed.

(** A successful aggregation passed every check: the seller and the asset
    of the requirements are those of the prior voucher up to case, the chain
    of the network is the voucher's, the time read lies between the voucher's
    timestamp and its expiry, both ends included, and the signature is the
    buyer's.  So timestamps never decrease along a lineage. *)
Theorem aggregate_voucher_checked buyer_arg req w v' w' :
  aggregate_voucher buyer_arg req w = (Ok v', w') ->
  exists ext,
    let v := ExtraAggregation.voucher ext in
    DeferredPaymentRequirementsExtraAggregationVoucher (PaymentRequirements.extra req) w
      = (Ok ext, w) /\
    lower (PaymentRequirements.pay_to req) = lower (seller v) /\
    lower (PaymentRequirements.asset req) = lower (asset v) /\
    get_chain_id (PaymentRequirements.network req) = Ok (chain_id v) /\
    timestamp v <= wall_clock (ticks w) <= expiry v /\
    verify_voucher v (ExtraAggregation.signature ext) buyer_arg = Ok true /\
    timestamp v <= timestamp v' /\
    expiry v' - timestamp v' = 2592000.
Proof.
  intros H. apply aggregate_voucher_success in H.
  destruct H as (ext & charge & prior & vb & Hp & Hw & Hs & Ha & Hc & He & Ht & Hv & _ & _
                 & _ & ->).
  exists ext. cbn. unfold eq_nocase in Hs, Ha.
  apply String.eqb_eq in Hs, Ha. change EXPIRY_TIME with 2592000.
  repeat split; try assumption; lia.
Qed.

(** Reading a tree back to the value it is the snapshot of. *)
Lemma snapshot_fuel_none fuel h x :
  snapshot_fuel fuel h x = Some TNone -> x = PNone.
Proof.
  destruct x as [| | | | | |r]; try (destruct fuel; cbn; congruence).
  destruct fuel as [|f]; [discriminate|].
  cbn [snapshot_fuel]. destruct (h !! r) as [[d|l]|]; [| |discriminate].
  - destruct (all_some _); discriminate.
  - destruct (all_some _); discriminate.
Qed.

Lemma snapshot_fuel_int fuel h x n :
  snapshot_fuel fuel h x = Some (TInt n) -> x = PInt n.
Proof.
  destruct x as [| | | | | |r]; try (destruct fuel; cbn; congruence).
  destruct fuel as [|f]; [discriminate|].
  cbn [snapshot_fuel]. destruct (h !! r) as [[d|l]|]; [| |discriminate].
  - destruct (all_some _); discriminate.
  - destruct (all_some _); discriminate.
Qed.

Lemma snapshot_fuel_str fuel h x s :
  snapshot_fuel fuel h x = Some (TStr s) -> x = PStr s.
Proof.
  destruct x as [| | | | | |r]; try (destruct fuel; cbn; congruence).
  destruct fuel as [|f]; [discriminate|].
  cbn [snapshot_fuel]. destruct (h !! r) as [[d|l]|]; [| |discriminate].
  - destruct (all_some _); discriminate.
  - destruct (all_some _); discriminate.
Qed.

Lemma snapshot_fuel_dict fuel h x d :
  snapshot_fuel fuel h x = Some (TDict d) ->
  exists f r od,
    fuel = S f /\ x = PRef r /\ h !! r = Some (ODict od) /\
    all_some (map (fun kv => pair_some (fst kv, snapshot_fuel f h (snd kv))) od) = Some d.
Proof.
  destruct x as [| | | | | |r]; try (destruct fuel; discriminate).
  destruct fuel as [|f]; [discriminate|].
  cbn [snapshot_fuel]. destruct (h !! r) as [[od|l]|] eqn:Hl; [| |discriminate].
  - destruct (all_some _) as [d'|] eqn:Ha; [|discriminate].
    intros H. injection H as <-. exists f, r, od. auto.
  - destruct (all_some _); discriminate.
Qed.

Lemma entries_nil f h (od : list (string * pyval)) :
  all_some (map (fun kv => pair_some (fst kv, snapshot_fuel f h (snd kv))) od) = Some [] ->
  od = [].
Proof.
  destruct od as [|[k x] od]; [reflexivity|]. cbn [map all_some fst snd pair_some].
  destruct (snapshot_fuel f h x); [|discriminate]. cbn [option_map].
  destruct (all_some _); discriminate.
Qed.

Lemma entries_cons f h (od : list (string * pyval)) k t rest :
  all_some (map (fun kv => pair_some (fst kv, snapshot_fuel f h (snd kv))) od)
    = Some ((k, t) :: rest) ->
  exists x od',
    od = (k, x) :: od' /\ snapshot_fuel f h x = Some t /\
    all_some (map (fun kv => pair_some (fst kv, snapshot_fuel f h (snd kv))) od')
      = Some rest.
Proof.
  destruct od as [|[k' x] od]; [discriminate|]. cbn [map all_some fst snd pair_some].
  destruct (snapshot_fuel f h x) as [t'|] eqn:Hx; [|discriminate].
  destruct (all_some _) as [rest'|] eqn:Hr; [|discriminate].
  intros H. injection H as <- <- <-. exists x, od. auto.
Qed.

Lemma voucher_of_dict_model_dump (v : DeferredEvmPayloadVoucher) :
  voucher_of_dict (model_dump v) = Ok v.
Proof. destruct v. reflexivity. Qed.

(** The objects behind a header that reads as the header of section 6. *)
Lemma header_objects fuel h header version scheme net sig0 v :
  snapshot_fuel fuel h header = Some (header_tree version scheme net sig0 v) ->
  exists f r p q x,
    fuel = S (S (S f)) /\ header = PRef r /\
    h !! r = Some (ODict [("x402Version", PInt version); ("scheme", PStr scheme);
                          ("network", PStr net); ("payload", PRef p)]) /\
    h !! p = Some (ODict [("signature", x); ("voucher", PRef q)]) /\
    h !! q = Some (ODict (model_dump v)).
Proof.
  unfold header_tree, voucher_tree. intros H.
  apply snapshot_fuel_dict in H as (f1 & r & od & -> & -> & Hr & H).
  apply entries_cons in H as (x1 & od1 & -> & H1 & H).
  apply entries_cons in H as (x2 & od2 & -> & H2 & H).
  apply entries_cons in H as (x3 & od3 & -> & H3 & H).
  apply entries_cons in H as (x4 & od4 & -> & H4 & H).
  apply entries_nil in H as ->.
  apply snapshot_fuel_int in H1 as ->. apply snapshot_fuel_str in H2 as ->.
  apply snapshot_fuel_str in H3 as ->.
  apply snapshot_fuel_dict in H4 as (f2 & p & pd & -> & -> & Hp & H).
  apply entries_cons in H as (x & pd1 & -> & _ & H).
  apply entries_cons in H as (y & pd2 & -> & Hq & H).
  apply entries_nil in H as ->.
  apply snapshot_fuel_dict in Hq as (f3 & q & qd & -> & -> & Hq & H).
  exists f3, r, p, q, x. repeat (split; [reflexivity || assumption|]).
  rewrite Hq. do 2 f_equal. unfold model_dump.
  repeat match type of H with
         | all_some _ = Some (_ :: _) =>
             let z := fresh "z" in let Hz := fresh "Hz" in
             apply entries_cons in H as (z & ? & -> & Hz & H);
             first [apply snapshot_fuel_int in Hz as -> | apply snapshot_fuel_str in Hz as ->]
         end.
  apply entries_nil in H as ->. reflexivity.
Qed.

(** What [sign_payment_header] returns for a header that reads as the header
    of section 6 with voucher [v], signed or not: the encoding of that header
    with the signature of [v] in it, the header given now holding that
    signature.  When the strings of the header are plain text,
    [decode_payment] reads the result back as the signed header. *)
Theorem sign_payment_header_result account req header w version scheme net sig0 v signature :
  snapshot (heap w) header = Some (header_tree version scheme net sig0 v) ->
  sign_voucher account v = Ok signature ->
  let signed := header_tree version scheme net (Some signature) v in
  exists w',
    sign_payment_header account req header w
      = (Ok (safe_base64_encode (json_dumps signed)), w') /\
    snapshot (heap w') header = Some signed /\
    ticks w' = ticks w /\
    (ascii_header scheme net (Some signature) v = true ->
     exists decoded w'',
       decode_payment (safe_base64_encode (json_dumps signed)) w' = (Ok decoded, w'') /\
       snapshot (heap w'') decoded = Some signed).
Proof.
  intros Hs Hsig signed. unfold snapshot in Hs.
  apply header_objects in Hs as (f & r & p & q & x & Hlen & -> & Hr & Hp & Hq).
  set (pd' := [("signature", PStr signature); ("voucher", PRef q)]).
  set (h' := <[p := ODict pd']> (heap w)).
  assert (Hrp : p <> r).
  { intros ->. rewrite Hr in Hp. discriminate Hp. }
  assert (Hqp : p <> q).
  { intros ->. rewrite Hq in Hp. discriminate Hp. }
  assert (Hr' : h' !! r = heap w !! r) by (apply list_lookup_insert_ne; exact Hrp).
  assert (Hq' : h' !! q = heap w !! q) by (apply list_lookup_insert_ne; exact Hqp).
  assert (Hp' : h' !! p = Some (ODict pd')).
  { apply list_lookup_insert_eq. apply (lookup_lt_Some _ _ _ Hp). }
  assert (Hsnap : snapshot h' (PRef r) = Some signed).
  { unfold snapshot, h'. rewrite length_insert, Hlen. fold h'.
    cbn [snapshot_fuel]. rewrite Hr', Hr.
    cbn [map fst snd pair_some all_some snapshot_fuel option_map]. rewrite Hp'.
    unfold pd'. cbn [map fst snd pair_some all_some snapshot_fuel option_map].
    rewrite Hq', Hq. unfold model_dump. destruct f; reflexivity. }
  exists (World h' (ticks w)).
  assert (Hrun : sign_payment_header account req (PRef r) w
                 = (Ok (safe_base64_encode (json_dumps signed)), World h' (ticks w))).
  { unfold sign_payment_header, try_wrap, getitem, DeferredEvmPayloadVoucher_of, setitem.
    unfold_monad. unfold read_dict. rewrite Hr. cbn [dict_get String.eqb Ascii.eqb Bool.eqb].
    rewrite Hp. cbn [dict_get String.eqb Ascii.eqb Bool.eqb].
    rewrite Hq, voucher_of_dict_model_dump, Hsig. rewrite Hr.
    cbn [dict_get String.eqb Ascii.eqb Bool.eqb]. rewrite Hp.
    cbn [dict_set String.eqb Ascii.eqb Bool.eqb]. fold pd'. fold h'.
    unfold encode_payment. cbn [heap ticks]. rewrite Hsnap. reflexivity. }
  split; [exact Hrun|]. split; [exact Hsnap|]. split; [reflexivity|].
  intros Hascii.
  destruct (decode_encode_native (PRef r) (World h' (ticks w)) signed Hsnap
              (header_tree_native _ _ _ _ _ Hascii))
    as (encoded & decoded & w'' & He & Hd & Hsd & _).
  unfold encode_payment in He. cbn [heap] in He. rewrite Hsnap in He.
  injection He as <-. exists decoded, w''. auto.
Qed.

End MoreProperties.
(** ** Errors of the collaborators, and where they surface *)

Section ErrorPaths.

Context {E : Externals}.

(** [get_voucher_typed_data] evaluates the domain before the message, and
    the entries of each in the order written: the escrow is normalised
    first, then the buyer, the seller, the amount is read as an integer,
    then the asset.  The first of these to fail decides the error; an amount
    that is no integer is refused only if escrow, buyer and seller passed. *)
Theorem get_voucher_typed_data_error_order (v : DeferredEvmPayloadVoucher) :
  (forall x, to_checksum_address (escrow v) = Err x ->
             get_voucher_typed_data v = Err x) /\
  (forall e x, to_checksum_address (escrow v) = Ok e ->
               to_checksum_address (buyer v) = Err x ->
               get_voucher_typed_data v = Err x) /\
  (forall e b x, to_checksum_address (escrow v) = Ok e ->
                 to_checksum_address (buyer v) = Ok b ->
                 to_checksum_address (seller v) = Err x ->
                 get_voucher_typed_data v = Err x) /\
  (forall e b s, to_checksum_address (escrow v) = Ok e ->
                 to_checksum_address (buyer v) = Ok b ->
                 to_checksum_address (seller v) = Ok s ->
                 int_of_str (value_aggregate v) = None ->
                 get_voucher_typed_data v = Err InvalidAmount) /\
  (forall e b s n x, to_checksum_address (escrow v) = Ok e ->
                     to_checksum_address (buyer v) = Ok b ->
                     to_checksum_address (seller v) = Ok s ->
                     int_of_str (value_aggregate v) = Some n ->
                     to_checksum_address (asset v) = Err x ->
                     get_voucher_typed_data v = Err x) /\
  (forall td, get_voucher_typed_data v = Ok td ->
              exists e b s n a,
                to_checksum_address (escrow v) = Ok e /\
                to_checksum_address (buyer v) = Ok b /\
                to_checksum_address (seller v) = Ok s /\
                int_of_str (value_aggregate v) = Some n /\
                to_checksum_address (asset v) = Ok a).
Proof.
  unfold get_voucher_typed_data, py_int. unfold_monad.
  split; [intros x He; rewrite He; reflexivity|].
  split; [intros e x He Hb; rewrite He, Hb; reflexivity|].
  split; [intros e b x He Hb Hs; rewrite He, Hb, Hs; reflexivity|].
  split; [intros e b s He Hb Hs Hn; rewrite He, Hb, Hs, Hn; reflexivity|].
  split; [intros e b s n x He Hb Hs Hn Ha; rewrite He, Hb, Hs, Hn, Ha; reflexivity|].
  intros td H.
  destruct (to_checksum_address (escrow v)) as [e|]; [|discriminate].
  destruct (to_checksum_address (buyer v)) as [b|]; [|discriminate].
  destruct (to_checksum_address (seller v)) as [s|]; [|discriminate].
  destruct (int_of_str (value_aggregate v)) as [n|]; [|discriminate].
  cbn [of_option] in H.
  destruct (to_checksum_address (asset v)) as [a|]; [|discriminate].
  exists e, b, s, n, a. auto.
Qed.


(** Errors of [aggregate_voucher] that are none of its own six.  A missing
    [extra] is refused as invalid aggregation data before the clock is read.
    An unknown network is reported once seller and asset have passed, even
    for an expired voucher.  An error raised while verifying (a malformed
    signature, a prior amount that is no integer in a voucher whose escrow,
    buyer and seller are addresses) is reported as it is, not as an invalid
    signature.  The amount required is read only after the
    signature has been verified: one that is no integer is refused then. *)
Theorem aggregate_voucher_collaborator_errors buyer_arg req w :
  (PaymentRequirements.extra req = None ->
   aggregate_voucher buyer_arg req w = (Err (InvalidAggregationSeed TypeError), w)) /\
  (forall ext,
      let v := ExtraAggregation.voucher ext in
      let now := wall_clock (ticks w) in
      let fails x :=
        aggregate_voucher buyer_arg req w = (Err x, World (heap w) (S (ticks w))) in
      DeferredPaymentRequirementsExtraAggregationVoucher (PaymentRequirements.extra req) w
        = (Ok ext, w) ->
      eq_nocase (PaymentRequirements.pay_to req) (seller v) = true ->
      eq_nocase (PaymentRequirements.asset req) (asset v) = true ->
      (forall x, get_chain_id (PaymentRequirements.network req) = Err x -> fails x) /\
      (get_chain_id (PaymentRequirements.network req) = Ok (chain_id v) ->
       now <= expiry v -> timestamp v <= now ->
       (forall x, verify_voucher v (ExtraAggregation.signature ext) buyer_arg = Err x ->
                  fails x) /\
       (forall e b s,
           to_checksum_address (escrow v) = Ok e ->
           to_checksum_address (buyer v) = Ok b ->
           to_checksum_address (seller v) = Ok s ->
           int_of_str (value_aggregate v) = None -> fails InvalidAmount) /\
       (verify_voucher v (ExtraAggregation.signature ext) buyer_arg = Ok true ->
        int_of_str (PaymentRequirements.max_amount_required req) = None ->
        fails InvalidAmount) /\
       (verify_voucher v (ExtraAggregation.signature ext) buyer_arg = Ok false ->
        int_of_str (PaymentRequirements.max_amount_required req) = None ->
        fails InvalidVoucherSignature))).
Proof.
  split.
  { intros Hx. unfold aggregate_voucher, try_wrap,
      DeferredPaymentRequirementsExtraAggregationVoucher. unfold_monad.
    rewrite Hx. reflexivity. }
  intros ext v now fails Hp Hs Ha. unfold fails. clear fails.
  unfold aggregate_voucher. unfold_monad. rewrite Hp.
  unfold time_now. cbn [heap ticks]. fold v. fold now. rewrite Hs, Ha. cbn [negb].
  split; [intros x Hc; rewrite Hc; reflexivity|].
  intros Hc He Ht. rewrite Hc, Z.eqb_refl. cbn [negb].
  assert (Hgt : (now >? expiry v) = false) by (rewrite Z.gtb_ltb; apply Z.ltb_ge; exact He).
  assert (Hlt : (now <? timestamp v) = false) by (apply Z.ltb_ge; exact Ht).
  rewrite Hgt, Hlt.
  split; [intros x Hv; rewrite Hv; reflexivity|].
  split.
  { intros e b s Hesc Hb Hsel Hn.
    assert (Hv : verify_voucher v (ExtraAggregation.signature ext) buyer_arg
                 = Err InvalidAmount).
    { unfold verify_voucher, signable_message, get_voucher_typed_data, py_int.
      unfold_monad. rewrite Hesc, Hb, Hsel, Hn. reflexivity. }
    rewrite Hv. reflexivity. }
  split.
  - intros Hv Hn. rewrite Hv. cbn [negb]. unfold py_int. rewrite Hn. reflexivity.
  - intros Hv Hn. rewrite Hv. reflexivity.
Qed.

(** What the validated seed of a new voucher holds. *)
Lemma extra_new_fields extra w ext w' :
  DeferredPaymentRequirementsExtraNewVoucher extra w = (Ok ext, w') ->
  exists seed_id seed_escrow,
    ExtraNew.voucher ext = [("id", seed_id); ("escrow", seed_escrow)].
Proof.
  unfold DeferredPaymentRequirementsExtraNewVoucher. destruct extra as [r|]; [|discriminate].
  unfold_monad. destruct (read_dict (PRef r) w) as [[d|x] w0]; [|discriminate].
  destruct (dict_get "type" d) as [ty|]; [|discriminate].
  destruct (dict_get "voucher" d) as [seed|]; [|discriminate].
  destruct (is_str "new" ty); [|discriminate].
  destruct (read_mapping seed w0) as [[sd|x] w1]; [|discriminate].
  destruct (get_str "id" sd) as [i|]; [|discriminate].
  destruct (get_str "escrow" sd) as [se|]; [|discriminate].
  intros H. injection H as <- _. exists i, se. reflexivity.
Qed.

(** [create_new_voucher] builds the fields in the order written.  With the
    seed accepted, the buyer is normalised first, then [pay_to], then the
    asset, and a failure of one of these is reported before the clock is
    read; the escrow of the seed and the network are looked at after the
    first reading of the clock, the escrow first. *)
Theorem create_new_voucher_error_order buyer_arg req w ext :
  DeferredPaymentRequirementsExtraNewVoucher (PaymentRequirements.extra req) w
    = (Ok ext, w) ->
  let fails_early x := create_new_voucher buyer_arg req w = (Err x, w) in
  let fails_late x :=
    create_new_voucher buyer_arg req w = (Err x, World (heap w) (S (ticks w))) in
  let buyer_ok := exists b, to_checksum_address buyer_arg = Ok b in
  let seller_ok := exists s, to_checksum_address (PaymentRequirements.pay_to req) = Ok s in
  let asset_ok := exists a, to_checksum_address (PaymentRequirements.asset req) = Ok a in
  (forall x, to_checksum_address buyer_arg = Err x -> fails_early x) /\
  (forall x, buyer_ok ->
             to_checksum_address (PaymentRequirements.pay_to req) = Err x ->
             fails_early x) /\
  (forall x, buyer_ok -> seller_ok ->
             to_checksum_address (PaymentRequirements.asset req) = Err x ->
             fails_early x) /\
  (forall seed_escrow x,
      buyer_ok -> seller_ok -> asset_ok ->
      dict_get "escrow" (ExtraNew.voucher ext) = Some seed_escrow ->
      to_checksum_address seed_escrow = Err x -> fails_late x) /\
  (forall seed_escrow e x,
      buyer_ok -> seller_ok -> asset_ok ->
      dict_get "escrow" (ExtraNew.voucher ext) = Some seed_escrow ->
      to_checksum_address seed_escrow = Ok e ->
      get_chain_id (PaymentRequirements.network req) = Err x -> fails_late x).
Proof.
  intros Hp fails_early fails_late buyer_ok seller_ok asset_ok.
  unfold fails_early, fails_late, buyer_ok, seller_ok, asset_ok.
  clear fails_early fails_late buyer_ok seller_ok asset_ok.
  destruct (extra_new_fields _ _ _ _ Hp) as (i & se & Hf).
  unfold create_new_voucher, try_wrap. unfold_monad. rewrite Hp, Hf.
  cbn [dict_get String.eqb Ascii.eqb Bool.eqb of_option].
  split; [intros x Hb; rewrite Hb; reflexivity|].
  split; [intros x [b Hb] Hs; rewrite Hb, Hs; reflexivity|].
  split; [intros x [b Hb] [s Hs] Ha; rewrite Hb, Hs, Ha; reflexivity|].
  split.
  - intros se' x [b Hb] [s Hs] [a Ha] Hse Hx. injection Hse as <-.
    rewrite Hb, Hs, Ha. unfold time_now. cbn [heap ticks]. rewrite Hx. reflexivity.
  - intros se' e x [b Hb] [s Hs] [a Ha] Hse He Hx. injection Hse as <-.
    rewrite Hb, Hs, Ha. unfold time_now. cbn [heap ticks]. rewrite He, Hx. reflexivity.
Qed.

(** [aggregate_voucher] reads [pay_to] and [asset] of the requirements only
    to compare them, letter case apart, with the prior voucher: requirements
    that spell them in another case give the same outcome, and the voucher
    returned keeps the spelling of the prior voucher. *)
Theorem aggregate_voucher_case_blind buyer_arg req w pay_to' asset' :
  lower pay_to' = lower (PaymentRequirements.pay_to req) ->
  lower asset' = lower (PaymentRequirements.asset req) ->
  aggregate_voucher buyer_arg (respelled pay_to' asset' req) w
  = aggregate_voucher buyer_arg req w.
Proof.
  intros Hpay Hasset. unfold aggregate_voucher, respelled, eq_nocase.
  cbn [PaymentRequirements.extra PaymentRequirements.pay_to PaymentRequirements.asset
       PaymentRequirements.network PaymentRequirements.max_amount_required].
  rewrite Hpay, Hasset. reflexivity.
Qed.

End ErrorPaths.

(** ** Lineages *)

Section LineageProperties.

Context {E : Externals}.

(** Along a lineage the [id], the [seller], the [asset], the [escrow] and the
    [chain_id] stay what they were; the nonce counts the rounds; timestamps
    never decrease (each round refuses a prior voucher stamped after the time
    it reads); after one round or more the expiry is thirty days after the
    timestamp; and the amount is the first amount plus every charge. *)
Theorem lineage_invariants charges v v' :
  lineage charges v v' ->
  id v' = id v /\ seller v' = seller v /\ asset v' = asset v /\
  escrow v' = escrow v /\ chain_id v' = chain_id v /\
  nonce v' = nonce v + Z.of_nat (length charges) /\
  timestamp v <= timestamp v' /\
  (charges <> [] ->
   expiry v' = timestamp v' + 2592000 /\
   exists first_amount,
     int_of_str (value_aggregate v) = Some first_amount /\
     int_of_str (value_aggregate v')
     = Some (first_amount + fold_right Z.add 0 charges)).
Proof.
  induction 1 as [v|charge charges v v' v'' Hl IH Hstep].
  - do 5 (split; [reflexivity|]). split; [cbn [length]; lia|]. split; [lia|].
    intros Hne. contradiction Hne. reflexivity.
  - destruct IH as (Hid & Hse & Has & Hes & Hch & Hno & Hts & Hrest).
    destruct Hstep as (buyer_arg & req & w & w' & ext & Hp & Hv & Hc & Hrun).
    apply aggregate_voucher_success in Hrun.
    destruct Hrun as (ext' & charge' & prior & vb & Hp' & _ & _ & _ & _ & _ & Hts' & _
                      & Hcharge & Hprior & _ & ->).
    cbv zeta in *. rewrite Hp in Hp'. injection Hp' as <-. rewrite Hv in *.
    unfold py_int in Hcharge, Hprior. rewrite Hc in Hcharge. cbn [of_option] in Hcharge.
    injection Hcharge as <-.
    destruct (int_of_str (value_aggregate v')) as [p|] eqn:Hpv; [|discriminate Hprior].
    cbn [of_option] in Hprior. injection Hprior as <-.
    cbn [id seller asset escrow chain_id nonce timestamp expiry value_aggregate length].
    change EXPIRY_TIME with 2592000.
    do 5 (split; [congruence|]). split; [lia|]. split; [lia|]. intros _.
    split; [reflexivity|].
    destruct charges as [|c cs].
    + inversion Hl; subst. exists p. split; [exact Hpv|].
      rewrite int_of_str_of_int. cbn [fold_right]. f_equal. lia.
    + destruct Hrest as (_ & first_amount & Hfirst & Hsum); [discriminate|].
      exists first_amount. split; [exact Hfirst|].
      rewrite int_of_str_of_int. injection Hsum as ->.
      cbn [fold_right]. f_equal. lia.
Qed.

End LineageProperties.

(** ** The header, from the requirements to the wire *)

Section HeaderProperties.

Context {E : Externals}.

(** [prepare_payment_header] goes by the [type] of the [extra]: for [new] it
    does what [create_new_voucher] does, for [aggregation] what
    [aggregate_voucher] does.  An error of either is passed on as it is, and
    no object has been made; a voucher of either is put in a new header that
    reads as the header of section 6 with no signature, made of three new
    objects, the objects there before being left as they were. *)
Theorem prepare_payment_header_dispatch sender version req w r d :
  PaymentRequirements.extra req = Some r ->
  heap w !! r = Some (ODict d) ->
  let follows (made : result DeferredEvmPayloadVoucher * world) :=
    match made with
    | (Ok v, w1) =>
        exists header w',
          prepare_payment_header sender version req w = (Ok header, w') /\
          ticks w' = ticks w1 /\
          (exists o1 o2 o3, heap w' = heap w ++ [o1; o2; o3]) /\
          snapshot (heap w') header
          = Some (header_tree version DEFERRED_SCHEME
                    (PaymentRequirements.network req) None v)
    | (Err x, w1) =>
        prepare_payment_header sender version req w = (Err x, w1) /\ heap w1 = heap w
    end in
  (dict_get "type" d = Some (PStr "new") ->
   follows (create_new_voucher sender req w)) /\
  (dict_get "type" d = Some (PStr "aggregation") ->
   follows (aggregate_voucher sender req w)).
Proof.
  intros Hx Hr follows.
  assert (Hgen : forall ty (m : M DeferredEvmPayloadVoucher),
    keeps_heap m ->
    dict_get "type" d = Some ty ->
    (if is_str "new" ty then create_new_voucher sender req
     else if is_str "aggregation" ty then aggregate_voucher sender req
     else raise (MalformedRequirements UnknownVoucherType)) = m ->
    follows (m w)).
  { intros ty m Hk Hty Hm. unfold follows. clear follows.
    unfold prepare_payment_header. rewrite Hx. unfold_monad.
    rewrite (read_dict_ref _ _ _ Hr). destruct d as [|kv d]; [discriminate Hty|].
    rewrite Hty, Hm. specialize (Hk w).
    destruct (m w) as [[v|x] w1]; cbn [snd] in Hk; [|split; [reflexivity|exact Hk]].
    unfold alloc. cbn [heap ticks]. rewrite Hk.
    eexists. eexists. split; [reflexivity|]. cbn [heap ticks].
    split; [reflexivity|]. split.
    - eexists. eexists. eexists. rewrite <- !app_assoc. reflexivity.
    - apply (snapshot_new_header (heap w) version (PaymentRequirements.network req) v). }
  split; intros Hty.
  - apply (Hgen _ _ (keeps_heap_create_new_voucher sender req) Hty). reflexivity.
  - apply (Hgen _ _ (keeps_heap_aggregate_voucher sender req) Hty). reflexivity.
Qed.

(** Every error of [sign_payment_header] is wrapped as a failure to sign the
    header.  A header without [payload], a payload without [voucher], a
    voucher the model refuses and a failure of the signer leave the header
    as it was.  A header that contains itself is signed all the same before
    the encoding fails: the error is raised with the signature already stored
    in the payload. *)
Theorem sign_payment_header_failures account req header w :
  (forall x w', sign_payment_header account req header w = (Err x, w') ->
                exists cause, x = SignHeaderFailed cause) /\
  (forall x, getitem header "payload" w = (Err x, w) ->
             sign_payment_header account req header w = (Err (SignHeaderFailed x), w)) /\
  (forall payload x,
      getitem header "payload" w = (Ok payload, w) ->
      getitem payload "voucher" w = (Err x, w) ->
      sign_payment_header account req header w = (Err (SignHeaderFailed x), w)) /\
  (forall payload voucher_dict x,
      getitem header "payload" w = (Ok payload, w) ->
      getitem payload "voucher" w = (Ok voucher_dict, w) ->
      DeferredEvmPayloadVoucher_of voucher_dict w = (Err x, w) ->
      sign_payment_header account req header w = (Err (SignHeaderFailed x), w)) /\
  (forall payload voucher_dict v x,
      getitem header "payload" w = (Ok payload, w) ->
      getitem payload "voucher" w = (Ok voucher_dict, w) ->
      DeferredEvmPayloadVoucher_of voucher_dict w = (Ok v, w) ->
      sign_voucher account v = Err x ->
      sign_payment_header account req header w = (Err (SignHeaderFailed x), w)) /\
  (forall p d voucher_dict v signature,
      getitem header "payload" w = (Ok (PRef p), w) ->
      heap w !! p = Some (ODict d) ->
      dict_get "voucher" d = Some voucher_dict ->
      DeferredEvmPayloadVoucher_of voucher_dict w = (Ok v, w) ->
      sign_voucher account v = Ok signature ->
      let signed := <[p := ODict (dict_set "signature" (PStr signature) d)]> (heap w) in
      snapshot signed header = None ->
      sign_payment_header account req header w
      = (Err (SignHeaderFailed CircularReference), World signed (ticks w))).
Proof.
  split.
  { unfold sign_payment_header, try_wrap. intros x w' H.
    match type of H with
    | match ?m with _ => _ end = _ => destruct m as [[a|x0] w0]
    end; [discriminate|]. injection H as <- _. exists x0. reflexivity. }
  unfold sign_payment_header, try_wrap. unfold_monad.
  split; [intros x Hg; rewrite Hg; reflexivity|].
  split; [intros payload x Hg Hv; rewrite Hg, Hv; reflexivity|].
  split; [intros payload vd x Hg Hv Hm; rewrite Hg, Hv, Hm; reflexivity|].
  split; [intros payload vd v x Hg Hv Hm Hs; rewrite Hg, Hv, Hm, Hs; reflexivity|].
  intros p d vd v signature Hg Hp Hd Hm Hs Hsnap.
  rewrite Hg.
  assert (Hv : getitem (PRef p) "voucher" w = (Ok vd, w)).
  { unfold getitem. unfold_monad. rewrite (read_dict_ref _ _ _ Hp), Hd. reflexivity. }
  rewrite Hv, Hm, Hs, Hg. unfold setitem. rewrite Hp.
  unfold encode_payment. cbn [heap ticks]. rewrite Hsnap. reflexivity.
Qed.

End HeaderProperties.

(** ** The codec on other payloads *)





Section CodecProperties.

Lemma decode_written (t : pytree) (w : world) :
  json_native t = true ->
  exists decoded w',
    decode_payment (safe_base64_encode (json_dumps t)) w = (Ok decoded, w') /\
    snapshot (heap w') decoded = Some t /\
    (exists fresh, heap w' = heap w ++ fresh) /\
    ticks w' = ticks w.
Proof.
  intros Hn. destruct (snapshot_build t (heap w)) as (fresh & Hh & Hb).
  exists (fst (build t (heap w))), (World (snd (build t (heap w))) (ticks w)).
  split.
  - unfold decode_payment. unfold_monad.
    rewrite (safe_base64_decode_encode _ (all_ascii_dumps t Hn)), (json_loads_dumps t Hn).
    unfold materialize. destruct (build t (heap w)). reflexivity.
  - cbn [heap ticks]. split; [exact Hb|]. split; [exists fresh; exact Hh|reflexivity].
Qed.


(** Every payload native to JSON (nested dictionaries and lists included)
    survives the round trip: decoding its encoding gives a new value with the
    same content.  So the encoding tells native payloads apart: two of them
    with the same encoding have the same content. *)
Theorem payment_roundtrip_native (w : world) :
  (forall payload t,
      snapshot (heap w) payload = Some t -> json_native t = true ->
      exists encoded decoded w',
        encode_payment payload w = (Ok encoded, w) /\
        decode_payment encoded w = (Ok decoded, w') /\
        snapshot (heap w') decoded = Some t /\
        snapshot (heap w') payload = Some t) /\
  (forall payload1 payload2 t1 t2 encoded,
      snapshot (heap w) payload1 = Some t1 -> json_native t1 = true ->
      snapshot (heap w) payload2 = Some t2 -> json_native t2 = true ->
      encode_payment payload1 w = (Ok encoded, w) ->
      encode_payment payload2 w = (Ok encoded, w) ->
      t1 = t2).
Proof.
  split.
  - intros payload t Hs Hn.
    destruct (decode_written t w Hn) as (decoded & w' & Hd & Hsd & [fresh Hh] & _).
    exists (safe_base64_encode (json_dumps t)), decoded, w'.
    split; [unfold encode_payment; rewrite Hs; reflexivity|].
    split; [exact Hd|]. split; [exact Hsd|].
    rewrite Hh. apply snapshot_extend. exact Hs.
  - intros p1 p2 t1 t2 encoded Hs1 Hn1 Hs2 Hn2 He1 He2.
    unfold encode_payment in He1, He2. rewrite Hs1 in He1. rewrite Hs2 in He2.
    injection He1 as He1. injection He2 as He2. rewrite <- He2 in He1.
    assert (Ht : safe_base64_decode (safe_base64_encode (json_dumps t1))
                 = safe_base64_decode (safe_base64_encode (json_dumps t2)))
      by (rewrite He1; reflexivity).
    rewrite (safe_base64_decode_encode _ (all_ascii_dumps t1 Hn1)),
            (safe_base64_decode_encode _ (all_ascii_dumps t2 Hn2)) in Ht.
    injection Ht as Ht.
    pose proof (json_loads_dumps t1 Hn1) as H1. rewrite Ht, (json_loads_dumps t2 Hn2) in H1.
    injection H1 as H1. symmetry. exact H1.
Qed.

End CodecProperties.

(** ** From aggregation to signing *)

Section SuccessorProperties.

Context {E : Externals}.

(** The voucher of a successful aggregation can be turned into typed data
    as soon as the normaliser accepts its buyer: the other addresses were
    accepted when the prior voucher was verified, and the new amount is the
    text of an integer.  The amount to be signed is the integer sum of the
    prior amount and the charge, the nonce the prior nonce plus one, and the
    domain that of the prior voucher. *)
Theorem aggregate_voucher_signable buyer_arg req w v' w' b' :
  aggregate_voucher buyer_arg req w = (Ok v', w') ->
  to_checksum_address (buyer v') = Ok b' ->
  exists ext prior charge td td',
    DeferredPaymentRequirementsExtraAggregationVoucher (PaymentRequirements.extra req) w
      = (Ok ext, w) /\
    int_of_str (value_aggregate (ExtraAggregation.voucher ext)) = Some prior /\
    int_of_str (PaymentRequirements.max_amount_required req) = Some charge /\
    get_voucher_typed_data (ExtraAggregation.voucher ext) = Ok td /\
    get_voucher_typed_data v' = Ok td' /\
    domain td' = domain td /\
    dict_get "valueAggregate" (message td') = Some (TDInt (prior + charge)) /\
    dict_get "nonce" (message td')
    = Some (TDInt (nonce (ExtraAggregation.voucher ext) + 1)) /\
    dict_get "buyer" (message td') = Some (TDStr b').
Proof.
  intros Hrun Hb'. apply aggregate_voucher_success in Hrun.
  destruct Hrun as (ext & charge & prior & vb & Hp & _ & _ & _ & _ & _ & _ & Hv
                    & Hcharge & Hprior & _ & ->).
  cbv zeta in *. set (v := ExtraAggregation.voucher ext) in *.
  cbn [buyer] in Hb'.
  unfold py_int in Hcharge, Hprior.
  destruct (int_of_str (PaymentRequirements.max_amount_required req)) as [c|] eqn:Hc;
    [|discriminate Hcharge].
  destruct (int_of_str (value_aggregate v)) as [p|] eqn:Hpv; [|discriminate Hprior].
  cbn [of_option] in Hcharge, Hprior. injection Hcharge as <-. injection Hprior as <-.
  unfold verify_voucher, signable_message in Hv. unfold_monad.
  destruct (get_voucher_typed_data v) as [td|] eqn:Htd; [|discriminate Hv]. clear Hv.
  pose proof Htd as Hfields. unfold get_voucher_typed_data, py_int in Hfields.
  unfold_monad. rewrite Hpv in Hfields. cbn [of_option] in Hfields.
  destruct (to_checksum_address (escrow v)) as [e|] eqn:He; [|discriminate Hfields].
  destruct (to_checksum_address (buyer v)) as [b|] eqn:Hb; [|discriminate Hfields].
  destruct (to_checksum_address (seller v)) as [s|] eqn:Hs; [|discriminate Hfields].
  destruct (to_checksum_address (asset v)) as [a|] eqn:Ha; [|discriminate Hfields].
  injection Hfields as <-.
  exists ext, p, c. eexists. eexists.
  split; [exact Hp|]. split; [exact Hpv|]. split; [reflexivity|].
  split; [exact Htd|].
  unfold get_voucher_typed_data, py_int. unfold_monad.
  cbn [escrow buyer seller asset value_aggregate chain_id id timestamp nonce expiry].
  rewrite He, Hb', Hs, int_of_str_of_int, Ha. cbn [of_option].
  split; [reflexivity|]. cbn [domain message].
  split; [reflexivity|]. split; [|split; [reflexivity|reflexivity]].
  cbn [dict_get String.eqb Ascii.eqb Bool.eqb]. rewrite (Z.add_comm c p). reflexivity.
Qed.

End SuccessorProperties.

(** ** The stand-in collaborators obey the signer's law *)




Lemma aggregate_voucher_additive_witness :
  exists v',
    aggregate_voucher (E := Scenario.frozen) Scenario.buyer_address Scenario.large_requirements
      (Scenario.aggregation_world Scenario.large_voucher)
      = (Ok v', World (Scenario.aggregation_heap Scenario.large_voucher) 1) /\
    value_aggregate v' = "340282366920938463481821351505477763072" /\
    nonce v' = 2.
Proof.
  destruct (aggregate_voucher_additive (E := Scenario.frozen)
              Scenario.buyer_address Scenario.large_requirements
              (Scenario.aggregation_world Scenario.large_voucher)
              {| ExtraAggregation.signature := Scenario.signature_of Scenario.large_voucher;
                 ExtraAggregation.voucher := Scenario.large_voucher |}
              340282366920938463463374607431768211456 18446744073709551616
              "0xAAAAAAAAAAAAAAAAAAAAAAAAAAAAAAAAAAAAAAAA"
              ltac:(vm_compute; reflexivity) ltac:(vm_compute; reflexivity)
              ltac:(vm_compute; reflexivity) ltac:(vm_compute; reflexivity)
              ltac:(vm_compute; discriminate) ltac:(vm_compute; discriminate)
              ltac:(vm_compute; reflexivity) ltac:(vm_compute; reflexivity)
              ltac:(vm_compute; reflexivity) ltac:(vm_compute; reflexivity))
    as (v' & Hrun & Hval & _ & Hn).
  exists v'. split; [exact Hrun|]. split; [rewrite Hval|rewrite Hn]; reflexivity.
Defined.

Lemma aggregate_voucher_validation_order_witness :
  verify_voucher (E := Scenario.frozen) Scenario.expired_voucher
    (Scenario.signature_of Scenario.expired_voucher) Scenario.buyer_address = Ok true /\
  aggregate_voucher (E := Scenario.frozen) Scenario.buyer_address
    Scenario.aggregation_requirements (Scenario.aggregation_world Scenario.expired_voucher)
    = (Err VoucherExpired, World (Scenario.aggregation_heap Scenario.expired_voucher) 1).
Proof.
  assert (Hv : verify_voucher (E := Scenario.frozen) Scenario.expired_voucher
                 (Scenario.signature_of Scenario.expired_voucher) Scenario.buyer_address
               = Ok true) by (vm_compute; reflexivity).
  split; [exact Hv|].
  destruct (aggregate_voucher_validation_order (E := Scenario.frozen)
              Scenario.buyer_address Scenario.aggregation_requirements
              (Scenario.aggregation_world Scenario.expired_voucher)
              {| ExtraAggregation.signature := Scenario.signature_of Scenario.expired_voucher;
                 ExtraAggregation.voucher := Scenario.expired_voucher |}
              ltac:(vm_compute; reflexivity))
    as (_ & _ & _ & _ & _ & _ & H).
  apply H; vm_compute; reflexivity.
Defined.

Lemma aggregate_voucher_frame_witness :
  exists v',
    aggregate_voucher (E := Scenario.frozen) Scenario.buyer_address
      Scenario.aggregation_requirements (Scenario.aggregation_world Scenario.existing_voucher)
      = (Ok v', World (Scenario.aggregation_heap Scenario.existing_voucher) 1) /\
    id v' = Scenario.voucher_id /\
    timestamp v' = 1700000000 /\
    expiry v' = 1702592000.
Proof.
  eexists. split; [vm_compute; reflexivity|].
  destruct (aggregate_voucher_frame (E := Scenario.frozen) Scenario.buyer_address
              Scenario.aggregation_requirements
              (Scenario.aggregation_world Scenario.existing_voucher) _ _
              ltac:(vm_compute; reflexivity))
    as (ext & _ & _ & _ & _ & _ & _ & _ & Ht & He & _).
  split; [reflexivity|]. split; [exact Ht|exact He].
Defined.

Lemma aggregate_voucher_copies_addresses_witness :
  exists v',
    aggregate_voucher (E := Scenario.frozen) Scenario.buyer_address
      Scenario.aggregation_requirements (Scenario.aggregation_world Scenario.existing_voucher)
      = (Ok v', World (Scenario.aggregation_heap Scenario.existing_voucher) 1) /\
    asset v' = "0x081827b8c3aa05287b5aa2bc3051fbe638f33152" /\
    @to_checksum_address Scenario.frozen (asset v')
      = Ok "0x081827B8C3AA05287B5AA2BC3051FBE638F33152" /\
    @to_checksum_address Scenario.frozen Scenario.buyer_address = Ok (buyer v').
Proof.
  eexists. split; [vm_compute; reflexivity|].
  destruct (aggregate_voucher_copies_addresses (E := Scenario.frozen) Scenario.buyer_address
              Scenario.aggregation_requirements
              (Scenario.aggregation_world Scenario.existing_voucher) _ _
              ltac:(vm_compute; reflexivity))
    as (ext & _ & _ & _ & _ & _ & _ & _ & Hb).
  split; [reflexivity|]. split; [vm_compute; reflexivity|exact Hb].
Defined.


(** C6, at a clock that ticks between the two readings of
    [create_new_voucher]: the voucher has nonce zero and the amount as
    supplied, and its expiry is thirty days and one second after its
    timestamp. *)
Theorem create_new_voucher_expiry_drift :
  exists v,
    create_new_voucher (E := Scenario.ticking) Scenario.buyer_address
      Scenario.new_requirements Scenario.new_world
      = (Ok v, World Scenario.new_heap 2) /\
    nonce v = 0 /\
    value_aggregate v = "1000000000000000000" /\
    timestamp v = 1700000000 /\
    expiry v = 1700000001 + EXPIRY_TIME /\
    expiry v - timestamp v = 2592001.
Proof.
  eexists. split; [vm_compute; reflexivity|]. repeat split.
Qed.

Lemma sign_payment_header_changes_header :
  let run :=
    sign_payment_header (E := Scenario.frozen) true Scenario.new_requirements
      Scenario.prepared_header Scenario.prepared_world in
  is_ok (fst run) = true /\
  snapshot (heap (snd run)) Scenario.prepared_header
    <> snapshot (heap Scenario.prepared_world) Scenario.prepared_header /\
  heap (snd run) <> heap Scenario.prepared_world.
Proof.
  cbv zeta. split; [vm_compute; reflexivity|].
  split; intros H; vm_compute in H; discriminate H.
Qed.

Lemma inputs_unchanged_but_signed_header_witness :
  exists encoded d signature,
    heap Scenario.prepared_world !! 3%nat = Some (ODict d) /\
    sign_payment_header (E := Scenario.frozen) true Scenario.new_requirements
      Scenario.prepared_header Scenario.prepared_world
    = (Ok encoded,
       World (<[3%nat := ODict (dict_set "signature" (PStr signature) d)]>
                (heap Scenario.prepared_world))
         (ticks Scenario.prepared_world)).
Proof.
  destruct (sign_payment_header (E := Scenario.frozen) true Scenario.new_requirements
              Scenario.prepared_header Scenario.prepared_world) as [[encoded|e] w'] eqn:Hrun;
    [|vm_compute in Hrun; discriminate Hrun].
  destruct (proj2 (proj2 (proj2 (proj2 (proj2 (proj2
              (inputs_unchanged_but_signed_header (E := Scenario.frozen)))))))
              true Scenario.new_requirements Scenario.prepared_header
              Scenario.prepared_world encoded w' Hrun)
    as (p & d & voucher & signature & Hg & Hl & _ & ->).
  assert (Hp : p = 3%nat) by (vm_compute in Hg; congruence). subst p.
  exists encoded, d, signature. split; [exact Hl|reflexivity].
Defined.

Lemma create_new_voucher_missing_extra :
  PaymentRequirements.extra Scenario.bare_requirements = None /\
  create_new_voucher (E := Scenario.frozen) Scenario.buyer_address
    Scenario.bare_requirements Scenario.new_world
  = (Err (InvalidVoucherSeed TypeError), Scenario.new_world) /\
  forall why w',
    create_new_voucher (E := Scenario.frozen) Scenario.buyer_address
      Scenario.bare_requirements Scenario.new_world
    <> (Err (MalformedRequirements why), w').
Proof.
  split; [reflexivity|]. split; [reflexivity|]. intros why w' H. discriminate H.
Qed.

Lemma malformed_requirements_errors_witness :
  prepare_payment_header (E := Scenario.frozen) Scenario.buyer_address 1
    Scenario.bare_requirements Scenario.new_world
  = (Err (MalformedRequirements NoTypeField), Scenario.new_world) /\
  prepare_payment_header (E := Scenario.frozen) Scenario.buyer_address 1
    (Scenario.requirements "1" (Some 0%nat)) (World Scenario.unknown_type_heap 0)
  = (Err (MalformedRequirements UnknownVoucherType), World Scenario.unknown_type_heap 0) /\
  create_new_voucher (E := Scenario.frozen) Scenario.buyer_address
    (Scenario.requirements "1" (Some 1%nat)) (World Scenario.seedless_heap 0)
  = (Err (InvalidVoucherSeed ValidationError), World Scenario.seedless_heap 0).
Proof.
  split; [|split].
  - apply (proj1 (malformed_requirements_errors (E := Scenario.frozen)
                    Scenario.buyer_address 1 Scenario.bare_requirements
                    Scenario.new_world)).
    reflexivity.
  - apply (proj1 (proj2 (proj2 (malformed_requirements_errors (E := Scenario.frozen)
                    Scenario.buyer_address 1 (Scenario.requirements "1" (Some 0%nat))
                    (World Scenario.unknown_type_heap 0))))
             0%nat [("type", PStr "refund")] (PStr "refund"));
      reflexivity.
  - apply (proj2 (proj2 (proj2 (proj2 (malformed_requirements_errors
                    (E := Scenario.frozen) Scenario.buyer_address 1
                    (Scenario.requirements "1" (Some 1%nat))
                    (World Scenario.seedless_heap 0)))))
             1%nat [("type", PStr "new"); ("voucher", PRef 0%nat)] 0%nat
             [("id", PStr Scenario.voucher_id)]);
      try reflexivity.
    right. reflexivity.
Defined.

Lemma create_new_voucher_fields_witness :
  exists v w',
    create_new_voucher (E := Scenario.frozen) Scenario.buyer_address
      Scenario.new_requirements Scenario.new_world = (Ok v, w') /\
    nonce v = 0 /\
    value_aggregate v = "1000000000000000000" /\
    expiry v - timestamp v = 2592000.
Proof.
  destruct (create_new_voucher (E := Scenario.frozen) Scenario.buyer_address
              Scenario.new_requirements Scenario.new_world) as [[v|e] w'] eqn:Hrun;
    [|vm_compute in Hrun; discriminate Hrun].
  destruct (create_new_voucher_fields (E := Scenario.frozen) _ _ _ _ _ Hrun)
    as (Hn & Hv & _ & _ & _ & _ & _ & _ & Hsame & _).
  exists v, w'. split; [reflexivity|]. split; [exact Hn|]. split; [exact Hv|].
  apply Hsame. reflexivity.
Defined.

Lemma sign_voucher_prefixed_witness :
  exists signature,
    sign_voucher (E := Scenario.frozen) true Scenario.existing_voucher = Ok signature /\
    startswith "0x" signature = true.
Proof.
  destruct (sign_voucher (E := Scenario.frozen) true Scenario.existing_voucher)
    as [signature|e] eqn:Hrun; [|vm_compute in Hrun; discriminate Hrun].
  exists signature. split; [reflexivity|].
  exact (sign_voucher_prefixed (E := Scenario.frozen) true Scenario.existing_voucher
           signature Hrun).
Defined.

Lemma prepare_payment_header_result_witness :
  exists v w',
    prepare_payment_header (E := Scenario.frozen) Scenario.buyer_address 1
      Scenario.new_requirements Scenario.new_world = (Ok (PRef 4%nat), w') /\
    snapshot (heap w') (PRef 4%nat)
    = Some (header_tree 1 "deferred" "base-sepolia" None v).
Proof.
  destruct (prepare_payment_header (E := Scenario.frozen) Scenario.buyer_address 1
              Scenario.new_requirements Scenario.new_world) as [[header|e] w'] eqn:Hrun;
    [|vm_compute in Hrun; discriminate Hrun].
  destruct (prepare_payment_header_result (E := Scenario.frozen) _ _ _ _ _ _ Hrun)
    as (v & w1 & _ & _ & -> & _ & Hs).
  exists v, w'. split; [reflexivity|exact Hs].
Defined.

Lemma aggregate_voucher_checked_witness :
  exists v',
    aggregate_voucher (E := Scenario.frozen) Scenario.buyer_address
      Scenario.aggregation_requirements (Scenario.aggregation_world Scenario.existing_voucher)
      = (Ok v', World (Scenario.aggregation_heap Scenario.existing_voucher) 1) /\
    expiry v' - timestamp v' = 2592000.
Proof.
  eexists. split; [vm_compute; reflexivity|].
  destruct (aggregate_voucher_checked (E := Scenario.frozen) Scenario.buyer_address
              Scenario.aggregation_requirements
              (Scenario.aggregation_world Scenario.existing_voucher) _ _
              ltac:(vm_compute; reflexivity))
    as (ext & _ & _ & _ & _ & _ & _ & _ & He).
  exact He.
Defined.

Lemma sign_payment_header_result_witness :
  exists signature w',
    sign_voucher (E := Scenario.frozen) true Scenario.new_voucher = Ok signature /\
    sign_payment_header (E := Scenario.frozen) true Scenario.new_requirements
      Scenario.prepared_header Scenario.prepared_world
    = (Ok (safe_base64_encode
             (json_dumps (header_tree 1 "deferred" "base-sepolia" (Some signature)
                            Scenario.new_voucher))), w') /\
    snapshot (heap w') Scenario.prepared_header
    = Some (header_tree 1 "deferred" "base-sepolia" (Some signature) Scenario.new_voucher).
Proof.
  destruct (sign_voucher (E := Scenario.frozen) true Scenario.new_voucher)
    as [signature|e] eqn:Hsig; [|vm_compute in Hsig; discriminate Hsig].
  destruct (sign_payment_header_result (E := Scenario.frozen) true
              Scenario.new_requirements Scenario.prepared_header Scenario.prepared_world
              1 "deferred" "base-sepolia" None Scenario.new_voucher signature
              ltac:(vm_compute; reflexivity) Hsig)
    as (w' & Hrun & Hs & _).
  exists signature, w'. split; [reflexivity|]. split; [exact Hrun|exact Hs].
Defined.

Lemma get_voucher_typed_data_error_order_witness :
  get_voucher_typed_data (E := Scenario.frozen) Cases.odd_voucher = Err InvalidAmount.
Proof.
  apply (proj1 (proj2 (proj2 (proj2
           (get_voucher_typed_data_error_order (E := Scenario.frozen) Cases.odd_voucher))))
           "0x7CB1A5A2A2C9E91B76914C0A7B7FB3AEFF3BCA27"
           "0xAAAAAAAAAAAAAAAAAAAAAAAAAAAAAAAAAAAAAAAA"
           "0xA1C7BF3D421E8A54D39FBBE13F9F826E5B2C8E3D"); reflexivity.
Defined.


Lemma aggregate_voucher_collaborator_errors_witness :
  aggregate_voucher (E := Scenario.frozen) Scenario.buyer_address
    (Cases.elsewhere (Some 1%nat)) (Scenario.aggregation_world Scenario.expired_voucher)
  = (Err UnknownNetwork, World (Scenario.aggregation_heap Scenario.expired_voucher) 1) /\
  aggregate_voucher (E := Scenario.frozen) Scenario.buyer_address
    (Cases.elsewhere None) Scenario.new_world
  = (Err (InvalidAggregationSeed TypeError), Scenario.new_world).
Proof.
  split.
  - destruct (DeferredPaymentRequirementsExtraAggregationVoucher (Some 1%nat)
                (Scenario.aggregation_world Scenario.expired_voucher))
      as [[ext|x] w0] eqn:Hp; [|vm_compute in Hp; discriminate Hp].
    assert (Hw : w0 = Scenario.aggregation_world Scenario.expired_voucher)
      by (vm_compute in Hp; injection Hp as _ <-; reflexivity).
    subst w0.
    assert (Hext : ExtraAggregation.voucher ext = Scenario.expired_voucher)
      by (vm_compute in Hp; injection Hp as <-; reflexivity).
    apply (proj1 (proj2 (aggregate_voucher_collaborator_errors (E := Scenario.frozen)
                           Scenario.buyer_address (Cases.elsewhere (Some 1%nat))
                           (Scenario.aggregation_world Scenario.expired_voucher))
                   ext Hp
                   ltac:(rewrite Hext; vm_compute; reflexivity)
                   ltac:(rewrite Hext; vm_compute; reflexivity))).
    reflexivity.
  - apply (proj1 (aggregate_voucher_collaborator_errors (E := Scenario.frozen)
                    Scenario.buyer_address (Cases.elsewhere None) Scenario.new_world)).
    reflexivity.
Defined.

Lemma create_new_voucher_error_order_witness :
  create_new_voucher (E := Scenario.frozen) "not-an-address" Scenario.new_requirements
    Scenario.new_world = (Err InvalidAddress, Scenario.new_world) /\
  create_new_voucher (E := Scenario.frozen) Scenario.buyer_address
    (Cases.elsewhere (Some 1%nat)) Scenario.new_world
  = (Err UnknownNetwork, World Scenario.new_heap 1).
Proof.
  destruct (DeferredPaymentRequirementsExtraNewVoucher (Some 1%nat) Scenario.new_world)
    as [[ext|x] w0] eqn:Hp; [|vm_compute in Hp; discriminate Hp].
  assert (Hw : w0 = Scenario.new_world)
    by (vm_compute in Hp; injection Hp as _ <-; reflexivity).
  subst w0.
  assert (Hext : ExtraNew.voucher ext
                 = [("id", Scenario.voucher_id); ("escrow", Scenario.escrow_address)])
    by (vm_compute in Hp; injection Hp as <-; reflexivity).
  split.
  - apply (proj1 (create_new_voucher_error_order (E := Scenario.frozen) "not-an-address"
                    Scenario.new_requirements Scenario.new_world ext Hp)).
    reflexivity.
  - apply (proj2 (proj2 (proj2 (proj2
             (create_new_voucher_error_order (E := Scenario.frozen) Scenario.buyer_address
                (Cases.elsewhere (Some 1%nat)) Scenario.new_world ext Hp))))
             Scenario.escrow_address "0x7CB1A5A2A2C9E91B76914C0A7B7FB3AEFF3BCA27").
    + eexists. vm_compute. reflexivity.
    + eexists. vm_compute. reflexivity.
    + eexists. vm_compute. reflexivity.
    + rewrite Hext. reflexivity.
    + vm_compute. reflexivity.
    + reflexivity.
Defined.

Lemma aggregate_voucher_case_blind_witness :
  exists v',
    aggregate_voucher (E := Scenario.frozen) Scenario.buyer_address
      (respelled (lower Scenario.seller_address) (Fake.upper Scenario.asset_address)
         Scenario.aggregation_requirements)
      (Scenario.aggregation_world Scenario.existing_voucher)
    = (Ok v', World (Scenario.aggregation_heap Scenario.existing_voucher) 1) /\
    seller v' = Scenario.seller_address.
Proof.
  rewrite (aggregate_voucher_case_blind (E := Scenario.frozen) Scenario.buyer_address
             Scenario.aggregation_requirements
             (Scenario.aggregation_world Scenario.existing_voucher)
             (lower Scenario.seller_address) (Fake.upper Scenario.asset_address)
             ltac:(vm_compute; reflexivity) ltac:(vm_compute; reflexivity)).
  eexists. split; [vm_compute; reflexivity|reflexivity].
Defined.

Lemma lineage_invariants_witness :
  lineage (E := Scenario.frozen) [500000000000000000; 500000000000000000]
    Scenario.existing_voucher Cases.second_round /\
  nonce Cases.second_round = 3 /\
  int_of_str (value_aggregate Cases.second_round) = Some 2000000000000000000 /\
  id Cases.second_round = Scenario.voucher_id.
Proof.
  assert (Hround : forall v,
    fst (aggregate_voucher (E := Scenario.frozen) Scenario.buyer_address
           Scenario.aggregation_requirements (Scenario.aggregation_world v))
    = Ok (Cases.round v) ->
    fst (DeferredPaymentRequirementsExtraAggregationVoucher (Some 1%nat)
           (Scenario.aggregation_world v))
    = Ok {| ExtraAggregation.signature := Scenario.signature_of v;
            ExtraAggregation.voucher := v |} ->
    aggregates_to (E := Scenario.frozen) 500000000000000000 v (Cases.round v)).
  { intros v Hrun Hp.
    exists Scenario.buyer_address, Scenario.aggregation_requirements,
      (Scenario.aggregation_world v),
      (snd (aggregate_voucher (E := Scenario.frozen) Scenario.buyer_address
              Scenario.aggregation_requirements (Scenario.aggregation_world v))),
      {| ExtraAggregation.signature := Scenario.signature_of v;
         ExtraAggregation.voucher := v |}.
    change (PaymentRequirements.extra Scenario.aggregation_requirements)
      with (Some 1%nat).
    split.
    - pose proof (extra_aggregation_world (Some 1%nat)
                    (Scenario.aggregation_world v)) as Hw.
      destruct (DeferredPaymentRequirementsExtraAggregationVoucher (Some 1%nat)
                  (Scenario.aggregation_world v)) as [r0 w0].
      cbn [fst] in Hp. subst r0. rewrite (Hw _ _ eq_refl). reflexivity.
    - split; [reflexivity|]. split; [vm_compute; reflexivity|].
      destruct (aggregate_voucher (E := Scenario.frozen) Scenario.buyer_address
                  Scenario.aggregation_requirements (Scenario.aggregation_world v))
        as [r0 w0].
      cbn [fst snd] in *. subst r0. reflexivity. }
  assert (Hl : lineage (E := Scenario.frozen) [500000000000000000; 500000000000000000]
                 Scenario.existing_voucher Cases.second_round).
  { apply (lineage_round (E := Scenario.frozen) _ _ _ Cases.first_round).
    - apply (lineage_round (E := Scenario.frozen) _ _ _ Scenario.existing_voucher).
      + apply lineage_start.
      + apply Hround; vm_compute; reflexivity.
    - apply Hround; vm_compute; reflexivity. }
  split; [exact Hl|].
  destruct (lineage_invariants (E := Scenario.frozen) _ _ _ Hl)
    as (Hid & _ & _ & _ & _ & Hn & _ & Hrest).
  destruct Hrest as (_ & first_amount & Hfirst & Hsum); [discriminate|].
  split; [exact Hn|]. split; [|exact Hid].
  rewrite Hsum. vm_compute in Hfirst. injection Hfirst as <-. reflexivity.
Defined.

Lemma prepare_payment_header_dispatch_witness :
  exists header w',
    prepare_payment_header (E := Scenario.frozen) Scenario.buyer_address 1
      Scenario.aggregation_requirements (Scenario.aggregation_world Scenario.existing_voucher)
    = (Ok header, w') /\
    snapshot (heap w') header
    = Some (header_tree 1 "deferred" "base-sepolia" None Cases.first_round).
Proof.
  pose proof (proj2 (prepare_payment_header_dispatch (E := Scenario.frozen)
                       Scenario.buyer_address 1 Scenario.aggregation_requirements
                       (Scenario.aggregation_world Scenario.existing_voucher) 1%nat
                       [ ("type", PStr "aggregation");
                         ("signature", PStr (Scenario.signature_of Scenario.existing_voucher));
                         ("voucher", PRef 0%nat) ]
                       eq_refl eq_refl) eq_refl) as H.
  destruct (aggregate_voucher (E := Scenario.frozen) Scenario.buyer_address
              Scenario.aggregation_requirements
              (Scenario.aggregation_world Scenario.existing_voucher))
    as [[v|x] w1] eqn:Hrun; [|vm_compute in Hrun; discriminate Hrun].
  destruct H as (header & w' & Hp & _ & _ & Hs).
  assert (Hv : v = Cases.first_round).
  { unfold Cases.first_round, Cases.round. rewrite Hrun. reflexivity. }
  subst v. exists header, w'. split; [exact Hp|exact Hs].
Defined.

Lemma sign_payment_header_failures_witness :
  exists signature,
    sign_voucher (E := Scenario.frozen) true Scenario.new_voucher = Ok signature /\
    sign_payment_header (E := Scenario.frozen) true Scenario.new_requirements
      (PRef 2%nat) (World Cases.cyclic_heap 0)
    = (Err (SignHeaderFailed CircularReference),
       World (<[1%nat := ODict [ ("signature", PStr signature); ("voucher", PRef 0%nat) ]]>
                Cases.cyclic_heap) 0) /\
    sign_payment_header (E := Scenario.frozen) true Scenario.new_requirements
      (PRef 0%nat) (World Cases.cyclic_heap 0)
    = (Err (SignHeaderFailed (KeyError "payload")), World Cases.cyclic_heap 0).
Proof.
  destruct (sign_voucher (E := Scenario.frozen) true Scenario.new_voucher)
    as [signature|x] eqn:Hsig; [|vm_compute in Hsig; discriminate Hsig].
  exists signature. split; [reflexivity|]. split.
  - apply (proj2 (proj2 (proj2 (proj2 (proj2
             (sign_payment_header_failures (E := Scenario.frozen) true
                Scenario.new_requirements (PRef 2%nat) (World Cases.cyclic_heap 0))))))
             1%nat [ ("signature", PNone); ("voucher", PRef 0%nat) ] (PRef 0%nat)
             Scenario.new_voucher signature);
      try reflexivity; exact Hsig.
  - apply (proj1 (proj2 (sign_payment_header_failures (E := Scenario.frozen) true
                           Scenario.new_requirements (PRef 0%nat)
                           (World Cases.cyclic_heap 0)))).
    reflexivity.
Defined.


Lemma payment_roundtrip_native_witness :
  exists encoded decoded w',
    encode_payment (PRef 1%nat) (World Cases.nested_heap 0)
    = (Ok encoded, World Cases.nested_heap 0) /\
    decode_payment encoded (World Cases.nested_heap 0) = (Ok decoded, w') /\
    snapshot (heap w') decoded
    = Some (TDict [ ("items", TList [ TInt 1; TStr "two"; TNone; TBool true ]);
                    ("count", TInt 4) ]).
Proof.
  destruct (proj1 (payment_roundtrip_native (World Cases.nested_heap 0))
              (PRef 1%nat)
              (TDict [ ("items", TList [ TInt 1; TStr "two"; TNone; TBool true ]);
                       ("count", TInt 4) ])
              eq_refl eq_refl)
    as (encoded & decoded & w' & He & Hd & Hs & _).
  exists encoded, decoded, w'. split; [exact He|]. split; [exact Hd|exact Hs].
Defined.

Lemma aggregate_voucher_signable_witness :
  exists td',
    get_voucher_typed_data (E := Scenario.frozen) Cases.first_round = Ok td' /\
    dict_get "valueAggregate" (message td') = Some (TDInt 1500000000000000000) /\
    dict_get "nonce" (message td') = Some (TDInt 2).
Proof.
  destruct (aggregate_voucher (E := Scenario.frozen) Scenario.buyer_address
              Scenario.aggregation_requirements
              (Scenario.aggregation_world Scenario.existing_voucher))
    as [[v|x] w1] eqn:Hrun; [|vm_compute in Hrun; discriminate Hrun].
  assert (Hv : v = Cases.first_round).
  { unfold Cases.first_round, Cases.round. rewrite Hrun. reflexivity. }
  subst v.
  destruct (aggregate_voucher_signable (E := Scenario.frozen) _ _ _ _ _
              "0xAAAAAAAAAAAAAAAAAAAAAAAAAAAAAAAAAAAAAAAA" Hrun
              ltac:(vm_compute; reflexivity))
    as (ext & prior & charge & td & td' & Hp & Hprior & Hcharge & _ & Htd' & _ & Hval
        & Hnonce & _).
  exists td'. split; [exact Htd'|].
  assert (Hext : ExtraAggregation.voucher ext = Scenario.existing_voucher)
    by (vm_compute in Hp; injection Hp as <-; reflexivity).
  rewrite Hext in Hprior, Hnonce.
  vm_compute in Hprior. injection Hprior as <-.
  vm_compute in Hcharge. injection Hcharge as <-.
  split; [exact Hval|exact Hnonce].
Defined.
